(** * go-web-search-mcp: the search coordinator and its engines

    A shallow embedding of [internal/engine] and of the part of
    [internal/config] the coordinator consults.  Go strings are byte
    strings ([string]), Go [int] values are [Z], slices are lists, the
    engine registry (a Go map) is a [gmap], an [error] is its message
    (what [err.Error()] yields), and a [nil] error is [None]. *)

From Stdlib Require Import ZArith List String Ascii Bool Lia.
From stdpp Require Import base option list gmap strings pretty.
Import ListNotations.

Local Open Scope string_scope.
Local Open Scope Z_scope.
Local Open Scope list_scope.

(** ** Go library functions on byte strings *)

Module GoStrings.

(** [len(s)] *)
Definition len (s : string) : Z := Z.of_nat (String.length s).

(** [s[:n]] for [0 <= n <= len(s)] *)
Fixpoint take (n : nat) (s : string) : string :=
  match n, s with
  | O, _ => ""
  | S _, EmptyString => ""
  | S n', String c s' => String c (take n' s')
  end.

(** [s[n:]] *)
Fixpoint drop (n : nat) (s : string) : string :=
  match n, s with
  | O, _ => s
  | S _, EmptyString => ""
  | S n', String _ s' => drop n' s'
  end.

(** [strings.HasPrefix(s, p)] *)
Definition HasPrefix (s p : string) : bool := String.prefix p s.

(** [strings.TrimPrefix(s, p)] *)
Definition TrimPrefix (s p : string) : string :=
  if HasPrefix s p then drop (String.length p) s else s.

(** [strings.Contains(s, sub)] *)
Fixpoint Contains (s sub : string) : bool :=
  String.prefix sub s ||
  match s with
  | EmptyString => false
  | String _ s' => Contains s' sub
  end.

(** The string of the bytes with the given codes. *)
Definition bytes (codes : list nat) : string :=
  fold_right (fun n s => String (ascii_of_nat n) s) "" codes.

(** The runes [unicode.IsSpace] accepts, as the UTF-8 bytes a Go string
    holds them in: tab, line feed, vertical tab, form feed, carriage
    return and space, then U+0085, U+00A0, U+1680, U+2000 to U+200A,
    U+2028, U+2029, U+202F, U+205F and U+3000. *)
Definition white_space : list string :=
  map bytes
    ([[9]; [10]; [11]; [12]; [13]; [32];
      [194; 133]; [194; 160]; [225; 154; 128];
      [226; 128; 128]; [226; 128; 129]; [226; 128; 130]; [226; 128; 131];
      [226; 128; 132]; [226; 128; 133]; [226; 128; 134]; [226; 128; 135];
      [226; 128; 136]; [226; 128; 137]; [226; 128; 138];
      [226; 128; 168]; [226; 128; 169]; [226; 128; 175]; [226; 129; 159];
      [227; 128; 128]])%nat.

(** Remove from the front of [s] the runes of [runes] it begins with;
    one unit of fuel per rune removed. *)
Fixpoint strip (fuel : nat) (runes : list string) (s : string) : string :=
  match fuel with
  | O => s
  | S fuel' =>
      match List.find (fun r => String.prefix r s) runes with
      | Some r => strip fuel' runes (drop (String.length r) s)
      | None => s
      end
  end.

Fixpoint rev_append (s acc : string) : string :=
  match s with
  | EmptyString => acc
  | String c s' => rev_append s' (String c acc)
  end.

Definition reverse (s : string) : string := rev_append s "".

(** [strings.TrimLeftFunc(s, unicode.IsSpace)]: decoding from the front,
    a white space rune is read exactly where its bytes stand. *)
Definition trim_left (s : string) : string :=
  strip (String.length s) white_space s.

(** [strings.TrimRightFunc(s, unicode.IsSpace)]: decoding from the back,
    a white space rune is read exactly where [s] ends with its bytes. *)
Definition trim_right (s : string) : string :=
  reverse (strip (String.length s) (map reverse white_space) (reverse s)).

(** [strings.TrimSpace(s)]: leading and trailing Unicode white space is
    removed. *)
Definition TrimSpace (s : string) : string := trim_right (trim_left s).

Fixpoint replace_all (fuel : nat) (s old new : string) : string :=
  match fuel with
  | O => s
  | S fuel' =>
      match s with
      | EmptyString => ""
      | String c s' =>
          if String.prefix old s
          then new +:+ replace_all fuel' (drop (String.length old) s) old new
          else String c (replace_all fuel' s' old new)
      end
  end.

(** [strings.ReplaceAll(s, old, new)] for a non-empty [old]; one unit of
    fuel per byte of [s] is enough. *)
Definition ReplaceAll (s old new : string) : string :=
  replace_all (String.length s) s old new.

(** [contains] of [internal/config/config.go] *)
Fixpoint contains (slice : list string) (item : string) : bool :=
  match slice with
  | [] => false
  | s :: rest => if String.eqb s item then true else contains rest item
  end.

End GoStrings.

Import GoStrings.

(** ** types.go *)

Record SearchResult := mkResult {
  Title : string;
  URL : string;
  Description : string;
  Source : string;
  Engine : string
}.

Definition error := string.

Definition Results : Type := list SearchResult * option error.

(** The [SearchEngine] interface as the coordinator sees it: a name and
    the pair one [Search(ctx, query, limit)] call comes back with. *)
Record SearchEngine := mkEngine {
  Name : string;
  Search : string -> Z -> Results
}.

Record SearchRequest := mkRequest {
  Query : string;
  Limit : Z;
  Engines : list string
}.

(** ** config.go *)

Module config.

Record Config := mkConfig {
  DefaultEngine : string;
  AllowedEngines : list string
}.

Definition ValidEngines : list string :=
  ["bing"; "baidu"; "duckduckgo"; "google"; "sogou";
   "browser_bing"; "browser_baidu"; "browser_google"].

Definition isValidEngine (engine : string) : bool :=
  contains ValidEngines engine.

Definition IsEngineAllowed (c : Config) (engine : string) : bool :=
  if Nat.eqb (length (AllowedEngines c)) 0
  then isValidEngine engine
  else contains (AllowedEngines c) engine.

Definition GetDefaultSearchEngine (c : Config) : string := DefaultEngine c.

End config.

(** ** manager.go *)

Module Manager.

Record Manager := mkManager {
  engines : gmap string SearchEngine;
  cfg : config.Config
}.

Definition RegisterEngine (m : Manager) (engine : SearchEngine) : Manager :=
  {| engines := <[Name engine := engine]> (engines m); cfg := cfg m |}.

Definition GetEngine (m : Manager) (name : string) : option SearchEngine :=
  engines m !! name.

(** The variables the goroutines share under [mu]. *)
Record Shared := mkShared {
  allResults : list SearchResult;
  lastErr : option error
}.

Definition shared0 : Shared := {| allResults := []; lastErr := None |}.

(** The [for _, engineName := range engines] loop: the engines a
    goroutine is started for, in launch order. *)
Fixpoint launch (m : Manager) (names : list string) : list SearchEngine :=
  match names with
  | [] => []
  | engineName :: rest =>
      if negb (config.IsEngineAllowed (cfg m) engineName) then launch m rest
      else match GetEngine m engineName with
           | None => launch m rest
           | Some engine => engine :: launch m rest
           end
  end.

(** One goroutine: call the engine, then update the shared variables
    under the mutex. *)
Definition task (query : string) (limit : Z) (sh : Shared) (eng : SearchEngine)
  : Shared :=
  match Search eng query limit with
  | (_, Some err) => {| allResults := allResults sh; lastErr := Some err |}
  | (results, None) =>
      {| allResults := allResults sh ++ results; lastErr := lastErr sh |}
  end.

(** The results of the engines that returned no error, and the errors of
    the others, in completion order. *)
Definition succeeded (query : string) (limit : Z) (done : list SearchEngine)
  : list SearchResult :=
  flat_map (fun eng => match Search eng query limit with
                       | (results, None) => results
                       | (_, Some _) => []
                       end) done.

Definition failures (query : string) (limit : Z) (done : list SearchEngine)
  : list error :=
  flat_map (fun eng => match Search eng query limit with
                       | (_, Some err) => [err]
                       | (_, None) => []
                       end) done.

(** What happens after [wg.Wait()]. *)
Definition finish (sh : Shared) : Results :=
  match allResults sh, lastErr sh with
  | [], Some err => ([], Some ("all searches failed, last error: " +:+ err))
  | _, _ => (allResults sh, None)
  end.

(** The goroutines finished in the order [done]. *)
Definition run_tasks (query : string) (limit : Z) (done : list SearchEngine)
  : Results :=
  finish (fold_left (task query limit) done shared0).

Definition effective_engines (m : Manager) (req : SearchRequest) : list string :=
  match Engines req with
  | [] => [config.GetDefaultSearchEngine (cfg m)]
  | names => names
  end.

Definition effective_limit (req : SearchRequest) : Z :=
  if Limit req <=? 0 then 10 else Limit req.

(** [Search_names m query limit names out]: the body of [Manager.Search]
    from the [for] loop on may return [out]; the mutex lets the
    goroutines update the shared variables in any order. *)
Inductive Search_names (m : Manager) (query : string) (limit : Z)
    (names : list string) : Results -> Prop :=
| Search_intro (done : list SearchEngine) :
    launch m names ≡ₚ done ->
    Search_names m query limit names (run_tasks query limit done).

Definition Search (m : Manager) (req : SearchRequest) (out : Results) : Prop :=
  Search_names m (Query req) (effective_limit req) (effective_engines m req) out.

(** The run in which the goroutines finish in launch order. *)
Definition Search_in_launch_order (m : Manager) (req : SearchRequest) : Results :=
  run_tasks (Query req) (effective_limit req)
            (launch m (effective_engines m req)).

End Manager.

(** ** The world outside the process

    Every outbound request is answered by the network; every question to
    the local machine (is there a Chrome binary, does it start) by the
    operating system.  The answers may be arbitrary and may change from
    one request to the next, so each oracle also gets the number of events
    the process has produced so far. *)

Inductive Request :=
| BingGet (query : string) (first : Z)
| DuckDuckGoGet (query : string)
| BaiduHomeGet
| BaiduGet (query : string) (pn : Z)
| BaiduMobileGet (query : string) (pn : Z)
| SogouGet (query : string) (page : option Z).

(** What [client.Do] followed by [io.ReadAll] can produce: no response at
    all, or a status code with the bytes that could be read and the read
    error, if any. *)
Inductive Response :=
| TransportError (msg : error)
| HttpResponse (status : Z) (body : string) (readErr : option error).

(** A browser tab navigating to a result page ([chromedp.Run] with
    [Navigate ... OuterHTML]). *)
Inductive Navigation :=
| Navigate (engine : string) (query : string) (offset : Z).

Inductive Event :=
| EvHttp (req : Request)
| EvStat                      (* findChromePath looks for a binary *)
| EvLaunch (proxy : string) (headless : bool)  (* the warm-up chromedp.Run *)
| EvTab (nav : Navigation).

(** A goquery selection: the matched nodes; each node answers the
    selectors the extractors ask about with the nodes they match below it. *)
#[warnings="-register-all"]
Inductive Node :=
| mkNode (text : string) (attrs : list (string * string))
         (matches : list (string * list Node)).

Definition Selection := list Node.

Record World := mkWorld {
  http_do : nat -> Request -> Response;
  chrome_path : nat -> string;                 (* "" when no binary is found *)
  chrome_start : nat -> option error;
  chrome_run : nat -> Navigation -> string + error;
  html_parse : string -> Selection + error;    (* goquery.NewDocumentFromReader *)
  regex_links : string -> list (list string);  (* urlPattern.FindAllStringSubmatch *)
  url_host : string -> option string;          (* url.Parse(s).Host *)
  url_query : string -> string -> option string; (* url.Parse(s).Query().Get(k) *)
  query_unescape : string -> option string;    (* url.QueryUnescape *)
  browser_parseHTML : string -> string -> Results (* parseHTML of a browser engine *)
}.

(** browser.go: the singleton's fields; [mu] is the mutex (true: held). *)
Record BrowserManager := mkBM {
  mu : bool;
  initialized : bool;
  proxyURL : string;
  headless : bool;
  hasContexts : bool   (* allocCtx, browserCtx and their cancel functions are set *)
}.

Record State := mkState {
  log : list Event;
  bm : BrowserManager
}.

(** Why a call does not come back. *)
Inductive Stuck :=
| Blocked       (* parked for ever on a mutex nobody will release *)
| Panicked      (* run-time panic *)
| OutOfFuel.    (* the model's loop bound was too small *)

Inductive Run (A : Type) :=
| Ret (a : A) (st : State)
| Stop (why : Stuck) (st : State).

Arguments Ret {A} a st.
Arguments Stop {A} why st.

Definition M (A : Type) : Type := State -> Run A.

Definition ret {A} (a : A) : M A := fun st => Ret a st.

Definition bind {A B} (m : M A) (k : A -> M B) : M B :=
  fun st => match m st with
            | Ret a st' => k a st'
            | Stop why st' => Stop why st'
            end.

Definition stop {A} (why : Stuck) : M A := fun st => Stop why st.

Declare Scope go_scope.
Delimit Scope go_scope with go.
Notation "x <- m ;; k" := (bind m (fun x => k))
  (at level 100, m at next level, right associativity) : go_scope.
Notation "m ;;; k" := (bind m (fun _ => k))
  (at level 100, right associativity) : go_scope.
Local Open Scope go_scope.

Definition emit (e : Event) : M nat :=
  fun st => Ret (length (log st)) {| log := log st ++ [e]; bm := bm st |}.

Definition get_bm : M BrowserManager := fun st => Ret (bm st) st.

Definition set_bm (b : BrowserManager) : M unit :=
  fun st => Ret tt {| log := log st; bm := b |}.

(** [client.Do(req)] and reading the body. *)
Definition http (w : World) (req : Request) : M Response :=
  i <- emit (EvHttp req) ;; ret (http_do w i req).

(** ** goquery *)

Module goquery.

Definition text (n : Node) : string := let 'mkNode t _ _ := n in t.
Definition attrs (n : Node) : list (string * string) := let 'mkNode _ a _ := n in a.
Definition matches (n : Node) : list (string * list Node) :=
  let 'mkNode _ _ m := n in m.

Fixpoint assoc {A} (k : string) (l : list (string * A)) : option A :=
  match l with
  | [] => None
  | (k', v) :: rest => if String.eqb k' k then Some v else assoc k rest
  end.

(** [s.Find(selector)] *)
Definition Find (s : Selection) (selector : string) : Selection :=
  flat_map (fun n => default [] (assoc selector (matches n))) s.

(** [s.Children()] *)
Definition Children (s : Selection) : Selection := Find s "> *".

(** [s.First()] *)
Definition First (s : Selection) : Selection := firstn 1 s.

(** [s.Length()] *)
Definition Length (s : Selection) : Z := Z.of_nat (length s).

(** [s.Text()] *)
Definition Text (s : Selection) : string :=
  fold_right (fun n acc => text n +:+ acc) "" s.

(** [s.Attr(name)]: the value and whether the attribute exists. *)
Definition Attr (s : Selection) (name : string) : string * bool :=
  match s with
  | [] => ("", false)
  | n :: _ => match assoc name (attrs n) with
              | Some v => (v, true)
              | None => ("", false)
              end
  end.

End goquery.

(** ** browser.go *)

Module BrowserManager.

(** What [NewTabContext] hands out: a tab of the shared browser with a
    deadline, or [context.Background()]. *)
Inductive TabContext :=
| Background
| Tab (timeout : Z).

(** [GetBrowserManager]'s fresh singleton. *)
Definition fresh : BrowserManager :=
  {| mu := false; initialized := false; proxyURL := ""; headless := true;
     hasContexts := false |}.

(** [bm.mu.Lock()]: a goroutine that asks for a mutex which is held, with
    nobody left to release it, never continues. *)
Definition Lock : M unit :=
  b <- get_bm ;;
  if mu b then stop Blocked
  else set_bm {| mu := true; initialized := initialized b;
                 proxyURL := proxyURL b; headless := headless b;
                 hasContexts := hasContexts b |}.

(** [bm.mu.Unlock()] *)
Definition Unlock : M unit :=
  b <- get_bm ;;
  if mu b
  then set_bm {| mu := false; initialized := initialized b;
                 proxyURL := proxyURL b; headless := headless b;
                 hasContexts := hasContexts b |}
  else stop Panicked.

Definition findChromePath (w : World) : M string :=
  i <- emit EvStat ;; ret (chrome_path w i).

(** [Initialize] between [bm.mu.Lock()] and the deferred [Unlock]. *)
Definition Initialize_locked (w : World) (proxy : string) (hl : bool)
  : M (option error) :=
  b <- get_bm ;;
  if initialized b then ret None
  else
    set_bm {| mu := mu b; initialized := false; proxyURL := proxy;
              headless := hl; hasContexts := hasContexts b |} ;;;
    chromePath <- findChromePath w ;;
    if String.eqb chromePath ""
    then ret (Some "Chrome/Chromium not found. Please install Chrome browser")
    else
      set_bm {| mu := mu b; initialized := false; proxyURL := proxy;
                headless := hl; hasContexts := true |} ;;;
      i <- emit (EvLaunch proxy hl) ;;
      match chrome_start w i with
      | Some err => ret (Some ("failed to start browser: " +:+ err))
      | None =>
          set_bm {| mu := mu b; initialized := true; proxyURL := proxy;
                    headless := hl; hasContexts := true |} ;;;
          ret None
      end.

Definition Initialize (w : World) (proxy : string) (hl : bool)
  : M (option error) :=
  Lock ;;;
  r <- Initialize_locked w proxy hl ;;
  Unlock ;;;
  ret r.

Definition NewTabContext (w : World) (timeout : Z) : M TabContext :=
  Lock ;;;
  b <- get_bm ;;
  failed <- (if negb (initialized b)
             then err <- Initialize w "" true ;;
                  ret (match err with Some _ => true | None => false end)
             else ret false) ;;
  Unlock ;;;
  ret (if failed : bool then Background else Tab timeout).

Definition Close : M unit :=
  Lock ;;;
  b <- get_bm ;;
  set_bm {| mu := mu b; initialized := false; proxyURL := proxyURL b;
            headless := headless b; hasContexts := hasContexts b |} ;;;
  Unlock.

Definition IsInitialized : M bool :=
  Lock ;;;
  b <- get_bm ;;
  Unlock ;;;
  ret (initialized b).

(** [chromedp.Run(tabCtx, Navigate(url), ..., OuterHTML("html", &html))] *)
Definition run_tab (w : World) (ctx : TabContext) (nav : Navigation)
  : M (string + error) :=
  match ctx with
  | Background => ret (inr "invalid context")
  | Tab _ => i <- emit (EvTab nav) ;; ret (chrome_run w i nav)
  end.

(** *** Many goroutines calling [Initialize] at once

    Each caller is before its [Lock], inside the critical section, or
    back with its result.  One step lets one caller take the free mutex,
    or lets the holder run the body and release it. *)
Inductive Caller :=
| Waiting (proxy : string) (hl : bool)
| Holding (proxy : string) (hl : bool)
| Finished (result : option error).

Record Pool := mkPool {
  callers : list Caller;
  shared : State
}.

Definition with_mu (held : bool) (st : State) : State :=
  {| log := log st;
     bm := {| mu := held; initialized := initialized (bm st);
              proxyURL := proxyURL (bm st); headless := headless (bm st);
              hasContexts := hasContexts (bm st) |} |}.

Inductive step (w : World) : Pool -> Pool -> Prop :=
| step_lock i cs st proxy hl :
    cs !! i = Some (Waiting proxy hl) ->
    mu (bm st) = false ->
    step w {| callers := cs; shared := st |}
           {| callers := <[i := Holding proxy hl]> cs;
              shared := with_mu true st |}
| step_body i cs st proxy hl r st' :
    cs !! i = Some (Holding proxy hl) ->
    Initialize_locked w proxy hl st = Ret r st' ->
    step w {| callers := cs; shared := st |}
           {| callers := <[i := Finished r]> cs;
              shared := with_mu false st' |}.

Inductive steps (w : World) : nat -> Pool -> Pool -> Prop :=
| steps_refl p : steps w 0 p p
| steps_more n p q r : steps w n p q -> step w q r -> steps w (S n) p r.

Definition is_finished (c : Caller) : bool :=
  match c with Finished _ => true | _ => false end.

Definition all_finished (p : Pool) : bool := forallb is_finished (callers p).

(** How many initialization sequences have run: each one starts by
    looking for the binary. *)
Definition init_sequences (st : State) : nat :=
  length (List.filter (fun e => match e with EvStat => true | _ => false end)
                      (log st)).

(** [n] callers, nobody has started, the singleton is fresh. *)
Definition start (args : list (string * bool)) : Pool :=
  {| callers := map (fun a => Waiting (fst a) (snd a)) args;
     shared := {| log := []; bm := fresh |} |}.

Definition is_holding (c : Caller) : bool :=
  match c with Holding _ _ => true | _ => false end.

(** How many callers are inside the critical section. *)
Definition holding (cs : list Caller) : nat :=
  length (List.filter is_holding cs).

(** How far the callers have come: a step moves one caller one stage on. *)
Definition stage (c : Caller) : nat :=
  match c with
  | Waiting _ _ => 0
  | Holding _ _ => 1
  | Finished _ => 2
  end.

Definition progress (cs : list Caller) : nat :=
  fold_right (fun c n => (stage c + n)%nat) 0%nat cs.

(** Mutual exclusion: a caller is inside the critical section exactly
    when the mutex is held, and then it is the only one. *)
Definition exclusive (p : Pool) : Prop :=
  holding (callers p) = if mu (bm (shared p)) then 1%nat else 0%nat.

(** A machine on which the browser is found and starts, whenever asked. *)
Definition launches (w : World) : Prop :=
  forall i, chrome_path w i <> "" /\ chrome_start w i = None.

(** On a machine where the browser starts: one initialization sequence
    has run exactly when the manager is initialized, and whoever is back
    came back with success from an initialized manager. *)
Definition once (p : Pool) : Prop :=
  init_sequences (shared p)
    = (if initialized (bm (shared p)) then 1%nat else 0%nat)
  /\ forall r, Finished r ∈ callers p ->
               r = None /\ initialized (bm (shared p)) = true.

End BrowserManager.

(** ** What the HTTP engines share *)

Import goquery.

Definition count (results : list SearchResult) : Z := Z.of_nat (length results).

(** [fmt.Errorf("unexpected status code: %d, body: %s", status, body[:min(len(body), 200)])] *)
Definition status_error (status : Z) (body : string) : error :=
  "unexpected status code: " +:+ pretty status +:+ ", body: "
    +:+ take (Z.to_nat (Z.min (len body) 200)) body.

(** The code after a paging loop: [allResults[:limit]] when there are more
    than [limit]; slicing with a negative bound panics. *)
Definition truncate (limit : Z) (allResults : list SearchResult) : M Results :=
  if count allResults >? limit
  then if limit <? 0 then stop Panicked
       else ret (firstn (Z.to_nat limit) allResults, None)
  else ret (allResults, None).

(** The description loops of bing.go and sogou.go: take the first selector
    that yields a non-empty trimmed text. *)
Fixpoint pick_description (first_only : bool) (s : Selection)
    (selectors : list string) (description : string) : string :=
  match selectors with
  | [] => description
  | sel :: rest =>
      let descEl := if first_only then First (Find s sel) else Find s sel in
      if Length descEl >? 0
      then let description := TrimSpace (Text (First descEl)) in
           if negb (String.eqb description "") then description
           else pick_description first_only s rest description
      else pick_description first_only s rest description
  end.

(** The description cap of baidu.go and sogou.go:
    [if len(description) > 500 { description = description[:500] + "..." }] *)
Definition cap_description (description : string) : string :=
  if len description >? 500
  then take 500 description +:+ "..." else description.

(** ** bing.go *)

Module Bing.

(** The callback of [doc.Find(selector).Each]; [None] when it returns
    without appending. *)
Definition parseItem (n : Node) : option SearchResult :=
  let s := [n] in
  let titleEl := Find s "h2" in
  let linkEl := Find s "h2 a" in
  if (Length titleEl =? 0) || (Length linkEl =? 0) then None
  else
    let '(href, found) := Attr linkEl "href" in
    if negb found || negb (HasPrefix href "http") then None
    else
      let description :=
        pick_description false s [".b_caption p"; "p"; ".b_algoSlug"] "" in
      let citeEl := Find s "cite" in
      let source := if Length citeEl >? 0
                    then TrimSpace (Text (First citeEl)) else "" in
      Some {| Title := TrimSpace (Text titleEl); URL := href;
              Description := description; Source := source;
              Engine := "bing" |}.

Fixpoint parse_selectors (doc : Selection) (selectors : list string)
    (results : list SearchResult) : list SearchResult :=
  match selectors with
  | [] => results
  | selector :: rest =>
      let results := results ++ omap parseItem (Find doc selector) in
      if count results >? 0 then results
      else parse_selectors doc rest results
  end.

Definition parseResults (doc : Selection) : list SearchResult :=
  parse_selectors doc ["li.b_algo"; "#b_results > li.b_algo"; ".b_algo"] [].

Fixpoint regex_loop (found : list (list string)) (seen : gset string)
    (results : list SearchResult) : list SearchResult :=
  match found with
  | [] => results
  | m :: rest =>
      if Z.of_nat (length m) <? 3 then regex_loop rest seen results
      else
        let href := nth 1 m "" in
        let title := TrimSpace (nth 2 m "") in
        if Contains href "bing.com" || Contains href "microsoft.com"
           || String.eqb title "" || bool_decide (href ∈ seen)
        then regex_loop rest seen results
        else if negb (HasPrefix href "http") then regex_loop rest seen results
        else
          let seen := {[ href ]} ∪ seen in
          let results :=
            results ++ [{| Title := title; URL := href; Description := "";
                           Source := ""; Engine := "bing" |}] in
          if count results >=? 10 then results
          else regex_loop rest seen results
  end.

Definition extractResultsWithRegex (w : World) (html : string)
  : list SearchResult :=
  regex_loop (regex_links w html) ∅ [].

Definition searchPage (w : World) (query : string) (page : Z) : M Results :=
  resp <- http w (BingGet query (1 + page * 10)) ;;
  match resp with
  | TransportError msg => ret ([], Some ("request failed: " +:+ msg))
  | HttpResponse status body readErr =>
      if negb (status =? 200) then ret ([], Some (status_error status body))
      else match readErr with
           | Some err => ret ([], Some ("read body failed: " +:+ err))
           | None =>
               match html_parse w body with
               | inr err => ret ([], Some ("parse HTML failed: " +:+ err))
               | inl doc =>
                   let results := parseResults doc in
                   let results := if count results =? 0
                                  then extractResultsWithRegex w body
                                  else results in
                   ret (results, None)
               end
           end
  end.

(** The [for len(allResults) < limit] loop and what follows it; one unit
    of fuel per iteration. *)
Fixpoint Search_loop (fuel : nat) (w : World) (query : string) (limit : Z)
    (allResults : list SearchResult) (pn : Z) : M Results :=
  if negb (count allResults <? limit) then truncate limit allResults
  else match fuel with
       | O => stop OutOfFuel
       | S fuel' =>
           r <- searchPage w query pn ;;
           match r with
           | (_, Some err) =>
               if count allResults >? 0 then truncate limit allResults
               else ret ([], Some err)
           | (results, None) =>
               if count results =? 0 then truncate limit allResults
               else
                 let allResults := allResults ++ results in
                 let pn := pn + 1 in
                 if pn >? 5 then truncate limit allResults
                 else Search_loop fuel' w query limit allResults pn
           end
       end.

Definition Search (fuel : nat) (w : World) (query : string) (limit : Z)
  : M Results :=
  Search_loop fuel w query limit [] 0.

End Bing.

(** ** duckduckgo.go *)

Module DuckDuckGo.

Definition parseItem (w : World) (n : Node) : option SearchResult :=
  let s := [n] in
  let titleEl := Find s ".result__title" in
  let linkEl := Find s ".result__a" in
  if (Length titleEl =? 0) || (Length linkEl =? 0) then None
  else
    let '(href, found) := Attr linkEl "href" in
    if negb found then None
    else
      let href :=
        if HasPrefix href "//duckduckgo.com/l/"
        then match url_query w ("https:" +:+ href) "uddg" with
             | Some target => target
             | None => href
             end
        else href in
      if String.eqb href "" || negb (HasPrefix href "http") then None
      else
        let descEl := Find s ".result__snippet" in
        let description := if Length descEl >? 0
                           then TrimSpace (Text descEl) else "" in
        let sourceEl := Find s ".result__url" in
        let source := if Length sourceEl >? 0
                      then TrimSpace (Text sourceEl) else "" in
        Some {| Title := TrimSpace (Text titleEl); URL := href;
                Description := description; Source := source;
                Engine := "duckduckgo" |}.

(** [doc.Find(".result").Each]: items are skipped once [limit] results
    have been collected. *)
Fixpoint each (w : World) (limit : Z) (items : list Node)
    (results : list SearchResult) : list SearchResult :=
  match items with
  | [] => results
  | n :: rest =>
      if count results >=? limit then each w limit rest results
      else match parseItem w n with
           | None => each w limit rest results
           | Some r => each w limit rest (results ++ [r])
           end
  end.

Definition parseResults (w : World) (doc : Selection) (limit : Z)
  : list SearchResult :=
  each w limit (Find doc ".result") [].

Definition Search (w : World) (query : string) (limit : Z) : M Results :=
  resp <- http w (DuckDuckGoGet query) ;;
  match resp with
  | TransportError msg => ret ([], Some ("request failed: " +:+ msg))
  | HttpResponse status body readErr =>
      if negb (status =? 200) then ret ([], Some (status_error status body))
      else match readErr with
           | Some err => ret ([], Some ("read body failed: " +:+ err))
           | None =>
               match html_parse w body with
               | inr err => ret ([], Some ("parse HTML failed: " +:+ err))
               | inl doc => ret (parseResults w doc limit, None)
               end
           end
  end.

End DuckDuckGo.

(** ** baidu.go *)

Module Baidu.

Definition isInternalLink (href title : string) : bool :=
  let internalDomains :=
    ["baidu.com/s?"; "baidu.com/baidu.php"; "baidu.com/link?";
     "tieba.baidu.com"; "zhidao.baidu.com"; "baike.baidu.com"] in
  let adKeywords := ["广告"; "推广"; "想在此推广"] in
  existsb (fun domain => Contains href domain) (firstn 2 internalDomains)
  || existsb (fun keyword => Contains title keyword) adKeywords.

(** [source] when the markup names none: the host of the link. *)
Definition host_of (w : World) (source href : string) : string :=
  if String.eqb source ""
  then match url_host w href with Some host => host | None => source end
  else source.

Definition parseResultItem (w : World) (n : Node) : option SearchResult :=
  let s := [n] in
  let titleEl := Find s "h3" in
  if Length titleEl =? 0 then None
  else
    let title := TrimSpace (Text titleEl) in
    if String.eqb title "" then None
    else
      let linkEl := First (Find titleEl "a") in
      let linkEl := if Length linkEl =? 0 then First (Find s "a") else linkEl in
      let href := if Length linkEl >? 0 then fst (Attr linkEl "href") else "" in
      if String.eqb href "" || negb (HasPrefix href "http") then None
      else if isInternalLink href title then None
      else
        let descEl := First (Find s ".c-font-normal.c-color-text") in
        let description :=
          if Length descEl >? 0
          then let '(ariaLabel, found) := Attr descEl "aria-label" in
               if found && negb (String.eqb ariaLabel "")
               then TrimSpace ariaLabel else ""
          else "" in
        let description :=
          if String.eqb description ""
          then let cosRow := First (Find s ".cos-row") in
               if Length cosRow >? 0 then TrimSpace (Text cosRow)
               else description
          else description in
        let description :=
          if String.eqb description ""
          then let abstractEl := First (Find s ".c-abstract") in
               if Length abstractEl >? 0 then TrimSpace (Text abstractEl)
               else description
          else description in
        let sourceEl := First (Find s ".cosc-source") in
        let source := if Length sourceEl >? 0
                      then TrimSpace (Text sourceEl) else "" in
        let source := host_of w source href in
        let description := cap_description description in
        Some {| Title := title; URL := href; Description := description;
                Source := source; Engine := "baidu" |}.

Definition parseResults (w : World) (doc : Selection) : list SearchResult :=
  omap (parseResultItem w) (Children (Find doc "#content_left")).

Definition parseMobileItem (w : World) (n : Node) : option SearchResult :=
  let s := [n] in
  let titleEl := First (Find s ".c-title, .c-title-text, h3") in
  let title := if Length titleEl >? 0 then TrimSpace (Text titleEl) else "" in
  if String.eqb title "" then None
  else
    let linkEl := First (Find s "a") in
    let href := if Length linkEl >? 0 then fst (Attr linkEl "href") else "" in
    let href :=
      if negb (String.eqb href "") && negb (HasPrefix href "http")
      then if HasPrefix href "/" then "https://m.baidu.com" +:+ href else href
      else href in
    if String.eqb href "" || negb (HasPrefix href "http") then None
    else if isInternalLink href title then None
    else
      let descEl := First (Find s ".c-abstract, .c-span-last, .c-line-clamp2") in
      let description := if Length descEl >? 0
                         then TrimSpace (Text descEl) else "" in
      let sourceEl := First (Find s ".c-showurl, .c-color-source") in
      let source := if Length sourceEl >? 0
                    then TrimSpace (Text sourceEl) else "" in
      let source := host_of w source href in
      Some {| Title := title; URL := href; Description := description;
              Source := source; Engine := "baidu" |}.

Definition parseMobileResults (w : World) (doc : Selection)
  : list SearchResult :=
  omap (parseMobileItem w) (Find doc ".c-result, .result, [data-log]").

(** The markers of a verification page in a desktop and in a mobile body. *)
Definition is_challenge (bodyStr : string) : bool :=
  Contains bodyStr "wappass.baidu.com" || Contains bodyStr "captcha"
  || Contains bodyStr "百度安全验证" || Contains bodyStr "安全验证".

Definition is_mobile_challenge (bodyStr : string) : bool :=
  Contains bodyStr "wappass.baidu.com" || Contains bodyStr "captcha"
  || Contains bodyStr "安全验证".

Definition searchPageMobile (w : World) (query : string) (pn : Z) : M Results :=
  resp <- http w (BaiduMobileGet query pn) ;;
  match resp with
  | TransportError msg => ret ([], Some ("mobile request failed: " +:+ msg))
  | HttpResponse _ body (Some err) =>
      ret ([], Some ("read mobile body failed: " +:+ err))
  | HttpResponse _ body None =>
      if is_mobile_challenge body then ret ([], Some "mobile captcha required")
      else match html_parse w body with
           | inr err => ret ([], Some ("parse mobile HTML failed: " +:+ err))
           | inl doc => ret (parseMobileResults w doc, None)
           end
  end.

Definition searchPage (w : World) (query : string) (pn : Z) : M Results :=
  resp <- http w (BaiduGet query pn) ;;
  match resp with
  | TransportError msg => ret ([], Some ("request failed: " +:+ msg))
  | HttpResponse status body readErr =>
      if negb (status =? 200) then ret ([], Some (status_error status body))
      else match readErr with
           | Some err => ret ([], Some ("read body failed: " +:+ err))
           | None =>
               if is_challenge body
               then
                 r <- searchPageMobile w query pn ;;
                 match r with
                 | (_, Some err) =>
                     ret ([], Some ("baidu rate limited/captcha required: "
                                      +:+ err))
                 | (mobileResults, None) =>
                     if count mobileResults =? 0
                     then ret ([], Some "baidu rate limited: captcha required, please try again later or use a proxy")
                     else ret (mobileResults, None)
                 end
               else
                 match html_parse w body with
                 | inr err => ret ([], Some ("parse HTML failed: " +:+ err))
                 | inl doc => ret (parseResults w doc, None)
                 end
           end
  end.

(** The request for the home page that collects cookies; its error is
    only logged. *)
Definition warmup (w : World) : M (option error) :=
  resp <- http w BaiduHomeGet ;;
  match resp with
  | TransportError msg => ret (Some msg)
  | HttpResponse _ _ _ => ret None
  end.

Fixpoint Search_loop (fuel : nat) (w : World) (query : string) (limit : Z)
    (allResults : list SearchResult) (pn : Z) : M Results :=
  if negb (count allResults <? limit) then truncate limit allResults
  else match fuel with
       | O => stop OutOfFuel
       | S fuel' =>
           r <- searchPage w query pn ;;
           match r with
           | (_, Some err) =>
               if Contains err "captcha" || Contains err "rate limited"
               then if count allResults >? 0 then truncate limit allResults
                    else ret ([], Some ("baidu rate limited: " +:+ err))
               else if count allResults >? 0 then truncate limit allResults
                    else ret ([], Some err)
           | (results, None) =>
               if count results =? 0 then truncate limit allResults
               else
                 let allResults := allResults ++ results in
                 let pn := pn + 10 in
                 if pn >? 40 then truncate limit allResults
                 else Search_loop fuel' w query limit allResults pn
           end
       end.

Definition Search (fuel : nat) (w : World) (query : string) (limit : Z)
  : M Results :=
  warmup w ;;;
  Search_loop fuel w query limit [] 0.

End Baidu.

(** The mobile fallback "also shows a challenge or yields zero results". *)
Definition fallback_blocked (w : World) (mobile : Response) : bool :=
  match mobile with
  | HttpResponse _ body None =>
      Baidu.is_mobile_challenge body
      || match html_parse w body with
         | inl doc => count (Baidu.parseMobileResults w doc) =? 0
         | inr _ => false
         end
  | _ => false
  end.

(** ** sogou.go *)

Module Sogou.

Definition isInternalLink (href title : string) : bool :=
  existsb (fun pattern => Contains href pattern)
          ["sogou.com/web/searchList"; "sogou.com/link?"; "sogou.com/tx?";
           "sogou.com/v?"; "antispider"]
  || existsb (fun keyword => Contains title keyword) ["广告"; "推广"].

Definition extractRealURL (w : World) (href : string) : string :=
  match url_query w href "url" with
  | Some realURL =>
      if negb (String.eqb realURL "")
      then match query_unescape w realURL with
           | Some decoded => decoded
           | None => realURL
           end
      else href
  | None => href
  end.

Fixpoint pick_title (s : Selection) (selectors : list string)
    (title href : string) : string * string :=
  match selectors with
  | [] => (title, href)
  | selector :: rest =>
      let titleEl := First (Find s selector) in
      if Length titleEl >? 0
      then let title := TrimSpace (Text titleEl) in
           let href := fst (Attr titleEl "href") in
           if negb (String.eqb title "") && negb (String.eqb href "")
           then (title, href)
           else pick_title s rest title href
      else pick_title s rest title href
  end.

Definition parseResultItem (w : World) (n : Node) : option SearchResult :=
  let s := [n] in
  let '(title, href) :=
    pick_title s [".vr-tit a"; ".title__titleText_287f";
                  ".video-desc__videoTitle_812e"; "h3 a"; ".major-title a"]
               "" "" in
  let '(title, href) :=
    if String.eqb title "" || String.eqb href ""
    then let linkEl := First (Find s "a.resultLink") in
         if Length linkEl >? 0
         then (TrimSpace (Text linkEl), fst (Attr linkEl "href"))
         else (title, href)
    else (title, href) in
  if String.eqb title "" || String.eqb href "" then None
  else
    let href :=
      if negb (HasPrefix href "http")
      then if HasPrefix href "/" then "https://wap.sogou.com" +:+ href
           else if HasPrefix href "./"
                then "https://wap.sogou.com/web/" +:+ TrimPrefix href "./"
                else href
      else href in
    if isInternalLink href title then None
    else
      let description :=
        pick_description true s
          [".title-summary"; ".clamp2"; ".result-summary-exp";
           ".video-desc__descContent_812e"] "" in
      let sourceEl := First (Find s ".citeurl span") in
      let source := if Length sourceEl >? 0
                    then TrimSpace (Text sourceEl) else "" in
      let source :=
        if String.eqb source ""
        then let realURL := extractRealURL w href in
             if negb (String.eqb realURL "")
             then match url_host w realURL with
                  | Some host => host
                  | None => source
                  end
             else source
        else source in
      let title := ReplaceAll (ReplaceAll title "<em>" "") "</em>" "" in
      let description :=
        ReplaceAll (ReplaceAll description "<em>" "") "</em>" "" in
      let description := cap_description description in
      Some {| Title := title; URL := href; Description := description;
              Source := source; Engine := "sogou" |}.

Definition parseResults (w : World) (doc : Selection) : list SearchResult :=
  omap (parseResultItem w) (Find doc ".vrResult").

Definition searchPage (w : World) (query : string) (page : Z) : M Results :=
  resp <- http w (SogouGet query (if page >? 1 then Some page else None)) ;;
  match resp with
  | TransportError msg => ret ([], Some ("request failed: " +:+ msg))
  | HttpResponse status body readErr =>
      if negb (status =? 200) then ret ([], Some (status_error status body))
      else match readErr with
           | Some err => ret ([], Some ("read body failed: " +:+ err))
           | None =>
               if Contains body "antispider" || Contains body "验证码"
               then ret ([], Some "sogou rate limited: anti-spider triggered")
               else match html_parse w body with
                    | inr err => ret ([], Some ("parse HTML failed: " +:+ err))
                    | inl doc => ret (parseResults w doc, None)
                    end
           end
  end.

Fixpoint Search_loop (fuel : nat) (w : World) (query : string) (limit : Z)
    (allResults : list SearchResult) (page : Z) : M Results :=
  if negb (count allResults <? limit) then truncate limit allResults
  else match fuel with
       | O => stop OutOfFuel
       | S fuel' =>
           r <- searchPage w query page ;;
           match r with
           | (_, Some err) =>
               if count allResults >? 0 then truncate limit allResults
               else ret ([], Some err)
           | (results, None) =>
               if count results =? 0 then truncate limit allResults
               else
                 let allResults := allResults ++ results in
                 let page := page + 1 in
                 if page >? 5 then truncate limit allResults
                 else Search_loop fuel' w query limit allResults page
           end
       end.

Definition Search (fuel : nat) (w : World) (query : string) (limit : Z)
  : M Results :=
  Search_loop fuel w query limit [] 1.

End Sogou.

(** ** browser_bing.go, browser_google.go, browser_baidu.go

    The three browser engines differ in their name, in the offset they put
    in the page URL and in [parseHTML]; the latter is taken from the
    world. *)

Module Browser.

Inductive Variant := bing_variant | google_variant | baidu_variant.

Record BrowserEngine := mkBrowserEngine {
  variant : Variant;
  engineProxyURL : string;
  engineHeadless : bool
}.

Definition name (v : Variant) : string :=
  match v with
  | bing_variant => "browser_bing"
  | google_variant => "browser_google"
  | baidu_variant => "browser_baidu"
  end.

Definition offset (v : Variant) (page : Z) : Z :=
  match v with
  | bing_variant => 1 + page * 10
  | google_variant => page * 10
  | baidu_variant => page * 10
  end.

(** [60 * time.Second] *)
Definition timeout : Z := 60 * 1000000000.

Definition searchPage (w : World) (e : BrowserEngine) (query : string)
    (page : Z) : M Results :=
  tabCtx <- BrowserManager.NewTabContext w timeout ;;
  r <- BrowserManager.run_tab w tabCtx
         (Navigate (name (variant e)) query (offset (variant e) page)) ;;
  match r with
  | inr err => ret ([], Some ("browser navigation failed: " +:+ err))
  | inl html =>
      match browser_parseHTML w (name (variant e)) html with
      | (_, Some err) => ret ([], Some err)
      | (results, None) => ret (results, None)
      end
  end.

(** [for len(allResults) < limit && page < 3] *)
Fixpoint Search_loop (fuel : nat) (w : World) (e : BrowserEngine)
    (query : string) (limit : Z) (allResults : list SearchResult) (page : Z)
  : M Results :=
  if negb ((count allResults <? limit) && (page <? 3))
  then truncate limit allResults
  else match fuel with
       | O => stop OutOfFuel
       | S fuel' =>
           r <- searchPage w e query page ;;
           match r with
           | (_, Some err) =>
               if count allResults >? 0 then truncate limit allResults
               else ret ([], Some err)
           | (results, None) =>
               if count results =? 0 then truncate limit allResults
               else Search_loop fuel' w e query limit
                                (allResults ++ results) (page + 1)
           end
       end.

Definition Search (fuel : nat) (w : World) (e : BrowserEngine)
    (query : string) (limit : Z) : M Results :=
  err <- BrowserManager.Initialize w (engineProxyURL e) (engineHeadless e) ;;
  match err with
  | Some err => ret ([], Some ("failed to initialize browser: " +:+ err))
  | None => Search_loop fuel w e query limit [] 0
  end.

End Browser.

(** ** The engines behind the [SearchEngine] interface *)

Inductive EngineImpl :=
| BingEngine
| DuckDuckGoEngine
| BaiduEngine
| SogouEngine
| BrowserEngineOf (e : Browser.BrowserEngine).

Definition engine_Name (e : EngineImpl) : string :=
  match e with
  | BingEngine => "bing"
  | DuckDuckGoEngine => "duckduckgo"
  | BaiduEngine => "baidu"
  | SogouEngine => "sogou"
  | BrowserEngineOf b => Browser.name (Browser.variant b)
  end.

Definition engine_Search (fuel : nat) (w : World) (e : EngineImpl)
    (query : string) (limit : Z) : M Results :=
  match e with
  | BingEngine => Bing.Search fuel w query limit
  | DuckDuckGoEngine => DuckDuckGo.Search w query limit
  | BaiduEngine => Baidu.Search fuel w query limit
  | SogouEngine => Sogou.Search fuel w query limit
  | BrowserEngineOf b => Browser.Search fuel w b query limit
  end.

(** One page fetch during [Search(query, limit)]: the engine's [searchPage]
    at a page cursor; DuckDuckGo has a single page, which [Search] itself
    fetches and cuts at [limit]. *)
Definition engine_searchPage (w : World) (e : EngineImpl) (query : string)
    (limit : Z) (cursor : Z) : M Results :=
  match e with
  | BingEngine => Bing.searchPage w query cursor
  | DuckDuckGoEngine => DuckDuckGo.Search w query limit
  | BaiduEngine => Baidu.searchPage w query cursor
  | SogouEngine => Sogou.searchPage w query cursor
  | BrowserEngineOf b => Browser.searchPage w b query cursor
  end.

(** The page cursor of the engine once [k] pages have been appended. *)
Definition page_cursor (e : EngineImpl) (k : nat) : Z :=
  match e with
  | BingEngine => Z.of_nat k
  | DuckDuckGoEngine => 0
  | BaiduEngine => 10 * Z.of_nat k
  | SogouEngine => Z.of_nat k + 1
  | BrowserEngineOf _ => Z.of_nat k
  end.

(** How Baidu's [Search] rewrites the error of a page. *)
Definition baidu_wrap (err : error) : error :=
  if Contains err "captcha" || Contains err "rate limited"
  then "baidu rate limited: " +:+ err else err.

(** The shape the four paging loops share, with the pages counted from
    zero: stop when [limit] is reached, on an error, on an empty page, or
    after page number [cap]. *)
Fixpoint paged_loop (fuel : nat) (page : nat -> M Results)
    (wrap : error -> error) (cap : nat) (limit : Z)
    (allResults : list SearchResult) (k : nat) : M Results :=
  if negb (count allResults <? limit) then truncate limit allResults
  else match fuel with
       | O => stop OutOfFuel
       | S fuel' =>
           r <- page k ;;
           match r with
           | (_, Some err) =>
               if count allResults >? 0 then truncate limit allResults
               else ret ([], Some (wrap err))
           | (results, None) =>
               if count results =? 0 then truncate limit allResults
               else if (cap <=? S k)%nat
                    then truncate limit (allResults ++ results)
                    else paged_loop fuel' page wrap cap limit
                                    (allResults ++ results) (S k)
           end
       end.

(** Is the event the request for a result page of the engine? *)
Definition is_page_fetch (e : EngineImpl) (ev : Event) : bool :=
  match e, ev with
  | BingEngine, EvHttp (BingGet _ _) => true
  | DuckDuckGoEngine, EvHttp (DuckDuckGoGet _) => true
  | BaiduEngine, EvHttp (BaiduGet _ _) => true
  | SogouEngine, EvHttp (SogouGet _ _) => true
  | BrowserEngineOf _, EvTab _ => true
  | _, _ => false
  end.

Definition page_fetches (e : EngineImpl) (events : list Event) : nat :=
  length (List.filter (is_page_fetch e) events).

(** The most page fetches one [Search] call of the engine makes. *)
Definition page_cap (e : EngineImpl) : nat :=
  match e with
  | BingEngine => 6
  | DuckDuckGoEngine => 1
  | BaiduEngine => 5
  | SogouEngine => 5
  | BrowserEngineOf _ => 3
  end.

(** ** URL schemes, as [net/url] reads them *)

Definition is_alpha (c : ascii) : bool :=
  let n := nat_of_ascii c in
  ((65 <=? n)%nat && (n <=? 90)%nat) || ((97 <=? n)%nat && (n <=? 122)%nat).

Definition is_scheme_char (c : ascii) : bool :=
  let n := nat_of_ascii c in
  is_alpha c || ((48 <=? n)%nat && (n <=? 57)%nat)
  || (n =? 43)%nat || (n =? 45)%nat || (n =? 46)%nat.

(** [getScheme]: the bytes before the first colon when they are a letter
    followed by letters, digits, [+], [-] or [.]; no scheme otherwise. *)
Fixpoint scheme_rest (s : string) : option string :=
  match s with
  | EmptyString => None
  | String c s' =>
      if Ascii.eqb c ":" then Some ""
      else if is_scheme_char c
           then match scheme_rest s' with
                | Some t => Some (String c t)
                | None => None
                end
           else None
  end.

Definition getScheme (rawURL : string) : option string :=
  match rawURL with
  | EmptyString => None
  | String c _ => if is_alpha c then scheme_rest rawURL else None
  end.

Definition lower (c : ascii) : ascii :=
  let n := nat_of_ascii c in
  if (65 <=? n)%nat && (n <=? 90)%nat then ascii_of_nat (n + 32) else c.

(** [strings.ToLower] on ASCII letters *)
Fixpoint ToLower (s : string) : string :=
  match s with
  | EmptyString => ""
  | String c s' => String (lower c) (ToLower s')
  end.

(** The scheme [url.Parse] reports, lower-cased, is http or https. *)
Definition has_http_scheme (rawURL : string) : bool :=
  match getScheme rawURL with
  | Some scheme =>
      String.eqb (ToLower scheme) "http" || String.eqb (ToLower scheme) "https"
  | None => false
  end.


(** An engine is left out of a request when a non-empty allow-list does
    not name it, or when the registry has no engine of that name. *)
Definition excluded (m : Manager.Manager) (name : string) : Prop :=
  (config.AllowedEngines (Manager.cfg m) <> []
   /\ name ∉ config.AllowedEngines (Manager.cfg m))
  \/ Manager.engines m !! name = None.

(** What the extractors' link test guarantees: the link starts with the
    four bytes [http]. *)
Definition http_prefixed (r : SearchResult) : Prop :=
  URL r <> "" /\ HasPrefix (URL r) "http" = true.

(** ** Sample registries, requests and worlds *)

Module Samples.

Definition result (engine url : string) : SearchResult :=
  {| Title := "Go"; URL := url; Description := ""; Source := "";
     Engine := engine |}.

(** An engine that returns as many results as it is asked for, up to two. *)
Definition bing_two : SearchEngine :=
  {| Name := "bing";
     Search := fun _ limit =>
       (firstn (Z.to_nat limit)
               [result "bing" "https://go.dev/"; result "bing" "https://pkg.go.dev/"],
        None) |}.

Definition sogou_two : SearchEngine :=
  {| Name := "sogou";
     Search := fun _ limit =>
       (firstn (Z.to_nat limit)
               [result "sogou" "https://go.dev/doc/"; result "sogou" "https://go.dev/blog/"],
        None) |}.

(** An engine that is always blocked. *)
Definition baidu_blocked : SearchEngine :=
  {| Name := "baidu";
     Search := fun _ _ => ([], Some "baidu rate limited: captcha required") |}.

Definition open_config : config.Config :=
  {| config.DefaultEngine := "duckduckgo"; config.AllowedEngines := [] |}.

Definition bing_only_config : config.Config :=
  {| config.DefaultEngine := "bing"; config.AllowedEngines := ["bing"] |}.

Definition registry (c : config.Config) : Manager.Manager :=
  Manager.RegisterEngine
    (Manager.RegisterEngine
       (Manager.RegisterEngine {| Manager.engines := ∅; Manager.cfg := c |}
                               bing_two)
       sogou_two)
    baidu_blocked.

Definition request (limit : Z) (names : list string) : SearchRequest :=
  {| Query := "golang"; Limit := limit; Engines := names |}.

(** A Bing result block with a title, a link and a description. *)
Definition bing_item (href description : string) : Node :=
  mkNode "" []
    [("h2", [mkNode "Go" [] []]);
     ("h2 a", [mkNode "Go" [("href", href)] []]);
     ("p", [mkNode description [] []])].

Definition bing_doc (items : list Node) : Selection :=
  [mkNode "" [] [("li.b_algo", items)]].

(** A machine with a browser, and a network that answers every request
    with status 200 and a body that parses to [doc]. *)
Definition world (doc : Selection) : World :=
  {| http_do := fun _ _ => HttpResponse 200 "<html></html>" None;
     chrome_path := fun _ => "/usr/bin/chromium";
     chrome_start := fun _ => None;
     chrome_run := fun _ _ => inl "<html></html>";
     html_parse := fun _ => inl doc;
     regex_links := fun _ => [];
     url_host := fun _ => Some "go.dev";
     url_query := fun _ _ => Some "";
     query_unescape := fun s => Some s;
     browser_parseHTML := fun _ _ => ([], None) |}.

(** Every Bing page has exactly one result. *)
Definition one_per_page : World :=
  world (bing_doc [bing_item "https://go.dev/" "The Go programming language"]).

(** Nothing has happened yet and the browser singleton is fresh. *)
Definition idle : State := {| log := []; bm := BrowserManager.fresh |}.

(** Baidu answers every request, desktop or mobile, with a verification
    page. *)
Definition baidu_blocked_world : World :=
  {| http_do := fun _ req =>
       match req with
       | BaiduGet _ _ => HttpResponse 200 "<title>百度安全验证</title>" None
       | BaiduMobileGet _ _ =>
           HttpResponse 200 "<a href=https://wappass.baidu.com/>" None
       | _ => HttpResponse 200 "<html></html>" None
       end;
     chrome_path := fun _ => "";
     chrome_start := fun _ => None;
     chrome_run := fun _ _ => inl "<html></html>";
     html_parse := fun _ => inl [];
     regex_links := fun _ => [];
     url_host := fun _ => None;
     url_query := fun _ _ => None;
     query_unescape := fun s => Some s;
     browser_parseHTML := fun _ _ => ([], None) |}.

Fixpoint repeat_byte (n : nat) (c : ascii) : string :=
  match n with
  | O => ""
  | S n' => String c (repeat_byte n' c)
  end.

(** A text of 600 bytes. *)
Definition long_text : string := repeat_byte 600 "a".

(** A Baidu result block with a title link and an abstract. *)
Definition baidu_item (href abstract : string) : Node :=
  mkNode "" []
    [("h3", [mkNode "Go" [] [("a", [mkNode "Go" [("href", href)] []])]]);
     (".c-abstract", [mkNode abstract [] []])].

(** A Sogou result block with a title link. *)
Definition sogou_item (href : string) : Node :=
  mkNode "" [] [("h3 a", [mkNode "Go" [("href", href)] []])].

(** A machine without a browser. *)
Definition no_chrome : World :=
  {| http_do := fun _ _ => HttpResponse 200 "<html></html>" None;
     chrome_path := fun _ => "";
     chrome_start := fun _ => None;
     chrome_run := fun _ _ => inl "<html></html>";
     html_parse := fun _ => inl [];
     regex_links := fun _ => [];
     url_host := fun _ => None;
     url_query := fun _ _ => None;
     query_unescape := fun s => Some s;
     browser_parseHTML := fun _ _ => ([], None) |}.

(** Two goroutines call [Initialize("", true)] on the fresh singleton;
    where they end up without a browser, and with one. *)
Definition two_callers : list (string * bool) := [("", true); ("", true)].

Definition not_found : option error :=
  Some "Chrome/Chromium not found. Please install Chrome browser".

Definition two_failed : BrowserManager.Pool :=
  {| BrowserManager.callers :=
       [BrowserManager.Finished not_found; BrowserManager.Finished not_found];
     BrowserManager.shared :=
       {| log := [EvStat; EvStat];
          bm := mkBM false false "" true false |} |}.

Definition two_succeeded : BrowserManager.Pool :=
  {| BrowserManager.callers :=
       [BrowserManager.Finished None; BrowserManager.Finished None];
     BrowserManager.shared :=
       {| log := [EvStat; EvLaunch "" true];
          bm := mkBM false true "" true true |} |}.

End Samples.

(** ** The engines seen through the shared loop shape *)

Definition engine_page (w : World) (e : EngineImpl) (query : string)
    (limit : Z) (k : nat) : M Results :=
  engine_searchPage w e query limit (page_cursor e k).

Definition engine_wrap (e : EngineImpl) (err : error) : error :=
  match e with
  | BaiduEngine => baidu_wrap err
  | _ => err
  end.

(** What a browser engine's paging loop relies on: the shared browser is
    up and nobody holds the manager's mutex. *)
Definition engine_ready (e : EngineImpl) (st : State) : Prop :=
  match e with
  | BrowserEngineOf _ => mu (bm st) = false /\ initialized (bm st) = true
  | _ => True
  end.


(** * Beyond the coordinator's core: configuration, registry, retries *)

(** ** config.go: the configuration file *)

Module configfile.

Record CORSConfig := mkCORS {
  CORSEnabled : bool;
  Origin : string
}.

Record ServerConfig := mkServer {
  Port : Z;
  Host : string;
  CORS : CORSConfig
}.

Record ProxyConfig := mkProxy {
  ProxyEnabled : bool;
  ProxyURL : string
}.

Record MCPToolsConfig := mkTools {
  SearchName : string;
  SearchDescription : string
}.

Record MCPConfig := mkMCP {
  ServerName : string;
  ServerVersion : string;
  Tools : MCPToolsConfig
}.

Record BrowserConfig := mkBrowser {
  BrowserEnabled : bool;
  BrowserHeadless : bool
}.

(** The [Config] struct; its [Search] section is what the coordinator
    consults. *)
Record FileConfig := mkFileConfig {
  Server : ServerConfig;
  Search : config.Config;
  Proxy : ProxyConfig;
  MCP : MCPConfig;
  Browser : BrowserConfig
}.

Definition DefaultConfig : FileConfig :=
  {| Server := {| Port := 3456; Host := "0.0.0.0";
                  CORS := {| CORSEnabled := false; Origin := "*" |} |};
     Search := {| config.DefaultEngine := "duckduckgo";
                  config.AllowedEngines := [] |};
     Proxy := {| ProxyEnabled := false; ProxyURL := "http://127.0.0.1:7890" |};
     MCP := {| ServerName := "go-web-search-mcp"; ServerVersion := "1.0.0";
               Tools := {| SearchName := "search";
                           SearchDescription := "Search the web using multiple engines (e.g., Bing, Baidu, DuckDuckGo) with no API key required. Returns structured results with title, URL, description, and source." |} |};
     Browser := {| BrowserEnabled := true; BrowserHeadless := true |} |}.

(** The loop of [validate] over [AllowedEngines]: trim each name, keep
    the valid ones. *)
Fixpoint validAllowed (names : list string) : list string :=
  match names with
  | [] => []
  | e :: rest =>
      let e := TrimSpace e in
      if config.isValidEngine e then e :: validAllowed rest
      else validAllowed rest
  end.

Definition or_default (s default : string) : string :=
  if String.eqb s "" then default else s.

(** [validate]: check every section and repair it from [DefaultConfig]. *)
Definition validate (c : FileConfig) : FileConfig :=
  let port := if (Port (Server c) <=? 0) || (Port (Server c) >? 65535)
              then Port (Server DefaultConfig) else Port (Server c) in
  let host := or_default (Host (Server c)) (Host (Server DefaultConfig)) in
  let origin := or_default (Origin (CORS (Server c)))
                           (Origin (CORS (Server DefaultConfig))) in
  let defaultEngine :=
    if negb (config.isValidEngine (config.DefaultEngine (Search c)))
    then config.DefaultEngine (Search DefaultConfig)
    else config.DefaultEngine (Search c) in
  let allowed := validAllowed (config.AllowedEngines (Search c)) in
  let defaultEngine :=
    if (Z.of_nat (length allowed) >? 0) && negb (contains allowed defaultEngine)
    then nth 0 allowed "" else defaultEngine in
  let proxyURL :=
    if ProxyEnabled (Proxy c) && String.eqb (ProxyURL (Proxy c)) ""
    then ProxyURL (Proxy DefaultConfig) else ProxyURL (Proxy c) in
  {| Server := {| Port := port; Host := host;
                  CORS := {| CORSEnabled := CORSEnabled (CORS (Server c));
                             Origin := origin |} |};
     Search := {| config.DefaultEngine := defaultEngine;
                  config.AllowedEngines := allowed |};
     Proxy := {| ProxyEnabled := ProxyEnabled (Proxy c); ProxyURL := proxyURL |};
     MCP := {| ServerName := or_default (ServerName (MCP c))
                                        (ServerName (MCP DefaultConfig));
               ServerVersion := or_default (ServerVersion (MCP c))
                                           (ServerVersion (MCP DefaultConfig));
               Tools :=
                 {| SearchName := or_default (SearchName (Tools (MCP c)))
                                   (SearchName (Tools (MCP DefaultConfig)));
                    SearchDescription :=
                      or_default (SearchDescription (Tools (MCP c)))
                        (SearchDescription (Tools (MCP DefaultConfig))) |} |};
     Browser := Browser c |}.

(** The file system and the YAML decoder, as [Load] meets them. *)
Record Files := mkFiles {
  CONFIG_FILE : string;                  (* os.Getenv("CONFIG_FILE") *)
  stat : string -> bool;                 (* os.Stat(path) succeeds *)
  execDir : string;                      (* "" when os.Executable fails *)
  workDir : string;
  join : string -> string -> string;     (* filepath.Join *)
  readFile : string -> string + error;
  unmarshal : string -> FileConfig -> FileConfig * option error
    (* yaml.Unmarshal(data, &cfg): what it leaves in cfg, and its error *)
}.

Definition configSearchPaths : list string :=
  ["config.yaml"; "config.yml"; "configs/config.yaml"; "configs/config.yml"].

Fixpoint first_existing (fs : Files) (paths : list string) : string :=
  match paths with
  | [] => ""
  | path :: rest => if stat fs path then path else first_existing fs rest
  end.

Definition findConfigFile (fs : Files) : string :=
  if negb (String.eqb (CONFIG_FILE fs) "") && stat fs (CONFIG_FILE fs)
  then CONFIG_FILE fs
  else
    let searchDirs :=
      if negb (String.eqb (execDir fs) "")
         && negb (String.eqb (execDir fs) (workDir fs))
      then [workDir fs; execDir fs] else [workDir fs] in
    first_existing fs
      (flat_map (fun dir => map (join fs dir) configSearchPaths) searchDirs).

Definition Load (fs : Files) : FileConfig :=
  let configPath := findConfigFile fs in
  if String.eqb configPath "" then validate DefaultConfig
  else match readFile fs configPath with
       | inr _ => validate DefaultConfig
       | inl data => validate (fst (unmarshal fs data DefaultConfig))
       end.

Definition LoadFromFile (fs : Files) (path : string) : FileConfig + error :=
  match readFile fs path with
  | inr err => inr ("read config file failed: " +:+ err)
  | inl data =>
      match unmarshal fs data DefaultConfig with
      | (_, Some err) => inr ("parse config file failed: " +:+ err)
      | (cfg, None) => inl (validate cfg)
      end
  end.

(** What [validate] establishes. *)
Definition valid (c : FileConfig) : Prop :=
  (1 <= Port (Server c) <= 65535) /\
  Host (Server c) <> "" /\
  Origin (CORS (Server c)) <> "" /\
  config.isValidEngine (config.DefaultEngine (Search c)) = true /\
  Forall (fun e => config.isValidEngine e = true)
         (config.AllowedEngines (Search c)) /\
  config.IsEngineAllowed (Search c) (config.DefaultEngine (Search c)) = true /\
  (ProxyEnabled (Proxy c) = true -> ProxyURL (Proxy c) <> "") /\
  ServerName (MCP c) <> "" /\ ServerVersion (MCP c) <> "" /\
  SearchName (Tools (MCP c)) <> "" /\
  SearchDescription (Tools (MCP c)) <> "".

End configfile.

(** ** manager.go: building the registry *)

Module ManagerInit.

(** The engine value behind an implementation: its name, and what a
    [Search] call on it comes back with in the run at hand. *)
Definition as_engine (run : EngineImpl -> string -> Z -> Results)
    (impl : EngineImpl) : SearchEngine :=
  {| Name := engine_Name impl; Search := run impl |}.

Definition browser_engine (v : Browser.Variant) (proxyURL : string)
    (headless : bool) : EngineImpl :=
  BrowserEngineOf {| Browser.variant := v; Browser.engineProxyURL := proxyURL;
                     Browser.engineHeadless := headless |}.

(** [initEngines]: the four HTTP engines, then the three browser engines
    when the configuration enables them. *)
Definition initEngines (run : EngineImpl -> string -> Z -> Results)
    (c : configfile.FileConfig) (m : Manager.Manager) : Manager.Manager :=
  let proxyURL :=
    if configfile.ProxyEnabled (configfile.Proxy c)
    then configfile.ProxyURL (configfile.Proxy c) else "" in
  let m := Manager.RegisterEngine m (as_engine run BingEngine) in
  let m := Manager.RegisterEngine m (as_engine run DuckDuckGoEngine) in
  let m := Manager.RegisterEngine m (as_engine run BaiduEngine) in
  let m := Manager.RegisterEngine m (as_engine run SogouEngine) in
  if configfile.BrowserEnabled (configfile.Browser c)
  then
    let headless := configfile.BrowserHeadless (configfile.Browser c) in
    let m := Manager.RegisterEngine m
               (as_engine run (browser_engine Browser.bing_variant proxyURL headless)) in
    let m := Manager.RegisterEngine m
               (as_engine run (browser_engine Browser.google_variant proxyURL headless)) in
    Manager.RegisterEngine m
      (as_engine run (browser_engine Browser.baidu_variant proxyURL headless))
  else m.

Definition NewManager (run : EngineImpl -> string -> Z -> Results)
    (c : configfile.FileConfig) : Manager.Manager :=
  initEngines run c {| Manager.engines := ∅; Manager.cfg := configfile.Search c |}.

(** [GetEngineNames]: the keys of the registry, in the order the map
    iteration happens to take. *)
Definition GetEngineNames (m : Manager.Manager) (names : list string) : Prop :=
  names ≡ₚ (map_to_list (Manager.engines m)).*1.

(** The names a registry built by [NewManager] is expected to hold. *)
Definition registered_names (c : configfile.FileConfig) : list string :=
  ["bing"; "duckduckgo"; "baidu"; "sogou"]
  ++ (if configfile.BrowserEnabled (configfile.Browser c)
      then ["browser_bing"; "browser_google"; "browser_baidu"] else []).

End ManagerInit.

(** ** The request each page fetch sends *)

(** The request for page number [k] (from zero) of a [Search] call:
    Bing's [first] is [1+page*10], Baidu's [pn] advances by ten, Sogou's
    [page] parameter is only sent from the second page on. *)
Definition page_request (e : EngineImpl) (query : string) (k : nat) : Event :=
  match e with
  | BingEngine => EvHttp (BingGet query (1 + Z.of_nat k * 10))
  | DuckDuckGoEngine => EvHttp (DuckDuckGoGet query)
  | BaiduEngine => EvHttp (BaiduGet query (10 * Z.of_nat k))
  | SogouEngine =>
      EvHttp (SogouGet query (if Z.of_nat k + 1 >? 1
                              then Some (Z.of_nat k + 1) else None))
  | BrowserEngineOf b =>
      EvTab (Navigate (Browser.name (Browser.variant b)) query
                      (Browser.offset (Browser.variant b) (Z.of_nat k)))
  end.

(** ** browser_bing.go, browser_google.go, browser_baidu.go: parseHTML *)

Module BrowserParse.

(** [base64.RawURLEncoding.DecodeString], [None] for its error. *)
Definition Base64 : Type := string -> option string.

(** browser_bing.go: the target of a Bing redirect link. *)
Definition extractRealURL (decode : Base64) (w : World) (href : string)
  : string :=
  if negb (Contains href "bing.com/ck/a") then href
  else match url_query w href "u" with
       | None => href
       | Some u =>
           if negb (String.eqb u "")
           then let u := if HasPrefix u "a1" then drop 2 u else u in
                match decode u with
                | Some decoded =>
                    if len decoded >? 0 then decoded else href
                | None => href
                end
           else href
       end.

Definition parseBingItem (decode : Base64) (w : World) (n : Node)
  : option SearchResult :=
  let s := [n] in
  let titleEl := Find s "h2 a" in
  if Length titleEl =? 0 then None
  else
    let title := TrimSpace (Text titleEl) in
    let '(href, found) := Attr titleEl "href" in
    if negb found then None
    else
      let realURL := extractRealURL decode w href in
      if String.eqb realURL "" || negb (HasPrefix realURL "http") then None
      else if Contains realURL "bing.com" || Contains realURL "microsoft.com"
      then None
      else
        let descEl := Find s ".b_caption p" in
        let description := if Length descEl >? 0
                           then TrimSpace (Text (First descEl)) else "" in
        let citeEl := Find s "cite" in
        let source := if Length citeEl >? 0
                      then TrimSpace (Text (First citeEl)) else "" in
        Some {| Title := title; URL := realURL; Description := description;
                Source := source; Engine := "browser_bing" |}.

(** browser_google.go: the callback of [doc.Find(selector).Each]. *)
Definition parseGoogleItem (selector : string) (n : Node)
  : option SearchResult :=
  let s := [n] in
  if (Length (Find s "div.g") >? 0) && negb (String.eqb selector "div.g")
  then None
  else
    let linkEl := First (Find s "a[href]") in
    if Length linkEl =? 0 then None
    else
      let '(href, found) := Attr linkEl "href" in
      if negb found then None
      else if negb (HasPrefix href "http") || Contains href "google.com"
              || Contains href "webcache.googleusercontent.com"
      then None
      else
        let titleEl := Find s "h3" in
        let title := if Length titleEl >? 0
                     then TrimSpace (Text (First titleEl)) else "" in
        if String.eqb title "" then None
        else
          let description :=
            pick_description false s
              ["div[data-sncf]"; "div.VwiC3b"; "span.aCOpRe"; "div.IsZvec"]
              "" in
          let citeEl := Find s "cite" in
          let source := if Length citeEl >? 0
                        then TrimSpace (Text (First citeEl)) else "" in
          Some {| Title := title; URL := href; Description := description;
                  Source := source; Engine := "browser_google" |}.

(** The loop over the three selectors: stop at the first one that leaves
    a result. *)
Fixpoint google_selectors (doc : Selection) (selectors : list string)
    (results : list SearchResult) : list SearchResult :=
  match selectors with
  | [] => results
  | selector :: rest =>
      let results :=
        results ++ omap (parseGoogleItem selector) (Find doc selector) in
      if count results >? 0 then results
      else google_selectors doc rest results
  end.

(** The last loop of browser_google.go: keep the first result of every
    link. *)
Fixpoint unique (results : list SearchResult) (seen : gset string)
    (uniqueResults : list SearchResult) : list SearchResult :=
  match results with
  | [] => uniqueResults
  | r :: rest =>
      if negb (bool_decide (URL r ∈ seen))
      then unique rest ({[ URL r ]} ∪ seen) (uniqueResults ++ [r])
      else unique rest seen uniqueResults
  end.

(** browser_baidu.go *)
Definition parseBaiduItem (n : Node) : option SearchResult :=
  let s := [n] in
  let titleEl := Find s "h3 a" in
  let titleEl := if Length titleEl =? 0 then First (Find s "a[href]")
                 else titleEl in
  if Length titleEl =? 0 then None
  else
    let title := TrimSpace (Text titleEl) in
    if String.eqb title "" then None
    else
      let '(href, found) := Attr titleEl "href" in
      if negb found then None
      else if negb (HasPrefix href "http") then None
      else
        let description :=
          pick_description false s
            ["div.c-abstract"; "span.c-abstract"; "div.c-span-last";
             "div.content-right_8Zs40"] "" in
        let source :=
          pick_description false s
            ["span.c-showurl"; "a.c-showurl"; "span.source_1Vdff"] "" in
        if Contains title "广告" then None
        else
          Some {| Title := title; URL := href; Description := description;
                  Source := source; Engine := "browser_baidu" |}.

Definition extract (decode : Base64) (w : World) (v : Browser.Variant)
    (doc : Selection) : list SearchResult :=
  match v with
  | Browser.bing_variant => omap (parseBingItem decode w) (Find doc "li.b_algo")
  | Browser.google_variant =>
      unique (google_selectors doc ["div.g"; "div[data-ved]"; "div.Gx5Zad"] [])
             ∅ []
  | Browser.baidu_variant =>
      omap parseBaiduItem
           (Find doc "div.result, div.result-op, div.c-container")
  end.

(** [parseHTML] of the engine of variant [v]. *)
Definition parseHTML (decode : Base64) (w : World) (v : Browser.Variant)
    (html : string) : Results :=
  match html_parse w html with
  | inr err => ([], Some ("parse HTML failed: " +:+ err))
  | inl doc => (extract decode w v doc, None)
  end.

(** The world's [browser_parseHTML] is the code's [parseHTML]. *)
Definition faithful (decode : Base64) (w : World) : Prop :=
  forall v html,
    browser_parseHTML w (Browser.name v) html = parseHTML decode w v html.

End BrowserParse.

(** What every engine stamps on a result it returns: its own name, and a
    link that is present and, Sogou apart, begins with [http]. *)
Definition emitted_by (e : EngineImpl) (r : SearchResult) : Prop :=
  Engine r = engine_Name e /\ URL r <> "" /\
  (e <> SogouEngine -> HasPrefix (URL r) "http" = true).

(** ** browser.go: ExecuteWithRetry *)

Module Retry.

(** What the caller of [ExecuteWithRetry] can observe of it: the runs of
    the actions and the pauses, in nanoseconds. *)
Inductive Action :=
| Attempt (i : Z)
| Sleep (nanoseconds : Z).

(** [time.Duration] is an [int64]; its product wraps around. *)
Definition wrap64 (z : Z) : Z := (z + 2 ^ 63) mod 2 ^ 64 - 2 ^ 63.

Definition Second : Z := 1000000000.

(** The [for i := 0; i < maxRetries; i++] loop; [run i] is what
    [chromedp.Run] returns at attempt [i]; one unit of fuel per
    iteration, [None] when the fuel is used up. *)
Fixpoint loop (fuel : nat) (run : Z -> option error) (maxRetries i : Z)
    (lastErr : option error) : option (option error * list Action) :=
  if i <? maxRetries
  then match fuel with
       | O => None
       | S fuel' =>
           match run i with
           | Some err =>
               match loop fuel' run maxRetries (i + 1) (Some err) with
               | Some (r, trace) =>
                   Some (r, Attempt i :: Sleep (wrap64 (Second * (i + 1)))
                              :: trace)
               | None => None
               end
           | None => Some (None, [Attempt i])
           end
       end
  else Some (lastErr, []).

Definition ExecuteWithRetry (fuel : nat) (run : Z -> option error)
    (maxRetries : Z) : option (option error * list Action) :=
  loop fuel run maxRetries 0 None.

Definition attempts (trace : list Action) : list Z :=
  omap (fun a => match a with Attempt i => Some i | Sleep _ => None end) trace.

(** The time spent sleeping, in nanoseconds. *)
Definition slept (trace : list Action) : Z :=
  fold_right (fun a t => match a with Sleep d => d + t | Attempt _ => t end)
             0 trace.

End Retry.

(** ** mcp: types.go, handler.go, tools.go *)

Module mcp.

(** A [float64] that [encoding/json] decoded from a number: a finite
    value, kept as the fraction it is. *)
Record float64 := mkFloat {
  numerator : Z;
  denominator : positive
}.

(** [int(l)]: the fraction is cut off towards zero; outside the range
    of [int] the language leaves the result to the platform, and this is
    what amd64 gives. *)
Definition int (l : float64) : Z :=
  let z := Z.quot (numerator l) (Z.pos (denominator l)) in
  if (- 2 ^ 63 <=? z) && (z <? 2 ^ 63) then z else - 2 ^ 63.

(** An [interface{}] as [encoding/json] fills it. *)
#[warnings="-register-all"]
Inductive JSON :=
| JNull
| JBool (b : bool)
| JNumber (f : float64)
| JString (s : string)
| JArray (items : list JSON)
| JObject (fields : list (string * JSON)).

Record JSONRPCRequest := mkRequest {
  JSONRPC : string;
  ID : JSON;
  Method : string;
  Params : JSON
}.

Record RPCError := mkRPCError {
  Code : Z;
  Message : string
}.

Record ContentItem := mkContentItem {
  Type_ : string;
  Text : string
}.

Record CallToolResult := mkCallToolResult {
  Content : list ContentItem;
  IsError : bool
}.

Record CallToolParams := mkCallToolParams {
  Name : string;
  Arguments : gmap string JSON
}.

Record Property := mkProperty {
  PropertyType : string;
  PropertyDescription : string;
  Default : option Z;
  Items : option string;
  Enum : list string
}.

Record InputSchema := mkInputSchema {
  SchemaType : string;
  Properties : list (string * Property);
  Required : list string
}.

Record Tool := mkTool {
  ToolName : string;
  ToolDescription : string;
  Schema : InputSchema
}.

(** What [HandleRequest] puts in [Result]. *)
Inductive ResultValue :=
| InitializeResult (protocolVersion : string) (listChanged : bool)
                   (serverName serverVersion : string)
| ListToolsResult (tools : list Tool)
| ToolResult (r : option CallToolResult)
| ListResourcesResult
| ListPromptsResult.

Record JSONRPCResponse := mkResponse {
  ResponseJSONRPC : string;
  ResponseID : JSON;
  Result : option ResultValue;
  Error : option RPCError
}.

Definition MCPVersion : string := "2024-11-05".

(** What the handler hands to [encoding/json] and to the engine manager,
    and what comes back in the run at hand. *)
Record Env := mkEnv {
  marshalParams : JSON -> string + error;             (* json.Marshal(params) *)
  unmarshalParams : string -> CallToolParams + error; (* json.Unmarshal(bytes, &callParams) *)
  marshalResults : list SearchResult -> string + error; (* json.MarshalIndent(results, ...) *)
  search : SearchRequest -> Results                   (* h.engineManager.Search(ctx, req) *)
}.

Definition textResult (isError : bool) (text : string) : CallToolResult :=
  {| Content := [{| Type_ := "text"; Text := text |}]; IsError := isError |}.

(** [for _, eng := range e { if s, ok := eng.(string); ok { ... } }] *)
Fixpoint strings_of (e : list JSON) : list string :=
  match e with
  | [] => []
  | JString s :: rest => s :: strings_of rest
  | _ :: rest => strings_of rest
  end.

(** The request [handleSearch] builds from the arguments, once the query
    is there. *)
Definition searchRequest (args : gmap string JSON) : SearchRequest :=
  let query := match args !! "query" with Some (JString s) => s | _ => "" end in
  let limit := match args !! "limit" with Some (JNumber l) => int l | _ => 10 end in
  let engines := match args !! "engines" with
                 | Some (JArray e) => strings_of e
                 | _ => []
                 end in
  {| Query := query; Limit := limit; Engines := engines |}.

Definition handleSearch (env : Env) (args : gmap string JSON)
  : option CallToolResult * option error :=
  let query := match args !! "query" with Some (JString s) => s | _ => "" end in
  if String.eqb query "" then (Some (textResult true "query is required"), None)
  else
    match search env (searchRequest args) with
    | (_, Some err) => (Some (textResult true ("Search failed: " +:+ err)), None)
    | (results, None) =>
        match marshalResults env results with
        | inr err =>
            (Some (textResult true ("Failed to format results: " +:+ err)), None)
        | inl resultJSON => (Some (textResult false resultJSON), None)
        end
    end.

Definition handleToolsCall (cfg : configfile.FileConfig) (env : Env)
    (params : JSON) : option CallToolResult * option error :=
  match marshalParams env params with
  | inr err => (None, Some ("failed to marshal params: " +:+ err))
  | inl paramsBytes =>
      match unmarshalParams env paramsBytes with
      | inr err => (None, Some ("failed to unmarshal params: " +:+ err))
      | inl callParams =>
          if String.eqb (Name callParams)
                        (configfile.SearchName (configfile.Tools (configfile.MCP cfg)))
          then handleSearch env (Arguments callParams)
          else (Some (textResult true ("Unknown tool: " +:+ Name callParams)),
                None)
      end
  end.

Definition GetTools (cfg : configfile.FileConfig) : list Tool :=
  [{| ToolName := configfile.SearchName (configfile.Tools (configfile.MCP cfg));
      ToolDescription :=
        configfile.SearchDescription (configfile.Tools (configfile.MCP cfg));
      Schema :=
        {| SchemaType := "object";
           Properties :=
             [("query",
               {| PropertyType := "string";
                  PropertyDescription := "The search query string";
                  Default := None; Items := None; Enum := [] |});
              ("limit",
               {| PropertyType := "number";
                  PropertyDescription :=
                    "Maximum number of results to return (default: 10)";
                  Default := Some 10; Items := None; Enum := [] |});
              ("engines",
               {| PropertyType := "array";
                  PropertyDescription :=
                    "Search engines to use. Available: bing, baidu, duckduckgo, google. Default uses the configured default engine.";
                  Default := None; Items := Some "string";
                  Enum := config.ValidEngines |})];
           Required := ["query"] |} |}].

Definition handleInitialize (cfg : configfile.FileConfig) : ResultValue :=
  InitializeResult MCPVersion false
    (configfile.ServerName (configfile.MCP cfg))
    (configfile.ServerVersion (configfile.MCP cfg)).

Definition handleToolsList (cfg : configfile.FileConfig) : ResultValue :=
  ListToolsResult (GetTools cfg).

Definition HandleRequest (cfg : configfile.FileConfig) (env : Env)
    (req : JSONRPCRequest) : JSONRPCResponse :=
  let answer (result : option ResultValue) (err : option error) :=
    match err with
    | Some err =>
        {| ResponseJSONRPC := "2.0"; ResponseID := ID req; Result := None;
           Error := Some {| Code := -32603; Message := err |} |}
    | None =>
        {| ResponseJSONRPC := "2.0"; ResponseID := ID req; Result := result;
           Error := None |}
    end in
  if String.eqb (Method req) "initialize"
  then answer (Some (handleInitialize cfg)) None
  else if String.eqb (Method req) "notifications/initialized"
  then {| ResponseJSONRPC := ""; ResponseID := JNull; Result := None;
          Error := None |}
  else if String.eqb (Method req) "tools/list"
  then answer (Some (handleToolsList cfg)) None
  else if String.eqb (Method req) "tools/call"
  then let '(result, err) := handleToolsCall cfg env (Params req) in
       answer (Some (ToolResult result)) err
  else if String.eqb (Method req) "resources/list"
  then answer (Some ListResourcesResult) None
  else if String.eqb (Method req) "prompts/list"
  then answer (Some ListPromptsResult) None
  else answer None (Some ("unknown method: " +:+ Method req)).

End mcp.

(** ** server.go *)

Module server.

Record Session := mkSession {
  SessionID : string;
  CreatedAt : Z
}.

(** The part of the server that changes: the session table. *)
Record Server := mkServer {
  sessions : gmap string Session
}.

(** An HTTP request to [/mcp], with what the process draws while it
    serves it: a fresh identifier, the time, and whether the connection
    can be flushed. *)
Record HttpRequest := mkHttpRequest {
  HttpMethod : string;
  SessionHeader : string;                 (* r.Header.Get("mcp-session-id") *)
  Body : mcp.JSONRPCRequest + error;      (* json.NewDecoder(r.Body).Decode(&req) *)
  uuid : string;                          (* uuid.New().String() *)
  now : Z;                                (* time.Now() *)
  canFlush : bool                         (* w.(http.Flusher) *)
}.

Inductive Reply :=
| Status (code : Z)
| HttpError (code : Z) (message : string)
| Json (session : option string) (body : mcp.JSONRPCResponse)
| NoContent (session : option string)
| EventStream.

Definition sendError (id : mcp.JSON) (code : Z) (message : string) : Reply :=
  Json None {| mcp.ResponseJSONRPC := "2.0"; mcp.ResponseID := id;
               mcp.Result := None;
               mcp.Error := Some {| mcp.Code := code; mcp.Message := message |} |}.

Definition handleMCPPost (cfg : configfile.FileConfig) (env : mcp.Env)
    (s : Server) (r : HttpRequest) : Server * Reply :=
  match Body r with
  | inr err => (s, sendError mcp.JNull (-32700) ("Parse error: " +:+ err))
  | inl req =>
      let '(s, header) :=
        if String.eqb (mcp.Method req) "initialize"
           && String.eqb (SessionHeader r) ""
        then ({| sessions :=
                   <[uuid r := {| SessionID := uuid r; CreatedAt := now r |}]>
                     (sessions s) |},
              Some (uuid r))
        else (s, None) in
      let resp := mcp.HandleRequest cfg env req in
      if String.eqb (mcp.Method req) "notifications/initialized"
      then (s, NoContent header)
      else (s, Json header resp)
  end.

Definition handleMCPGet (s : Server) (r : HttpRequest) : Server * Reply :=
  if String.eqb (SessionHeader r) ""
  then (s, HttpError 400 "Missing session ID")
  else match sessions s !! SessionHeader r with
       | None => (s, HttpError 400 "Invalid session ID")
       | Some _ =>
           if negb (canFlush r) then (s, HttpError 500 "SSE not supported")
           else (s, EventStream)
       end.

Definition handleMCPDelete (s : Server) (r : HttpRequest) : Server * Reply :=
  if String.eqb (SessionHeader r) ""
  then (s, HttpError 400 "Missing session ID")
  else ({| sessions := delete (SessionHeader r) (sessions s) |}, Status 200).

Definition handleMCP (cfg : configfile.FileConfig) (env : mcp.Env)
    (s : Server) (r : HttpRequest) : Server * Reply :=
  if String.eqb (HttpMethod r) "POST" then handleMCPPost cfg env s r
  else if String.eqb (HttpMethod r) "GET" then handleMCPGet s r
  else if String.eqb (HttpMethod r) "DELETE" then handleMCPDelete s r
  else if String.eqb (HttpMethod r) "OPTIONS" then (s, Status 200)
  else (s, HttpError 405 "Method not allowed").

(** [New]: no session yet. *)
Definition New : Server := {| sessions := ∅ |}.

End server.

(** ** A machine whose browser pages are parsed by the code's parseHTML *)

Module BrowserSamples.

(** A Google result page with one result block. *)
Definition google_doc : Selection :=
  [mkNode "" []
     [("div.g",
       [mkNode "" []
          [("a[href]", [mkNode "" [("href", "https://go.dev/")] []]);
           ("h3", [mkNode "Go" [] []])]])]].

Definition no_redirects : BrowserParse.Base64 := fun _ => None.

Definition world : World :=
  let w := Samples.world google_doc in
  {| http_do := http_do w; chrome_path := chrome_path w;
     chrome_start := chrome_start w; chrome_run := chrome_run w;
     html_parse := html_parse w; regex_links := regex_links w;
     url_host := url_host w; url_query := url_query w;
     query_unescape := query_unescape w;
     browser_parseHTML := fun name html =>
       if String.eqb name "browser_bing"
       then BrowserParse.parseHTML no_redirects w Browser.bing_variant html
       else if String.eqb name "browser_google"
       then BrowserParse.parseHTML no_redirects w Browser.google_variant html
       else BrowserParse.parseHTML no_redirects w Browser.baidu_variant html |}.

Definition google : EngineImpl :=
  BrowserEngineOf {| Browser.variant := Browser.google_variant;
                     Browser.engineProxyURL := "";
                     Browser.engineHeadless := true |}.

End BrowserSamples.

(** ** The description of a result block, before the cap *)

Module Uncapped.

(** baidu.go, parseResultItem: the [aria-label] of the summary, else
    the text of the first [.cos-row], else that of the first
    [.c-abstract]. *)
Definition baidu (n : Node) : string :=
  let s := [n] in
  let descEl := First (Find s ".c-font-normal.c-color-text") in
  let description :=
    if Length descEl >? 0
    then let '(ariaLabel, found) := Attr descEl "aria-label" in
         if found && negb (String.eqb ariaLabel "")
         then TrimSpace ariaLabel else ""
    else "" in
  let description :=
    if String.eqb description ""
    then let cosRow := First (Find s ".cos-row") in
         if Length cosRow >? 0 then TrimSpace (Text cosRow)
         else description
    else description in
  if String.eqb description ""
  then let abstractEl := First (Find s ".c-abstract") in
       if Length abstractEl >? 0 then TrimSpace (Text abstractEl)
       else description
  else description.

(** sogou.go, parseResultItem: the first non-empty summary, with the
    highlighting tags removed. *)
Definition sogou (n : Node) : string :=
  let description :=
    pick_description true [n]
      [".title-summary"; ".clamp2"; ".result-summary-exp";
       ".video-desc__descContent_812e"] "" in
  ReplaceAll (ReplaceAll description "<em>" "") "</em>" "".

End Uncapped.

(** ** The paging loops behind one name *)

(** The loop of the engine's [Search], entered with [allResults] collected
    and the page cursor at [cursor]; DuckDuckGo's [Search] has no loop. *)
Definition engine_Search_loop (fuel : nat) (w : World) (e : EngineImpl)
    (query : string) (limit : Z) (allResults : list SearchResult)
    (cursor : Z) : option (M Results) :=
  match e with
  | BingEngine => Some (Bing.Search_loop fuel w query limit allResults cursor)
  | DuckDuckGoEngine => None
  | BaiduEngine => Some (Baidu.Search_loop fuel w query limit allResults cursor)
  | SogouEngine => Some (Sogou.Search_loop fuel w query limit allResults cursor)
  | BrowserEngineOf b =>
      Some (Browser.Search_loop fuel w b query limit allResults cursor)
  end.

(** ** A network that answers once *)

Module FlakySamples.

(** The first request is answered with a page holding one Bing result,
    every later one fails. *)
Definition world : World :=
  let w := Samples.one_per_page in
  {| http_do := fun i _ =>
       if (i =? 0)%nat then HttpResponse 200 "<html></html>" None
       else TransportError "connection reset by peer";
     chrome_path := chrome_path w; chrome_start := chrome_start w;
     chrome_run := chrome_run w; html_parse := html_parse w;
     regex_links := regex_links w; url_host := url_host w;
     url_query := url_query w; query_unescape := query_unescape w;
     browser_parseHTML := browser_parseHTML w |}.

Definition first_page : list SearchResult :=
  [{| Title := "Go"; URL := "https://go.dev/";
      Description := "The Go programming language"; Source := "";
      Engine := "bing" |}].

Definition after (requests : list Event) : State :=
  {| log := requests; bm := BrowserManager.fresh |}.

End FlakySamples.

(** * Properties *)

(** ** The coordinator *)

Section ManagerFacts.

Variables (query : string) (limit : Z).

Lemma contains_elem_of (slice : list string) (item : string) :
  contains slice item = true <-> item ∈ slice.
Proof.
  induction slice as [|s rest IH]; simpl.
  - split; [discriminate | intros H; inversion H].
  - destruct (String.eqb_spec s item) as [->|Hne].
    + split; [intros _; left | reflexivity].
    + rewrite IH. split; [intros H; by right |].
      intros H. inversion H; subst; [congruence | assumption].
Qed.

(** What the goroutines leave in the shared variables. *)
Lemma fold_task (done : list SearchEngine) (sh : Manager.Shared) :
  fold_left (Manager.task query limit) done sh =
    {| Manager.allResults := Manager.allResults sh ++ Manager.succeeded query limit done;
       Manager.lastErr := from_option Some (Manager.lastErr sh) (last (Manager.failures query limit done)) |}.
Proof.
  revert sh. induction done as [|eng done IH]; intros sh; simpl.
  - rewrite app_nil_r. by destruct sh.
  - rewrite IH. unfold Manager.task.
    destruct (Search eng query limit) as [results [err|]]; simpl.
    + f_equal. destruct (Manager.failures query limit done) as [|e l] eqn:E.
      * reflexivity.
      * change (last (err :: e :: l)) with (last (e :: l)).
        destruct (last (e :: l)) eqn:L; [reflexivity | by apply last_None in L].
    + by rewrite app_assoc.
Qed.

Lemma run_tasks_eq (done : list SearchEngine) :
  Manager.run_tasks query limit done =
    match Manager.succeeded query limit done, last (Manager.failures query limit done) with
    | [], Some err => ([], Some ("all searches failed, last error: " +:+ err))
    | results, _ => (results, None)
    end.
Proof.
  unfold Manager.run_tasks, Manager.finish. rewrite fold_task. simpl.
  destruct (Manager.succeeded query limit done);
    by destruct (last (Manager.failures query limit done)).
Qed.

Lemma succeeded_length_le (done : list SearchEngine) :
  0 <= limit ->
  Forall (fun eng => Z.of_nat (length (fst (Search eng query limit))) <= limit) done ->
  Z.of_nat (length (Manager.succeeded query limit done))
    <= limit * Z.of_nat (length done).
Proof.
  intros Hl H. induction H as [|eng done Hx _ IH]; simpl; [lia|].
  rewrite length_app.
  destruct (Search eng query limit) as [results [err|]]; simpl in *; nia.
Qed.

Lemma launch_registered (m : Manager.Manager) (names : list string) (eng : SearchEngine) :
  eng ∈ Manager.launch m names -> exists name, Manager.engines m !! name = Some eng.
Proof.
  induction names as [|n rest IH]; simpl; [intros H; inversion H|].
  destruct (negb _); [exact IH|].
  unfold Manager.GetEngine. destruct (Manager.engines m !! n) as [e|] eqn:E; [|exact IH].
  intros H. inversion H; subst; [by exists n | by apply IH].
Qed.

Lemma launch_app (m : Manager.Manager) (pre post : list string) :
  Manager.launch m (pre ++ post) = Manager.launch m pre ++ Manager.launch m post.
Proof.
  induction pre as [|n pre IH]; simpl; [reflexivity|].
  destruct (negb _); [exact IH|].
  destruct (Manager.GetEngine m n); [by rewrite IH | exact IH].
Qed.

End ManagerFacts.

Lemma launch_excluded (m : Manager.Manager) (name : string) :
  excluded m name -> Manager.launch m [name] = [].
Proof.
  intros [[Hne Hnot]|Hreg]; simpl.
  - unfold config.IsEngineAllowed.
    destruct (config.AllowedEngines (Manager.cfg m)) as [|a l] eqn:E; [done|].
    change (Nat.eqb (length (a :: l)) 0) with false. cbv iota.
    destruct (contains (a :: l) name) eqn:C; [|reflexivity].
    apply contains_elem_of in C. contradiction.
  - destruct (negb _); [reflexivity|].
    unfold Manager.GetEngine. by rewrite Hreg.
Qed.

(** C1. The outcome of [Manager.Search]: with [combined] the results of the
    engines that succeeded and [failed] the errors of the others, a
    non-empty [combined] is returned with no error however many engines
    failed; an empty [combined] with a failed engine gives an error that
    wraps one of the engines' errors; an empty [combined] with no engine
    queried gives the empty sequence and no error. *)
Theorem C1_search_reduces_outcomes (m : Manager.Manager) (req : SearchRequest)
    (out : Results) :
  Manager.Search m req out ->
  exists done : list SearchEngine,
    Manager.launch m (Manager.effective_engines m req) ≡ₚ done /\
    let combined := Manager.succeeded (Query req) (Manager.effective_limit req) done in
    let failed := Manager.failures (Query req) (Manager.effective_limit req) done in
    (combined <> [] -> out = (combined, None)) /\
    (combined = [] -> failed <> [] ->
       exists err, err ∈ failed /\
         out = ([], Some ("all searches failed, last error: " +:+ err))) /\
    (combined = [] -> done = [] -> out = ([], None)).
Proof.
  intros H. destruct H as [done Hperm]. exists done. split; [exact Hperm|].
  cbv zeta. rewrite run_tasks_eq.
  set (combined := Manager.succeeded _ _ done).
  set (failed := Manager.failures _ _ done).
  split; [|split].
  - intros Hne. destruct combined; [done|reflexivity].
  - intros -> Hf. destruct (last failed) as [err|] eqn:L.
    + exists err. split; [|reflexivity].
      apply last_Some in L as [l' ->]. apply elem_of_app. right. by left.
    + apply last_None in L. contradiction.
  - intros -> ->. reflexivity.
Qed.

Lemma C1_search_reduces_outcomes_witness :
  let m := Samples.registry Samples.open_config in
  let req := Samples.request 3 ["bing"; "baidu"] in
  let out := Manager.Search_in_launch_order m req in
  Manager.Search m req out /\
  exists done : list SearchEngine,
    Manager.launch m (Manager.effective_engines m req) ≡ₚ done /\
    let combined := Manager.succeeded (Query req) (Manager.effective_limit req) done in
    let failed := Manager.failures (Query req) (Manager.effective_limit req) done in
    (combined <> [] -> out = (combined, None)) /\
    (combined = [] -> failed <> [] ->
       exists err, err ∈ failed /\
         out = ([], Some ("all searches failed, last error: " +:+ err))) /\
    (combined = [] -> done = [] -> out = ([], None)).
Proof.
  intros m req out.
  assert (H : Manager.Search m req out).
  { unfold Manager.Search, out, Manager.Search_in_launch_order.
    constructor. reflexivity. }
  split; [exact H|].
  exact (C1_search_reduces_outcomes m req out H).
Defined.

(** C3, as stated, fails: a request for two engines with limit 2, each
    engine returning two results, comes back with four. *)
Lemma C3_combined_limit_counterexample :
  let m := Samples.registry Samples.open_config in
  let req := Samples.request 2 ["bing"; "sogou"] in
  let out := Manager.Search_in_launch_order m req in
  0 < Limit req /\ Manager.Search m req out /\
  Z.of_nat (length (fst out)) = 4 /\ snd out = None /\
  ~ Z.of_nat (length (fst out)) <= Limit req.
Proof.
  intros m req out.
  assert (H : Manager.Search m req out).
  { unfold Manager.Search, out, Manager.Search_in_launch_order.
    constructor. reflexivity. }
  split; [reflexivity|]. split; [exact H|].
  assert (E : out = ([Samples.result "bing" "https://go.dev/";
                      Samples.result "bing" "https://pkg.go.dev/";
                      Samples.result "sogou" "https://go.dev/doc/";
                      Samples.result "sogou" "https://go.dev/blog/"], None))
    by (vm_compute; reflexivity).
  rewrite E. simpl. repeat split; lia.
Qed.

(** C3, amended.  [Manager.Search] does not cut the combined sequence: when
    every registered engine keeps to the limit it is given, the combined
    sequence has at most [limit] results per queried engine, where [limit]
    is the request's limit, or 10 when that is not positive. *)
Theorem C3_combined_limit_per_engine (m : Manager.Manager) (req : SearchRequest)
    (out : Results) :
  (forall name eng, Manager.engines m !! name = Some eng ->
     Z.of_nat (length (fst (Search eng (Query req) (Manager.effective_limit req))))
       <= Manager.effective_limit req) ->
  Manager.Search m req out ->
  Z.of_nat (length (fst out))
    <= Manager.effective_limit req
       * Z.of_nat (length (Manager.launch m (Manager.effective_engines m req))).
Proof.
  intros Heng [done Hperm].
  assert (Hl : 0 <= Manager.effective_limit req).
  { unfold Manager.effective_limit. destruct (Z.leb_spec (Limit req) 0); lia. }
  rewrite (Permutation_length Hperm), run_tasks_eq.
  assert (Hb := succeeded_length_le (Query req) (Manager.effective_limit req) done Hl).
  assert (Hall : Forall (fun eng =>
            Z.of_nat (length (fst (Search eng (Query req) (Manager.effective_limit req))))
              <= Manager.effective_limit req) done).
  { apply Forall_forall. intros eng Hin.
    rewrite <- Hperm in Hin.
    destruct (launch_registered m _ eng Hin) as [name Hname]. eauto. }
  specialize (Hb Hall).
  destruct (Manager.succeeded _ _ done) eqn:E.
  - assert (0 <= Manager.effective_limit req * Z.of_nat (length done)) by nia.
    destruct (last _); simpl; lia.
  - simpl in *. lia.
Qed.

Lemma C3_combined_limit_per_engine_witness :
  let m := Samples.registry Samples.open_config in
  let req := Samples.request 2 ["bing"; "sogou"] in
  let out := Manager.Search_in_launch_order m req in
  Z.of_nat (length (fst out))
    <= Manager.effective_limit req
       * Z.of_nat (length (Manager.launch m (Manager.effective_engines m req))).
Proof.
  intros m req out.
  apply (C3_combined_limit_per_engine m req out).
  - intros name eng Hreg. simpl.
    unfold m, Samples.registry, Manager.RegisterEngine in Hreg. simpl in Hreg.
    apply lookup_insert_Some in Hreg as [[_ <-]|[_ Hreg]];
      [apply Z.leb_le; reflexivity|].
    apply lookup_insert_Some in Hreg as [[_ <-]|[_ Hreg]];
      [apply Z.leb_le; reflexivity|].
    apply lookup_insert_Some in Hreg as [[_ <-]|[_ Hreg]];
      [apply Z.leb_le; reflexivity|].
    by rewrite lookup_empty in Hreg.
  - unfold Manager.Search, out, Manager.Search_in_launch_order.
    constructor. reflexivity.
Defined.

(** C7. A requested engine that a non-empty allow-list does not name, or
    that is not registered, is skipped silently: the call can return
    exactly what it can return for the request without that name, so the
    engine adds no result and no error, and the others are still queried. *)
Theorem C7_excluded_engine_skipped (m : Manager.Manager) (req : SearchRequest)
    (pre post : list string) (name : string) (out : Results) :
  Engines req = pre ++ name :: post ->
  excluded m name ->
  Manager.launch m (Engines req) = Manager.launch m (pre ++ post) /\
  (Manager.Search m req out <->
   Manager.Search_names m (Query req) (Manager.effective_limit req)
                        (pre ++ post) out).
Proof.
  intros Hreq Hex.
  assert (L : Manager.launch m (pre ++ name :: post) = Manager.launch m (pre ++ post)).
  { change (name :: post) with ([name] ++ post).
    by rewrite !launch_app, (launch_excluded m name Hex). }
  split; [by rewrite Hreq|].
  assert (Heff : Manager.effective_engines m req = pre ++ name :: post).
  { unfold Manager.effective_engines. rewrite Hreq. by destruct pre. }
  unfold Manager.Search. rewrite Heff.
  split; intros [done Hperm]; constructor; [by rewrite <- L | by rewrite L].
Qed.

Lemma C7_excluded_engine_skipped_witness :
  let m := Samples.registry Samples.bing_only_config in
  let req := Samples.request 2 ["bing"; "sogou"; "google"] in
  Manager.launch m (Engines req) = Manager.launch m ["bing"; "google"] /\
  (Manager.Search m req (Manager.Search_in_launch_order m req) <->
   Manager.Search_names m (Query req) (Manager.effective_limit req)
                        ["bing"; "google"]
                        (Manager.Search_in_launch_order m req)).
Proof.
  intros m req.
  apply (C7_excluded_engine_skipped m req ["bing"] ["google"] "sogou").
  - reflexivity.
  - left. split; [discriminate|].
    simpl. intros H. apply contains_elem_of in H. discriminate H.
Defined.

(** ** The paging loops *)

Lemma count_app (l k : list SearchResult) : count (l ++ k) = count l + count k.
Proof. unfold count. rewrite length_app. lia. Qed.

Lemma count_firstn_le (n : nat) (l : list SearchResult) :
  count (firstn n l) <= count l.
Proof. unfold count. rewrite length_firstn. lia. Qed.

Lemma truncate_eq (limit : Z) (acc : list SearchResult) (st : State) :
  0 <= limit ->
  truncate limit acc st = Ret (firstn (Z.to_nat limit) acc, None) st.
Proof.
  intros Hl. unfold truncate, count.
  destruct (Z.gtb_spec (Z.of_nat (length acc)) limit) as [Hgt|Hle].
  - destruct (Z.ltb_spec limit 0); [lia | reflexivity].
  - unfold ret. rewrite firstn_all2 by lia. reflexivity.
Qed.

Lemma count_truncated (limit : Z) (acc : list SearchResult) :
  0 <= limit -> count (firstn (Z.to_nat limit) acc) <= limit.
Proof. intros Hl. unfold count. rewrite length_firstn. lia. Qed.

Lemma count_truncated_exact (limit : Z) (acc : list SearchResult) :
  0 <= limit -> limit <= count acc ->
  count (firstn (Z.to_nat limit) acc) = limit.
Proof. unfold count. intros Hl Hge. rewrite length_firstn. lia. Qed.

Section PagedLoop.

Variables (page : nat -> M Results) (wrap : error -> error) (cap : nat).
Variables (limit : Z) (is_fetch : Event -> bool) (P : State -> Prop).

Hypothesis Hlimit : 0 <= limit.

Lemma paged_loop_le_limit (fuel : nat) :
  forall acc k st rs st',
    paged_loop fuel page wrap cap limit acc k st = Ret (rs, None) st' ->
    count rs <= limit.
Proof.
  induction fuel as [|fuel IH]; intros acc k st rs st'; simpl;
    destruct (negb (count acc <? limit));
    try (rewrite truncate_eq by exact Hlimit; intros [= <- _];
         by apply count_truncated);
    try discriminate.
  unfold bind. destruct (page k st) as [[results [err|]] st1|why st1];
    [| |discriminate].
  - destruct (count acc >? 0); [|discriminate].
    rewrite truncate_eq by exact Hlimit. intros [= <- _].
    by apply count_truncated.
  - destruct (count results =? 0); [|destruct (cap <=? S k)%nat].
    + rewrite truncate_eq by exact Hlimit. intros [= <- _].
      by apply count_truncated.
    + rewrite truncate_eq by exact Hlimit. intros [= <- _].
      by apply count_truncated.
    + apply IH.
Qed.

Hypothesis Hpage : forall k st, P st ->
  exists r evs st', page k st = Ret r st' /\ log st' = log st ++ evs /\
                    (length (List.filter is_fetch evs) = 1 /\
                     length evs <= 2)%nat /\ P st'.

Lemma paged_loop_bounded (fuel : nat) :
  forall acc k st,
    (k < cap)%nat -> (cap - k <= fuel)%nat -> P st ->
    exists out evs st',
      paged_loop fuel page wrap cap limit acc k st = Ret out st' /\
      log st' = log st ++ evs /\
      (length (List.filter is_fetch evs) <= cap - k /\
       length evs <= 2 * (cap - k))%nat /\
      P st' /\
      forall per_page : nat,
        (forall j s rs s', page j s = Ret (rs, None) s' ->
                           count rs <= Z.of_nat per_page) ->
        count acc <= Z.of_nat k * Z.of_nat per_page ->
        count (fst out) <= Z.of_nat cap * Z.of_nat per_page.
Proof.
  assert (Hcut : forall (acc : list SearchResult) (j per_page : nat),
    (j <= cap)%nat ->
    count acc <= Z.of_nat j * Z.of_nat per_page ->
    count (firstn (Z.to_nat limit) acc) <= Z.of_nat cap * Z.of_nat per_page).
  { intros acc j per_page Hj Hacc.
    pose proof (count_firstn_le (Z.to_nat limit) acc). nia. }
  induction fuel as [|fuel IH]; intros acc k st Hk Hfuel HP; simpl.
  - lia.
  - destruct (negb (count acc <? limit)).
    + exists (firstn (Z.to_nat limit) acc, None), [], st.
      rewrite truncate_eq, app_nil_r by exact Hlimit.
      repeat split; try assumption; [simpl; lia | simpl; lia |].
      intros per_page _ Hacc. apply (Hcut acc k); [lia | exact Hacc].
    + unfold bind.
      destruct (Hpage k st HP)
        as (r & evs1 & st1 & E & Hlog1 & [Hf1 Hn1] & HP1).
      rewrite E. destruct r as [results [err|]].
      * destruct (count acc >? 0).
        -- exists (firstn (Z.to_nat limit) acc, None), evs1, st1.
           rewrite truncate_eq by exact Hlimit.
           repeat split; try assumption; [lia | lia |].
           intros per_page _ Hacc. apply (Hcut acc k); [lia | exact Hacc].
        -- exists ([], Some (wrap err)), evs1, st1.
           repeat split; try assumption; [lia | lia |].
           intros per_page _ _. unfold count. simpl. nia.
      * destruct (count results =? 0) eqn:Hempty.
        -- exists (firstn (Z.to_nat limit) acc, None), evs1, st1.
           rewrite truncate_eq by exact Hlimit.
           repeat split; try assumption; [lia | lia |].
           intros per_page _ Hacc. apply (Hcut acc k); [lia | exact Hacc].
        -- destruct (Nat.leb_spec cap (S k)) as [Hlast|Hmore].
           ++ exists (firstn (Z.to_nat limit) (acc ++ results), None), evs1, st1.
              rewrite truncate_eq by exact Hlimit.
              repeat split; try assumption; [lia | lia |].
              intros per_page Hpp Hacc. apply (Hcut _ (S k)); [lia|].
              rewrite count_app. specialize (Hpp k st results st1 E). lia.
           ++ destruct (IH (acc ++ results) (S k) st1 ltac:(lia) ltac:(lia) HP1)
                as (out & evs2 & st' & E' & Hlog & [Hev Hn] & HP' & Hb).
              exists out, (evs1 ++ evs2), st'.
              repeat split; try assumption.
              ** rewrite Hlog, Hlog1. by rewrite app_assoc.
              ** rewrite List.filter_app, length_app. lia.
              ** rewrite length_app. lia.
              ** intros per_page Hpp Hacc. apply Hb; [exact Hpp|].
                 rewrite count_app. specialize (Hpp k st results st1 E). lia.
Qed.

End PagedLoop.

(** Each engine's loop is an instance of the shared shape. *)

Lemma Bing_loop_paged (w : World) (query : string) (limit : Z) (fuel : nat) :
  forall acc k st,
    Bing.Search_loop fuel w query limit acc (page_cursor BingEngine k) st =
    paged_loop fuel (engine_page w BingEngine query limit)
               (engine_wrap BingEngine) (page_cap BingEngine) limit acc k st.
Proof.
  induction fuel as [|fuel IH]; intros acc k st;
    cbn [Bing.Search_loop paged_loop]; [reflexivity|].
  destruct (negb (count acc <? limit)); [reflexivity|].
  unfold bind, engine_page, engine_searchPage.
  destruct (Bing.searchPage w query (page_cursor BingEngine k) st)
    as [[results [err|]] st1|why st1]; try reflexivity.
  destruct (count results =? 0); [reflexivity|].
  unfold page_cap. cbn [page_cursor].
  destruct (Z.gtb_spec (Z.of_nat k + 1) 5), (Nat.leb_spec 6 (S k));
    try lia; try reflexivity.
  replace (Z.of_nat k + 1) with (page_cursor BingEngine (S k))
    by (cbn [page_cursor]; lia).
  apply IH.
Qed.

Lemma Baidu_loop_paged (w : World) (query : string) (limit : Z) (fuel : nat) :
  forall acc k st,
    Baidu.Search_loop fuel w query limit acc (page_cursor BaiduEngine k) st =
    paged_loop fuel (engine_page w BaiduEngine query limit)
               (engine_wrap BaiduEngine) (page_cap BaiduEngine) limit acc k st.
Proof.
  induction fuel as [|fuel IH]; intros acc k st;
    cbn [Baidu.Search_loop paged_loop]; [reflexivity|].
  destruct (negb (count acc <? limit)); [reflexivity|].
  unfold bind, engine_page, engine_searchPage.
  destruct (Baidu.searchPage w query (page_cursor BaiduEngine k) st)
    as [[results [err|]] st1|why st1]; try reflexivity.
  - unfold engine_wrap, baidu_wrap.
    destruct (Contains err "captcha" || Contains err "rate limited");
      reflexivity.
  - destruct (count results =? 0); [reflexivity|].
    unfold page_cap. cbn [page_cursor].
    destruct (Z.gtb_spec (10 * Z.of_nat k + 10) 40), (Nat.leb_spec 5 (S k));
      try lia; try reflexivity.
    replace (10 * Z.of_nat k + 10) with (page_cursor BaiduEngine (S k))
      by (cbn [page_cursor]; lia).
    apply IH.
Qed.

Lemma Sogou_loop_paged (w : World) (query : string) (limit : Z) (fuel : nat) :
  forall acc k st,
    Sogou.Search_loop fuel w query limit acc (page_cursor SogouEngine k) st =
    paged_loop fuel (engine_page w SogouEngine query limit)
               (engine_wrap SogouEngine) (page_cap SogouEngine) limit acc k st.
Proof.
  induction fuel as [|fuel IH]; intros acc k st;
    cbn [Sogou.Search_loop paged_loop]; [reflexivity|].
  destruct (negb (count acc <? limit)); [reflexivity|].
  unfold bind, engine_page, engine_searchPage.
  destruct (Sogou.searchPage w query (page_cursor SogouEngine k) st)
    as [[results [err|]] st1|why st1]; try reflexivity.
  destruct (count results =? 0); [reflexivity|].
  unfold page_cap. cbn [page_cursor].
  destruct (Z.gtb_spec (Z.of_nat k + 1 + 1) 5), (Nat.leb_spec 5 (S k));
    try lia; try reflexivity.
  replace (Z.of_nat k + 1 + 1) with (page_cursor SogouEngine (S k))
    by (cbn [page_cursor]; lia).
  apply IH.
Qed.

Lemma Browser_loop_done (w : World) (b : Browser.BrowserEngine)
    (query : string) (limit : Z) (fuel : nat) acc page st :
  3 <= page ->
  Browser.Search_loop fuel w b query limit acc page st = truncate limit acc st.
Proof.
  intros Hp. destruct fuel; cbn [Browser.Search_loop];
    destruct (Z.ltb_spec page 3); try lia;
    rewrite andb_false_r; reflexivity.
Qed.

Lemma Browser_loop_paged (w : World) (b : Browser.BrowserEngine)
    (query : string) (limit : Z) (fuel : nat) :
  forall acc k st,
    (k < 3)%nat ->
    Browser.Search_loop fuel w b query limit acc
                        (page_cursor (BrowserEngineOf b) k) st =
    paged_loop fuel (engine_page w (BrowserEngineOf b) query limit)
               (engine_wrap (BrowserEngineOf b))
               (page_cap (BrowserEngineOf b)) limit acc k st.
Proof.
  induction fuel as [|fuel IH]; intros acc k st Hk;
    cbn [Browser.Search_loop paged_loop page_cursor];
    (destruct (Z.ltb_spec (Z.of_nat k) 3); [|lia]);
    rewrite andb_true_r; [reflexivity|].
  destruct (negb (count acc <? limit)); [reflexivity|].
  unfold bind, engine_page, engine_searchPage. cbn [page_cursor].
  destruct (Browser.searchPage w b query (Z.of_nat k) st)
    as [[results [err|]] st1|why st1]; try reflexivity.
  destruct (count results =? 0); [reflexivity|].
  unfold page_cap.
  destruct (Nat.leb_spec 3 (S k)).
  - apply Browser_loop_done. lia.
  - replace (Z.of_nat k + 1) with (page_cursor (BrowserEngineOf b) (S k))
      by (cbn [page_cursor]; lia).
    apply IH. lia.
Qed.

Lemma http_run (w : World) (req : Request) (st : State) :
  http w req st =
  Ret (http_do w (length (log st)) req)
      {| log := log st ++ [EvHttp req]; bm := bm st |}.
Proof. reflexivity. Qed.

Lemma DuckDuckGo_each_le (w : World) (limit : Z) (items : list Node) :
  forall results,
    count results <= limit ->
    count (DuckDuckGo.each w limit items results) <= limit.
Proof.
  induction items as [|n rest IH]; intros results H; simpl; [exact H|].
  destruct (Z.geb_spec (count results) limit) as [Hfull|Hroom];
    [by apply IH|].
  destruct (DuckDuckGo.parseItem w n) as [r|]; [|by apply IH].
  apply IH. rewrite count_app. unfold count in *. simpl. lia.
Qed.

(** C2. An engine's [Search] with a positive limit that returns no error
    returns at most [limit] results; the code after each paging loop cuts
    an accumulation of [limit] or more results to exactly its first
    [limit]. *)
Theorem C2_engine_enforces_limit (fuel : nat) (w : World) (e : EngineImpl)
    (query : string) (limit : Z) (st : State) :
  0 < limit ->
  (forall acc s, limit <= count acc ->
     truncate limit acc s = Ret (firstn (Z.to_nat limit) acc, None) s /\
     count (firstn (Z.to_nat limit) acc) = limit) /\
  (forall rs st',
     engine_Search fuel w e query limit st = Ret (rs, None) st' ->
     count rs <= limit).
Proof.
  intros Hpos. assert (Hl : 0 <= limit) by lia. split.
  { intros acc s Hge. split; [by apply truncate_eq|].
    by apply count_truncated_exact. }
  intros rs st'. destruct e as [| | | |b]; cbn [engine_Search].
  - unfold Bing.Search.
    change 0 with (page_cursor BingEngine 0). rewrite Bing_loop_paged.
    by apply paged_loop_le_limit.
  - unfold DuckDuckGo.Search, bind. rewrite http_run. unfold ret.
    destruct (http_do w _ _) as [msg|status body [err|]];
      [discriminate| |].
    + destruct (negb (status =? 200)); discriminate.
    + destruct (negb (status =? 200)); [discriminate|].
      destruct (html_parse w body) as [doc|err]; [|discriminate].
      intros [= <- _]. apply DuckDuckGo_each_le. unfold count. simpl. lia.
  - unfold Baidu.Search, bind.
    destruct (Baidu.warmup w st) as [r st1|why st1]; [|discriminate].
    change 0 with (page_cursor BaiduEngine 0). rewrite Baidu_loop_paged.
    by apply paged_loop_le_limit.
  - unfold Sogou.Search.
    change 1 with (page_cursor SogouEngine 0). rewrite Sogou_loop_paged.
    by apply paged_loop_le_limit.
  - unfold Browser.Search, bind.
    destruct (BrowserManager.Initialize w _ _ st) as [[err|] st1|why st1];
      [discriminate| |discriminate].
    change 0 with (page_cursor (BrowserEngineOf b) 0).
    rewrite Browser_loop_paged by lia.
    by apply paged_loop_le_limit.
Qed.

Lemma C2_engine_enforces_limit_witness :
  0 < 2 /\
  exists rs st',
    engine_Search 6 Samples.one_per_page BingEngine "golang" 2 Samples.idle
      = Ret (rs, None) st' /\
    count rs <= 2.
Proof.
  split; [reflexivity|].
  eexists _, _.
  assert (E : engine_Search 6 Samples.one_per_page BingEngine "golang" 2
                Samples.idle
              = Ret (Bing.parseResults (Samples.bing_doc
                        [Samples.bing_item "https://go.dev/"
                           "The Go programming language"])
                     ++ Bing.parseResults (Samples.bing_doc
                        [Samples.bing_item "https://go.dev/"
                           "The Go programming language"]), None)
                    {| log := [EvHttp (BingGet "golang" 1);
                               EvHttp (BingGet "golang" 11)];
                       bm := BrowserManager.fresh |})
    by (vm_compute; reflexivity).
  split; [exact E|].
  exact (proj2 (C2_engine_enforces_limit 6 Samples.one_per_page BingEngine
                  "golang" 2 Samples.idle eq_refl) _ _ E).
Defined.

Ltac case_split :=
  repeat (cbv beta iota; try rewrite http_run;
          match goal with
          | |- context [match http_do ?w ?i ?r with _ => _ end] =>
              destruct (http_do w i r) as [?|? ? [?|]]
          | |- context [negb (?s =? 200)] =>
              destruct (s =? 200); cbn [negb]
          | |- context [match html_parse ?w ?b with _ => _ end] =>
              destruct (html_parse w b)
          | |- context [if Baidu.is_mobile_challenge ?b then _ else _] =>
              destruct (Baidu.is_mobile_challenge b)
          | |- context [if Baidu.is_challenge ?b then _ else _] =>
              destruct (Baidu.is_challenge b)
          | |- context [if ?a || ?b then _ else _] => destruct (a || b)
          | |- context [if count ?l =? 0 then _ else _] =>
              destruct (count l =? 0)
          | |- context [match chrome_run ?w ?i ?n with _ => _ end] =>
              destruct (chrome_run w i n)
          | |- context [match browser_parseHTML ?w ?n ?h with _ => _ end] =>
              destruct (browser_parseHTML w n h) as [? [?|]]
          end).

Ltac page_done :=
  eexists _, _, _; split; [reflexivity|]; cbn [log bm];
  rewrite <- ?app_assoc;
  split; [reflexivity|];
  split; [split; [reflexivity | cbn [length app]; lia]|];
  try exact I; try assumption.

(** One page fetch always comes back, with exactly one request for a
    result page, and leaves the browser manager as it was. *)
Lemma engine_page_runs (w : World) (e : EngineImpl) (query : string)
    (limit : Z) (k : nat) (st : State) :
  engine_ready e st ->
  exists r evs st',
    engine_page w e query limit k st = Ret r st' /\
    log st' = log st ++ evs /\
    (length (List.filter (is_page_fetch e) evs) = 1 /\ length evs <= 2)%nat /\
    engine_ready e st'.
Proof.
  intros Hready. unfold engine_page, engine_searchPage.
  destruct e as [| | | |b].
  - unfold Bing.searchPage, bind. rewrite http_run. unfold ret.
    case_split; page_done.
  - unfold DuckDuckGo.Search, bind. rewrite http_run. unfold ret.
    case_split; page_done.
  - unfold Baidu.searchPage, bind. rewrite http_run. unfold ret.
    unfold Baidu.searchPageMobile, bind, ret.
    case_split; page_done.
  - unfold Sogou.searchPage, bind. rewrite http_run. unfold ret.
    case_split; page_done.
  - destruct st as [lg [m i p h c]]. destruct Hready as [Hmu Hinit].
    cbn [bm mu initialized] in Hmu, Hinit. subst m i.
    unfold Browser.searchPage, BrowserManager.NewTabContext,
      BrowserManager.Lock, BrowserManager.Unlock, BrowserManager.run_tab,
      bind, get_bm, set_bm, emit, ret. cbn.
    case_split; eexists _, [_], _; (split; [reflexivity|]); cbn;
      repeat split; try reflexivity; lia.
Qed.

Ltac init_done :=
  repeat split; intros; try discriminate; try reflexivity;
  try (cbn [length]; lia);
  try match goal with e : EngineImpl |- _ => destruct e; reflexivity end.

(** [Initialize], called with the mutex free, comes back with the mutex
    free, has fetched no result page, and has the browser up when it
    reports success. *)
Lemma Initialize_runs (w : World) (proxy : string) (hl : bool) (st : State) :
  mu (bm st) = false ->
  exists r evs st',
    BrowserManager.Initialize w proxy hl st = Ret r st' /\
    log st' = log st ++ evs /\
    (forall e, length (List.filter (is_page_fetch e) evs) = 0%nat) /\
    (length evs <= 2)%nat /\
    mu (bm st') = false /\
    (r = None -> initialized (bm st') = true).
Proof.
  destruct st as [lg [m i p h c]]. cbn [bm mu]. intros ->.
  unfold BrowserManager.Initialize, BrowserManager.Initialize_locked,
    BrowserManager.Lock, BrowserManager.Unlock, BrowserManager.findChromePath,
    bind, get_bm, set_bm, emit, ret. cbn.
  destruct i; cbn.
  - exists None, [], {| log := lg; bm := mkBM false true p h c |}.
    rewrite app_nil_r. init_done.
  - destruct (String.eqb (chrome_path w (length lg)) ""); cbn.
    + eexists (Some _), [EvStat], _. split; [reflexivity|]. cbn.
      init_done.
    + destruct (chrome_start w (length (lg ++ [EvStat]))); cbn.
      * eexists (Some _), [EvStat; EvLaunch proxy hl], _.
        split; [reflexivity|]. cbn. rewrite <- app_assoc.
        init_done.
      * eexists None, [EvStat; EvLaunch proxy hl], _.
        split; [reflexivity|]. cbn. rewrite <- app_assoc.
        init_done.
Qed.

(** C4, as stated, fails for Bing: with one result on every page and a limit
    of ten, its loop fetches six pages, one more than the range allows. *)
Lemma C4_page_cap_counterexample :
  exists out st',
    Bing.Search 6 Samples.one_per_page "golang" 10 Samples.idle = Ret out st' /\
    page_fetches BingEngine (log st') = 6%nat /\
    ~ (page_fetches BingEngine (log st') <= 5)%nat.
Proof.
  eexists _, _. split; [vm_compute; reflexivity|].
  split; [reflexivity | cbn; lia].
Qed.

(** C4, amended.  For any answers of the network, an engine's [Search] with
    a positive limit, called while the browser manager's mutex is free,
    comes back after at most [page_cap] page fetches (six for Bing, five for
    Baidu and Sogou, one for DuckDuckGo, three for a browser engine) and at
    most twice as many requests plus two in all, whatever loop bound at
    least [page_cap] the model is run with; and when no page yields more
    than [per_page] results, it returns at most [page_cap] times [per_page]
    results. *)
Theorem C4_paged_search_terminates (fuel : nat) (w : World) (e : EngineImpl)
    (query : string) (limit : Z) (st : State) :
  0 < limit ->
  (page_cap e <= fuel)%nat ->
  mu (bm st) = false ->
  exists out evs st',
    engine_Search fuel w e query limit st = Ret out st' /\
    log st' = log st ++ evs /\
    (page_fetches e evs <= page_cap e /\
     length evs <= 2 * page_cap e + 2)%nat /\
    forall per_page : nat,
      (forall cursor s rs s',
         engine_searchPage w e query limit cursor s = Ret (rs, None) s' ->
         count rs <= Z.of_nat per_page) ->
      count (fst out) <= Z.of_nat (page_cap e) * Z.of_nat per_page.
Proof.
  intros Hpos Hfuel Hmu. assert (Hl : 0 <= limit) by lia.
  assert (Hloop : forall s, engine_ready e s -> e <> DuckDuckGoEngine ->
    exists out evs st',
      paged_loop fuel (engine_page w e query limit) (engine_wrap e)
                 (page_cap e) limit [] 0 s = Ret out st' /\
      log st' = log s ++ evs /\
      (page_fetches e evs <= page_cap e /\ length evs <= 2 * page_cap e)%nat /\
      forall per_page : nat,
        (forall cursor s rs s',
           engine_searchPage w e query limit cursor s = Ret (rs, None) s' ->
           count rs <= Z.of_nat per_page) ->
        count (fst out) <= Z.of_nat (page_cap e) * Z.of_nat per_page).
  { intros s Hready Hne.
    destruct (paged_loop_bounded (engine_page w e query limit) (engine_wrap e)
                (page_cap e) limit (is_page_fetch e) (engine_ready e) Hl
                (fun k s0 => engine_page_runs w e query limit k s0)
                fuel [] 0%nat s)
      as (out & evs & st' & E & Hlog & [Hev Hn] & _ & Hb);
      [destruct e; cbn; try lia; congruence | lia | exact Hready |].
    exists out, evs, st'. repeat split; try assumption.
    - unfold page_fetches. lia.
    - lia.
    - intros per_page Hpp. apply Hb; [|unfold count; simpl; lia].
      intros j s0 rs s' Hj. exact (Hpp _ _ _ _ Hj). }
  destruct e as [| | | |b]; cbn [engine_Search].
  - unfold Bing.Search. change 0 with (page_cursor BingEngine 0).
    destruct (Hloop st I ltac:(discriminate))
      as (out & evs & st' & E & Hlog & [Hev Hn] & Hb).
    exists out, evs, st'. rewrite Bing_loop_paged.
    repeat split; try assumption. lia.
  - destruct (engine_page_runs w DuckDuckGoEngine query limit 0 st I)
      as (out & evs & st' & E & Hlog & [Hev Hn] & _).
    exists out, evs, st'. repeat split; try assumption.
    + unfold page_fetches. cbn [page_cap]. lia.
    + cbn [page_cap]. lia.
    + intros per_page Hpp. destruct out as [rs [err|]].
      * revert E. unfold engine_page, engine_searchPage, DuckDuckGo.Search,
          bind, ret. case_split; intros [= <- _ _]; unfold count; simpl; nia.
      * specialize (Hpp (page_cursor DuckDuckGoEngine 0) st rs st' E).
        simpl. cbn [page_cap]. lia.
  - unfold Baidu.Search, Baidu.warmup, bind. rewrite http_run. unfold ret.
    set (st1 := {| log := log st ++ [EvHttp BaiduHomeGet]; bm := bm st |}).
    destruct (Hloop st1 I ltac:(discriminate))
      as (out & evs & st' & E & Hlog & [Hev Hn] & Hb).
    exists out, (EvHttp BaiduHomeGet :: evs), st'.
    change 0 with (page_cursor BaiduEngine 0).
    destruct (http_do w _ _); rewrite Baidu_loop_paged;
      (split; [exact E|]);
      (split; [rewrite Hlog; unfold st1; cbn [log]; by rewrite <- app_assoc|]);
      (split; [split; [exact Hev | cbn [length]; lia] | exact Hb]).
  - unfold Sogou.Search. change 1 with (page_cursor SogouEngine 0).
    destruct (Hloop st I ltac:(discriminate))
      as (out & evs & st' & E & Hlog & [Hev Hn] & Hb).
    exists out, evs, st'. rewrite Sogou_loop_paged.
    repeat split; try assumption. lia.
  - unfold Browser.Search, bind.
    destruct (Initialize_runs w (Browser.engineProxyURL b)
                (Browser.engineHeadless b) st Hmu)
      as (r & evs0 & st1 & E0 & Hlog0 & Hev0 & Hn0 & Hmu1 & Hinit).
    rewrite E0. destruct r as [err|].
    + exists ([], Some ("failed to initialize browser: " +:+ err)), evs0, st1.
      repeat split; try assumption.
      * unfold page_fetches. rewrite Hev0. lia.
      * lia.
      * intros per_page _. unfold count. simpl. nia.
    + destruct (Hloop st1 (conj Hmu1 (Hinit eq_refl)) ltac:(discriminate))
        as (out & evs & st' & E & Hlog & [Hev Hn] & Hb).
      exists out, (evs0 ++ evs), st'.
      change 0 with (page_cursor (BrowserEngineOf b) 0).
      rewrite Browser_loop_paged by lia.
      repeat split; try assumption.
      * rewrite Hlog, Hlog0. by rewrite app_assoc.
      * unfold page_fetches in *. rewrite List.filter_app, length_app, Hev0.
        lia.
      * rewrite length_app. lia.
Qed.

Lemma C4_paged_search_terminates_witness :
  exists out evs st',
    engine_Search 6 Samples.one_per_page BingEngine "golang" 10 Samples.idle
      = Ret out st' /\
    log st' = log Samples.idle ++ evs /\
    (page_fetches BingEngine evs <= page_cap BingEngine /\
     length evs <= 2 * page_cap BingEngine + 2)%nat /\
    count (fst out) <= Z.of_nat (page_cap BingEngine) * Z.of_nat 1.
Proof.
  destruct (C4_paged_search_terminates 6 Samples.one_per_page BingEngine
              "golang" 10 Samples.idle)
    as (out & evs & st' & E & Hlog & Hev & Hb);
    [reflexivity | apply Nat.le_refl | reflexivity |].
  exists out, evs, st'. repeat split; try assumption; try apply Hev.
  apply Hb. intros cursor s rs s'.
  unfold engine_searchPage, Bing.searchPage, bind. rewrite http_run.
  intros [= <- _]. apply Z.leb_le. reflexivity.
Defined.

(** ** Baidu's fallback *)

Lemma truncate_below (limit : Z) (acc : list SearchResult) (st : State) :
  count acc < limit -> truncate limit acc st = Ret (acc, None) st.
Proof.
  intros H. unfold truncate.
  destruct (Z.gtb_spec (count acc) limit); [lia | reflexivity].
Qed.

(** C5. When Baidu's page fetch sees a verification page, the mobile variant
    is requested once for that page; when that also shows a verification
    page or yields no result, [Search] leaves its loop: it returns what
    earlier pages gave, with no error, when that is not empty, and no
    result with a "baidu rate limited" error otherwise. *)
Theorem C5_baidu_challenge_fallback (fuel : nat) (w : World) (query : string)
    (limit pn : Z) (acc : list SearchResult) (st : State)
    (status : Z) (body : string) :
  count acc < limit ->
  http_do w (length (log st)) (BaiduGet query pn) = HttpResponse status body None ->
  status = 200 ->
  Baidu.is_challenge body = true ->
  fallback_blocked w (http_do w (S (length (log st))) (BaiduMobileGet query pn))
    = true ->
  exists msg,
    Baidu.Search_loop (S fuel) w query limit acc pn st =
    Ret (if count acc >? 0 then (acc, None)
         else ([], Some ("baidu rate limited: " +:+ msg)))
        {| log := log st ++ [EvHttp (BaiduGet query pn);
                             EvHttp (BaiduMobileGet query pn)];
           bm := bm st |}.
Proof.
  intros Hroom Hdesk -> Hch Hmob.
  cbn [Baidu.Search_loop].
  destruct (Z.ltb_spec (count acc) limit) as [_|]; [|lia]. cbn [negb].
  unfold bind at 1. unfold Baidu.searchPage, bind at 1.
  rewrite http_run, Hdesk. cbn [Z.eqb Pos.eqb negb]. rewrite Hch.
  unfold Baidu.searchPageMobile, bind. rewrite http_run. cbn [log bm].
  rewrite length_app, Nat.add_1_r. cbn [length].
  destruct (http_do w (S (length (log st))) (BaiduMobileGet query pn))
    as [msg|mstatus mbody [merr|]]; try discriminate Hmob.
  cbn [fallback_blocked] in Hmob. unfold ret.
  rewrite <- app_assoc. cbn [app].
  destruct (Baidu.is_mobile_challenge mbody).
  - exists "baidu rate limited/captcha required: mobile captcha required".
    destruct (count acc >? 0) eqn:Hacc.
    + change (Contains _ "captcha" || _) with true. cbv iota.
      by rewrite truncate_below.
    + change (Contains _ "captcha" || _) with true. reflexivity.
  - cbn [orb] in Hmob. destruct (html_parse w mbody) as [doc|perr];
      [|discriminate Hmob].
    rewrite Hmob.
    exists "baidu rate limited: captcha required, please try again later or use a proxy".
    destruct (count acc >? 0) eqn:Hacc.
    + change (Contains _ "captcha" || _) with true. cbv iota.
      by rewrite truncate_below.
    + change (Contains _ "captcha" || _) with true. reflexivity.
Qed.

Lemma C5_baidu_challenge_fallback_witness :
  exists msg,
    Baidu.Search_loop 5 Samples.baidu_blocked_world "golang" 3 [] 0 Samples.idle =
    Ret ([], Some ("baidu rate limited: " +:+ msg))
        {| log := [EvHttp (BaiduGet "golang" 0);
                   EvHttp (BaiduMobileGet "golang" 0)];
           bm := BrowserManager.fresh |}.
Proof.
  exact (C5_baidu_challenge_fallback 4 Samples.baidu_blocked_world "golang" 3 0
           [] Samples.idle 200 "<title>百度安全验证</title>"
           eq_refl eq_refl eq_refl eq_refl eq_refl).
Defined.

(** ** Result extraction *)

Ltac head_split :=
  repeat (cbv zeta;
          match goal with
          | |- (if ?c then _ else _) = Some _ -> _ =>
              let E := fresh "E" in destruct c eqn:E; [try discriminate|try discriminate]
          | |- (match ?x with _ => _ end) = Some _ -> _ =>
              let E := fresh "E" in destruct x eqn:E; try discriminate
          | |- (let (_, _) := ?x in _) = Some _ -> _ =>
              let E := fresh "E" in destruct x eqn:E
          end).

(** C6, as stated, fails: Bing's extraction emits a description of 600
    bytes as it is. *)
Lemma C6_description_cap_counterexample :
  exists r,
    r ∈ Bing.parseResults
          (Samples.bing_doc [Samples.bing_item "https://go.dev/" Samples.long_text]) /\
    len (Description r) = 600 /\
    ~ len (Description r) <= 503.
Proof.
  eexists. split; [vm_compute; left|].
  split; [vm_compute; reflexivity|].
  vm_compute. intros H. apply H. reflexivity.
Qed.

Lemma cap_description_cut (description : string) :
  len (cap_description description) <= 503 /\
  (500 < len description ->
   cap_description description = take 500 description +:+ "..." /\
   len (cap_description description) = 503) /\
  (len description <= 500 -> cap_description description = description).
Proof.
  assert (Htake : forall n s, (n <= String.length s)%nat ->
                              String.length (take n s) = n).
  { induction n as [|n IH]; intros [|c s] H; simpl in *; try lia.
    rewrite IH; lia. }
  assert (Happ : forall s t, String.length (s +:+ t)
                             = (String.length s + String.length t)%nat).
  { induction s as [|c s IH]; intros t; simpl; [reflexivity|]. by rewrite IH. }
  unfold cap_description, len.
  destruct (Z.gtb_spec (Z.of_nat (String.length description)) 500) as [Hlong|Hshort].
  - rewrite Happ, Htake by lia. simpl. split; [lia|].
    split; [intros _; split; [reflexivity | lia] | lia].
  - split; [lia|]. split; [lia | reflexivity].
Qed.

(** C6, amended.  The description of a result of Baidu's desktop
    extraction or of Sogou's extraction is the text extracted from the
    result block, cut when it is longer than 500 bytes: then it is the
    first 500 bytes of that text followed by "...", 503 bytes in all;
    a text of at most 500 bytes is emitted as it is.  So no description
    has more than 503 bytes. *)
Theorem C6_description_capped (w : World) (n : Node) (r : SearchResult)
    (extracted : string) :
  (Baidu.parseResultItem w n = Some r /\ extracted = Uncapped.baidu n) \/
  (Sogou.parseResultItem w n = Some r /\ extracted = Uncapped.sogou n) ->
  len (Description r) <= 503 /\
  (500 < len extracted ->
   Description r = take 500 extracted +:+ "..." /\
   len (Description r) = 503) /\
  (len extracted <= 500 -> Description r = extracted) /\
  (500 < len (Description r) ->
   500 < len extracted /\ Description r = take 500 extracted +:+ "...").
Proof.
  assert (Hcap : Description r = cap_description extracted ->
    len (Description r) <= 503 /\
    (500 < len extracted ->
     Description r = take 500 extracted +:+ "..." /\
     len (Description r) = 503) /\
    (len extracted <= 500 -> Description r = extracted) /\
    (500 < len (Description r) ->
     500 < len extracted /\ Description r = take 500 extracted +:+ "...")).
  { intros ->. destruct (cap_description_cut extracted) as (H1 & H2 & H3).
    split; [exact H1|]. split; [exact H2|]. split; [exact H3|].
    intros Hlong. destruct (Z.le_gt_cases (len extracted) 500) as [Hs|Hl].
    - rewrite (H3 Hs) in Hlong. lia.
    - split; [lia|]. by apply H2; lia. }
  intros [[H ->]|[H ->]]; apply Hcap; revert H.
  - unfold Baidu.parseResultItem. head_split.
    intros [= <-]. reflexivity.
  - unfold Sogou.parseResultItem. head_split.
    intros [= <-]. reflexivity.
Qed.

Lemma C6_description_capped_witness :
  let w := Samples.world [] in
  let n := Samples.baidu_item "https://go.dev/" Samples.long_text in
  exists r,
    Baidu.parseResultItem w n = Some r /\
    Uncapped.baidu n = Samples.long_text /\
    Description r = take 500 Samples.long_text +:+ "..." /\
    len (Description r) = 503.
Proof.
  intros w n.
  assert (E : Baidu.parseResultItem w n =
              Some {| Title := "Go"; URL := "https://go.dev/";
                      Description := take 500 Samples.long_text +:+ "...";
                      Source := "go.dev"; Engine := "baidu" |})
    by (vm_compute; reflexivity).
  assert (Ex : Samples.long_text = Uncapped.baidu n)
    by (vm_compute; reflexivity).
  eexists. split; [exact E|]. split; [by symmetry|].
  apply (proj1 (proj2 (C6_description_capped w n _ Samples.long_text
                         (or_introl (conj E Ex))))).
  vm_compute. reflexivity.
Defined.

Lemma http_prefix_nonempty (s : string) :
  HasPrefix s "http" = true -> s <> "".
Proof. intros H ->. discriminate H. Qed.

Ltac link_checked :=
  match goal with
  | H : _ || negb (HasPrefix ?h "http") = false |- _ =>
      apply orb_false_elim in H as [_ H]; apply negb_false_iff in H
  | H : negb (HasPrefix ?h "http") = false |- _ =>
      apply negb_false_iff in H
  end.

Lemma Bing_parseItem_url (n : Node) (r : SearchResult) :
  Bing.parseItem n = Some r -> http_prefixed r.
Proof.
  unfold Bing.parseItem. head_split. intros [= <-]. link_checked.
  split; [by apply http_prefix_nonempty | assumption].
Qed.

Lemma Bing_regex_loop_url (found : list (list string)) :
  forall seen results,
    Forall http_prefixed results ->
    Forall http_prefixed (Bing.regex_loop found seen results).
Proof.
  induction found as [|m rest IH]; intros seen results H; simpl; [exact H|].
  destruct (Z.of_nat (length m) <? 3); [by apply IH|].
  destruct (_ || _ || _ || _); [by apply IH|].
  destruct (negb (HasPrefix (nth 1 m "") "http")) eqn:E; [by apply IH|].
  link_checked.
  assert (H' : Forall http_prefixed
                 (results ++ [{| Title := TrimSpace (nth 2 m "");
                                 URL := nth 1 m ""; Description := "";
                                 Source := ""; Engine := "bing" |}])).
  { apply Forall_app. split; [exact H|]. constructor; [|constructor].
    split; [by apply http_prefix_nonempty | assumption]. }
  destruct (count _ >=? 10); [exact H' | by apply IH].
Qed.

Lemma omap_Forall {A B} (f : A -> option B) (P : B -> Prop) (l : list A) :
  (forall a b, f a = Some b -> P b) -> Forall P (omap f l).
Proof.
  intros H. apply Forall_forall. intros b Hb.
  apply list_elem_of_omap in Hb as (a & _ & Ha). eauto.
Qed.

Lemma Bing_parse_selectors_url (doc : Selection) (selectors : list string) :
  forall results,
    Forall http_prefixed results ->
    Forall http_prefixed (Bing.parse_selectors doc selectors results).
Proof.
  induction selectors as [|sel rest IH]; intros results H; simpl; [exact H|].
  assert (H' : Forall http_prefixed
                 (results ++ omap Bing.parseItem (Find doc sel))).
  { apply Forall_app. split; [exact H|].
    apply omap_Forall. apply Bing_parseItem_url. }
  destruct (count _ >? 0); [exact H' | by apply IH].
Qed.

Lemma DuckDuckGo_parseItem_url (w : World) (n : Node) (r : SearchResult) :
  DuckDuckGo.parseItem w n = Some r -> http_prefixed r.
Proof.
  unfold DuckDuckGo.parseItem. head_split; intros [= <-]; link_checked;
    (split; [by apply http_prefix_nonempty | assumption]).
Qed.

Lemma DuckDuckGo_each_url (w : World) (limit : Z) (items : list Node) :
  forall results,
    Forall http_prefixed results ->
    Forall http_prefixed (DuckDuckGo.each w limit items results).
Proof.
  induction items as [|n rest IH]; intros results H; simpl; [exact H|].
  destruct (count results >=? limit); [by apply IH|].
  destruct (DuckDuckGo.parseItem w n) as [r|] eqn:E; [|by apply IH].
  apply IH, Forall_app. split; [exact H|].
  constructor; [|constructor]. by apply (DuckDuckGo_parseItem_url w n).
Qed.

Lemma Baidu_parseResultItem_url (w : World) (n : Node) (r : SearchResult) :
  Baidu.parseResultItem w n = Some r -> http_prefixed r.
Proof.
  unfold Baidu.parseResultItem. head_split. intros [= <-]. link_checked.
  split; [by apply http_prefix_nonempty | assumption].
Qed.

Lemma Baidu_parseMobileItem_url (w : World) (n : Node) (r : SearchResult) :
  Baidu.parseMobileItem w n = Some r -> http_prefixed r.
Proof.
  unfold Baidu.parseMobileItem. head_split. intros [= <-]. link_checked.
  split; [by apply http_prefix_nonempty | assumption].
Qed.

(** C8, as stated, fails: Bing's extraction emits a link whose scheme is
    neither http nor https. *)
Lemma C8_url_scheme_counterexample :
  exists r,
    r ∈ Bing.parseResults
          (Samples.bing_doc [Samples.bing_item "httpx://go.dev/" "Go"]) /\
    URL r = "httpx://go.dev/" /\
    getScheme (URL r) = Some "httpx" /\
    has_http_scheme (URL r) = false.
Proof.
  eexists. split; [vm_compute; left|]. repeat split.
Qed.

(** Sogou's extraction has no link test after it completes relative links:
    a link that is neither absolute nor completed is emitted as it is. *)
Example Sogou_emits_unchecked_link :
  Sogou.parseResultItem (Samples.world []) (Samples.sogou_item "javascript:void(0)")
  = Some {| Title := "Go"; URL := "javascript:void(0)"; Description := "";
            Source := "go.dev"; Engine := "sogou" |}.
Proof. vm_compute. reflexivity. Qed.

(** C8, amended.  Every result that the extraction of Bing (by selectors or
    by pattern), DuckDuckGo or Baidu (desktop or mobile) emits has a
    non-empty url that starts with the bytes "http"; a result whose link is
    missing, empty, or relative and not completed is not emitted. *)
Theorem C8_emitted_url_http_prefixed (w : World) (doc : Selection)
    (html : string) (limit : Z) (r : SearchResult) :
  r ∈ Bing.parseResults doc
  \/ r ∈ Bing.extractResultsWithRegex w html
  \/ r ∈ DuckDuckGo.parseResults w doc limit
  \/ r ∈ Baidu.parseResults w doc
  \/ r ∈ Baidu.parseMobileResults w doc ->
  URL r <> "" /\ HasPrefix (URL r) "http" = true.
Proof.
  intros H. change (http_prefixed r).
  assert (Hin : forall l, Forall http_prefixed l -> r ∈ l -> http_prefixed r).
  { intros l Hl Hr. by apply (proj1 (Forall_forall _ _) Hl). }
  destruct H as [H|[H|[H|[H|H]]]]; revert H; apply Hin.
  - by apply Bing_parse_selectors_url.
  - by apply Bing_regex_loop_url.
  - by apply DuckDuckGo_each_url.
  - apply omap_Forall, Baidu_parseResultItem_url.
  - apply omap_Forall, Baidu_parseMobileItem_url.
Qed.

Lemma C8_emitted_url_http_prefixed_witness :
  let doc := Samples.bing_doc [Samples.bing_item "https://go.dev/" "Go"] in
  let r := {| Title := "Go"; URL := "https://go.dev/"; Description := "Go";
              Source := ""; Engine := "bing" |} in
  r ∈ Bing.parseResults doc /\
  URL r <> "" /\ HasPrefix (URL r) "http" = true.
Proof.
  intros doc r.
  assert (H : r ∈ Bing.parseResults doc) by (vm_compute; left).
  split; [exact H|].
  exact (C8_emitted_url_http_prefixed (Samples.world []) doc "" 10 r (or_introl H)).
Defined.

(** ** The browser manager *)

(** C10.  [NewTabContext] on a manager that is not initialized never comes
    back: it takes the manager's mutex and then calls [Initialize], which
    waits for the same mutex. *)
Theorem C10_NewTabContext_blocks_uninitialized (w : World) (timeout : Z)
    (events : list Event) (proxy : string) (hl ctx : bool) :
  BrowserManager.NewTabContext w timeout
    {| log := events; bm := mkBM false false proxy hl ctx |}
  = Stop Blocked {| log := events; bm := mkBM true false proxy hl ctx |}.
Proof. reflexivity. Qed.

Section Callers.

Import BrowserManager.

Variable w : World.

Lemma Initialize_locked_total (proxy : string) (hl : bool) (st : State) :
  exists r st', Initialize_locked w proxy hl st = Ret r st'.
Proof.
  unfold Initialize_locked, findChromePath, bind, get_bm, set_bm, emit, ret.
  destruct (initialized (bm st)); [by eexists _, _|]. cbn.
  destruct (String.eqb _ ""); [by eexists _, _|].
  destruct (chrome_start w _); by eexists _, _.
Qed.

Lemma Initialize_locked_ready (proxy : string) (hl : bool) (st : State) :
  initialized (bm st) = true ->
  Initialize_locked w proxy hl st = Ret None st.
Proof.
  intros H. unfold Initialize_locked, bind, get_bm, ret. by rewrite H.
Qed.

(** On a machine where the browser starts, the body of [Initialize] run
    on an uninitialized manager performs one initialization sequence and
    succeeds. *)
Lemma Initialize_locked_launches (proxy : string) (hl : bool) (st : State) r st' :
  launches w ->
  initialized (bm st) = false ->
  Initialize_locked w proxy hl st = Ret r st' ->
  r = None /\ initialized (bm st') = true /\ mu (bm st') = mu (bm st) /\
  init_sequences st' = S (init_sequences st).
Proof.
  intros Hw Hinit.
  unfold Initialize_locked, findChromePath, bind, get_bm, set_bm, emit, ret.
  rewrite Hinit. cbn.
  destruct (Hw (length (log st))) as [Hpath _].
  destruct (String.eqb_spec (chrome_path w (length (log st))) "");
    [contradiction|].
  cbn. destruct (Hw (length (log st ++ [EvStat]))) as [_ ->].
  intros [= <- <-]. cbn. repeat split.
  unfold init_sequences. cbn. rewrite !List.filter_app, !length_app. cbn. lia.
Qed.

Lemma count_insert (f : Caller -> bool) (cs : list Caller) (i : nat)
    (c c' : Caller) :
  cs !! i = Some c ->
  (length (List.filter f (<[i := c']> cs)) + (if f c then 1 else 0)
   = length (List.filter f cs) + (if f c' then 1 else 0))%nat.
Proof.
  revert i. induction cs as [|x cs IH]; intros [|i] H; try discriminate.
  - injection H as ->. cbn. destruct (f c), (f c'); cbn; lia.
  - cbn in H. specialize (IH i H).
    change (<[S i := c']> (x :: cs)) with (x :: <[i := c']> cs).
    cbn [List.filter]. destruct (f x); cbn [length]; lia.
Qed.

Lemma progress_insert (cs : list Caller) (i : nat) (c c' : Caller) :
  cs !! i = Some c ->
  (progress (<[i := c']> cs) + stage c = progress cs + stage c')%nat.
Proof.
  revert i. induction cs as [|x cs IH]; intros [|i] H; try discriminate.
  - injection H as ->. cbn. lia.
  - cbn in H. specialize (IH i H).
    change (<[S i := c']> (x :: cs)) with (x :: <[i := c']> cs).
    unfold progress in *. cbn [fold_right]. lia.
Qed.

Lemma progress_le (cs : list Caller) : (progress cs <= 2 * length cs)%nat.
Proof.
  induction cs as [|c cs IH]; cbn; [lia|].
  unfold progress in IH. destruct c; cbn; lia.
Qed.

Lemma step_exclusive (p q : Pool) :
  step w p q -> exclusive p -> exclusive q.
Proof.
  unfold exclusive, holding.
  intros [i cs st proxy hl Hi Hmu | i cs st proxy hl r st' Hi Hrun]; cbn.
  - rewrite Hmu. intros H.
    pose proof (count_insert is_holding cs i _ (Holding proxy hl) Hi) as C.
    cbn in C. lia.
  - intros H.
    pose proof (count_insert is_holding cs i _ (Finished r) Hi) as C.
    cbn in C. destruct (mu (bm st)); lia.
Qed.

Lemma step_progress (p q : Pool) :
  step w p q ->
  progress (callers q) = S (progress (callers p)) /\
  length (callers q) = length (callers p).
Proof.
  intros [i cs st proxy hl Hi Hmu | i cs st proxy hl r st' Hi Hrun];
    cbn [callers]; rewrite length_insert; (split; [|reflexivity]).
  - pose proof (progress_insert cs i _ (Holding proxy hl) Hi) as C.
    cbn [stage] in C. lia.
  - pose proof (progress_insert cs i _ (Finished r) Hi) as C.
    cbn [stage] in C. lia.
Qed.

Lemma start_progress (args : list (string * bool)) :
  progress (callers (start args)) = 0%nat.
Proof. induction args as [|a args IH]; cbn; [reflexivity | exact IH]. Qed.

Lemma start_holding (args : list (string * bool)) :
  holding (callers (start args)) = 0%nat.
Proof.
  unfold holding. induction args as [|a args IH]; cbn; [reflexivity | exact IH].
Qed.

Lemma steps_exclusive (args : list (string * bool)) (n : nat) (p : Pool) :
  steps w n (start args) p ->
  exclusive p /\ progress (callers p) = n /\
  length (callers p) = length args.
Proof.
  remember (start args) as p0 eqn:E. intros H.
  induction H as [p|n p q r Hpq IH Hqr]; subst.
  - unfold exclusive. rewrite start_holding, start_progress. cbn.
    by rewrite length_map.
  - destruct (IH eq_refl) as (Hex & Hpr & Hlen).
    destruct (step_progress q r Hqr) as [Hpr' Hlen'].
    split; [by apply (step_exclusive q r)|]. split; congruence.
Qed.

(** A pool in which somebody has not finished can take a step. *)
Lemma exclusive_can_step (p : Pool) :
  exclusive p -> all_finished p = false -> exists q, step w p q.
Proof.
  destruct p as [cs st]. unfold exclusive, all_finished, holding. cbn.
  intros Hex Hnot.
  destruct (List.filter is_holding cs) as [|c rest] eqn:F.
  - assert (Hmu : mu (bm st) = false)
      by (destruct (mu (bm st)); [discriminate | reflexivity]).
    assert (Hc : exists c, c ∈ cs /\ is_finished c = false).
    { clear -Hnot. induction cs as [|c cs IH]; [discriminate|].
      cbn in Hnot. destruct (is_finished c) eqn:Ec.
      - destruct (IH Hnot) as (c' & Hin & Hc'). exists c'. split; [by right|done].
      - exists c. split; [by left|done]. }
    destruct Hc as (c & Hin & Hc).
    assert (Hnh : is_holding c = false).
    { destruct (is_holding c) eqn:Eh; [|reflexivity].
      assert (Hf : In c (List.filter is_holding cs))
        by (apply filter_In; split; [by apply list_elem_of_In|exact Eh]).
      rewrite F in Hf. destruct Hf. }
    destruct c as [proxy hl|proxy hl|r]; try discriminate.
    apply list_elem_of_lookup in Hin as [i Hi].
    eexists. by apply (step_lock w i cs st proxy hl).
  - assert (Hin : In c (List.filter is_holding cs)) by (rewrite F; by left).
    apply filter_In in Hin as [Hin Hh].
    destruct c as [proxy hl|proxy hl|r]; try discriminate.
    apply list_elem_of_In, list_elem_of_lookup in Hin as [i Hi].
    destruct (Initialize_locked_total proxy hl st) as (r & st' & E).
    eexists. by apply (step_body w i cs st proxy hl r st').
Qed.

End Callers.

Section CallersOnce.

Import BrowserManager.

Variable w : World.
Hypothesis Hw : launches w.

Lemma elem_of_insert_inv (cs : list Caller) (i : nat) (c x : Caller) :
  x ∈ <[i := c]> cs -> x = c \/ x ∈ cs.
Proof.
  revert i. induction cs as [|y cs IH]; intros i H.
  - right. exact H.
  - destruct i as [|i].
    + change (<[0%nat := c]> (y :: cs)) with (c :: cs) in H.
      apply elem_of_cons in H as [->|H]; [by left | right; by right].
    + change (<[S i := c]> (y :: cs)) with (y :: <[i := c]> cs) in H.
      apply elem_of_cons in H as [->|H]; [right; by left|].
      destruct (IH i H) as [->|H']; [by left | right; by right].
Qed.

Lemma step_once (p q : Pool) : step w p q -> once p -> once q.
Proof.
  unfold once.
  intros [i cs st proxy hl Hi Hmu | i cs st proxy hl r st' Hi Hrun];
    cbn [callers shared]; intros [Hseq Hfin].
  - split; [exact Hseq|]. intros r Hr.
    apply elem_of_insert_inv in Hr as [Hr|Hr]; [discriminate | by apply Hfin].
  - destruct (initialized (bm st)) eqn:Hinit.
    + rewrite (Initialize_locked_ready w proxy hl st Hinit) in Hrun.
      injection Hrun as <- <-.
      split; [cbn; by rewrite Hinit|].
      intros r Hr.
      apply elem_of_insert_inv in Hr as [[= ->]|Hr];
        [split; [reflexivity | cbn; exact Hinit]|].
      destruct (Hfin r Hr) as [-> _]. split; [reflexivity | cbn; exact Hinit].
    + destruct (Initialize_locked_launches w proxy hl st r st' Hw Hinit Hrun)
        as (-> & Hinit' & _ & Hseq').
      assert (Hs : init_sequences (with_mu false st') = 1%nat)
        by (change (init_sequences (with_mu false st'))
              with (init_sequences st'); lia).
      split; [cbn [bm with_mu initialized]; by rewrite Hinit'|].
      intros r Hr.
      apply elem_of_insert_inv in Hr as [[= ->]|Hr];
        [split; [reflexivity | cbn; exact Hinit']|].
      destruct (Hfin r Hr) as [_ Habs]. congruence.
Qed.

Lemma steps_once (args : list (string * bool)) (n : nat) (p : Pool) :
  steps w n (start args) p -> once p.
Proof.
  remember (start args) as p0 eqn:E. intros H.
  induction H as [p|n p q r Hpq IH Hqr]; subst.
  - split; [reflexivity|]. intros r Hr. cbn in Hr.
    apply list_elem_of_fmap in Hr as (a & Ha & _). discriminate Ha.
  - by apply (step_once q r), IH.
Qed.

End CallersOnce.

Lemma Initialize_ready_noop (w : World) (proxy : string) (hl : bool)
    (st : State) :
  initialized (bm st) = true -> mu (bm st) = false ->
  BrowserManager.Initialize w proxy hl st = Ret None st.
Proof.
  destruct st as [lg [m i p h c]]. cbn. intros -> ->. reflexivity.
Qed.

Lemma Initialize_failure_uninitialized (w : World) (proxy : string)
    (hl : bool) (st : State) (err : error) (st' : State) :
  BrowserManager.Initialize w proxy hl st = Ret (Some err) st' ->
  initialized (bm st') = false.
Proof.
  destruct st as [lg [m i p h c]].
  unfold BrowserManager.Initialize, BrowserManager.Initialize_locked,
    BrowserManager.Lock, BrowserManager.Unlock, BrowserManager.findChromePath,
    bind, get_bm, set_bm, emit, ret, stop. cbn.
  destruct m; cbn; [discriminate|]. destruct i; cbn; [discriminate|].
  destruct (String.eqb (chrome_path w (length lg)) ""); cbn;
    [by intros [= _ <-]|].
  destruct (chrome_start w (length (lg ++ [EvStat]))); cbn;
    [by intros [= _ <-] | discriminate].
Qed.

Lemma steps_cons (w : World) (n : nat) (p q r : BrowserManager.Pool) :
  BrowserManager.step w p q -> BrowserManager.steps w n q r ->
  BrowserManager.steps w (S n) p r.
Proof.
  intros Hpq H. induction H as [q|n q r s Hqr IH Hrs].
  - apply (BrowserManager.steps_more w 0 p p q);
      [apply BrowserManager.steps_refl | exact Hpq].
  - apply (BrowserManager.steps_more w (S n) p r s); [by apply IH | exact Hrs].
Qed.

Lemma two_callers_without_browser :
  BrowserManager.steps Samples.no_chrome 4
    (BrowserManager.start Samples.two_callers) Samples.two_failed.
Proof.
  eapply steps_cons;
    [eapply (BrowserManager.step_lock _ 0%nat); reflexivity|].
  eapply steps_cons;
    [eapply (BrowserManager.step_body _ 0%nat); reflexivity|].
  eapply steps_cons;
    [eapply (BrowserManager.step_lock _ 1%nat); reflexivity|].
  eapply steps_cons;
    [eapply (BrowserManager.step_body _ 1%nat); reflexivity|].
  apply BrowserManager.steps_refl.
Qed.

Lemma two_callers_with_browser :
  BrowserManager.steps (Samples.world []) 4
    (BrowserManager.start Samples.two_callers) Samples.two_succeeded.
Proof.
  eapply steps_cons;
    [eapply (BrowserManager.step_lock _ 0%nat); reflexivity|].
  eapply steps_cons;
    [eapply (BrowserManager.step_body _ 0%nat); reflexivity|].
  eapply steps_cons;
    [eapply (BrowserManager.step_lock _ 1%nat); reflexivity|].
  eapply steps_cons;
    [eapply (BrowserManager.step_body _ 1%nat); reflexivity|].
  apply BrowserManager.steps_refl.
Qed.

(** C9, as stated, fails: on a machine without a browser two callers of
    [Initialize] each run the initialization sequence, and each comes back
    with the "not found" error. *)
Lemma C9_initialize_once_counterexample :
  BrowserManager.steps Samples.no_chrome 4
    (BrowserManager.start Samples.two_callers) Samples.two_failed /\
  BrowserManager.all_finished Samples.two_failed = true /\
  BrowserManager.init_sequences (BrowserManager.shared Samples.two_failed)
    = 2%nat /\
  BrowserManager.init_sequences (BrowserManager.shared Samples.two_failed)
    <> 1%nat.
Proof.
  split; [exact two_callers_without_browser|]. repeat split. discriminate.
Qed.

(** C9, amended.  Calls of [Initialize] from many goroutines exclude each
    other: at most one is between [Lock] and [Unlock]; every run ends, after
    two steps per caller, and can go on until all callers are back.  On a
    machine where the browser starts, at most one initialization sequence
    runs, and when all callers are back exactly one has run, the manager is
    initialized and every caller has got success.  Once the manager is
    initialized, [Initialize] changes nothing and returns success; a call
    that returns an error leaves the manager uninitialized. *)
Theorem C9_initialize_exclusive (w : World) (args : list (string * bool))
    (n : nat) (p : BrowserManager.Pool) :
  BrowserManager.steps w n (BrowserManager.start args) p ->
  (BrowserManager.holding (BrowserManager.callers p) <= 1)%nat /\
  (n <= 2 * length args)%nat /\
  (BrowserManager.all_finished p = false ->
   exists q, BrowserManager.step w p q) /\
  (BrowserManager.launches w ->
   (BrowserManager.init_sequences (BrowserManager.shared p) <= 1)%nat /\
   (BrowserManager.all_finished p = true -> args <> [] ->
    BrowserManager.init_sequences (BrowserManager.shared p) = 1%nat /\
    initialized (bm (BrowserManager.shared p)) = true /\
    forall c, c ∈ BrowserManager.callers p ->
              c = BrowserManager.Finished None)) /\
  (forall st proxy hl,
     initialized (bm st) = true -> mu (bm st) = false ->
     BrowserManager.Initialize w proxy hl st = Ret None st) /\
  (forall st proxy hl err st',
     BrowserManager.Initialize w proxy hl st = Ret (Some err) st' ->
     initialized (bm st') = false).
Proof.
  intros H.
  destruct (steps_exclusive w args n p H) as (Hex & Hpr & Hlen).
  split; [|split; [|split; [|split; [|split]]]].
  - unfold BrowserManager.exclusive in Hex. rewrite Hex.
    destruct (mu _); lia.
  - pose proof (progress_le (BrowserManager.callers p)). lia.
  - by apply exclusive_can_step.
  - intros Hw. destruct (steps_once w Hw args n p H) as [Hseq Hfin].
    split; [rewrite Hseq; destruct (initialized _); lia|].
    intros Hall Hargs.
    assert (Hback : forall c, c ∈ BrowserManager.callers p ->
                              c = BrowserManager.Finished None
                              /\ initialized (bm (BrowserManager.shared p)) = true).
    { intros c Hc. unfold BrowserManager.all_finished in Hall.
      assert (Hf : BrowserManager.is_finished c = true).
      { apply (proj1 (forallb_forall _ _) Hall). by apply list_elem_of_In. }
      destruct c as [? ?|? ?|r]; try discriminate.
      destruct (Hfin r Hc) as [-> Hi]. by split. }
    destruct (BrowserManager.callers p) as [|c cs] eqn:Ecs.
    { destruct args; [contradiction | discriminate Hlen]. }
    destruct (Hback c ltac:(by left)) as [_ Hinit].
    split; [by rewrite Hseq, Hinit|]. split; [exact Hinit|].
    intros c' Hc'. by apply Hback.
  - intros st proxy hl. apply Initialize_ready_noop.
  - intros st proxy hl err st'. apply Initialize_failure_uninitialized.
Qed.

Lemma C9_initialize_exclusive_witness :
  BrowserManager.all_finished Samples.two_succeeded = true /\
  BrowserManager.init_sequences (BrowserManager.shared Samples.two_succeeded)
    = 1%nat /\
  initialized (bm (BrowserManager.shared Samples.two_succeeded)) = true /\
  forall c, c ∈ BrowserManager.callers Samples.two_succeeded ->
            c = BrowserManager.Finished None.
Proof.
  split; [reflexivity|].
  apply (C9_initialize_exclusive (Samples.world []) Samples.two_callers 4
           Samples.two_succeeded two_callers_with_browser).
  - intros i. split; [discriminate | reflexivity].
  - reflexivity.
  - discriminate.
Defined.


(** * Further properties *)

(** ** The configuration file *)

Lemma valid_engine_elem (e : string) :
  config.isValidEngine e = true <-> e ∈ config.ValidEngines.
Proof. apply contains_elem_of. Qed.

Lemma valid_engine_trimmed (e : string) :
  config.isValidEngine e = true -> TrimSpace e = e.
Proof.
  intros H. apply valid_engine_elem in H. unfold config.ValidEngines in H.
  repeat (apply elem_of_cons in H as [->|H]; [reflexivity|]).
  inversion H.
Qed.

Lemma validAllowed_valid (names : list string) :
  Forall (fun e => config.isValidEngine e = true) (configfile.validAllowed names).
Proof.
  induction names as [|e rest IH]; simpl; [constructor|].
  destruct (config.isValidEngine (TrimSpace e)) eqn:E; [|exact IH].
  by constructor.
Qed.

Lemma validAllowed_fixed (names : list string) :
  Forall (fun e => config.isValidEngine e = true) names ->
  configfile.validAllowed names = names.
Proof.
  induction 1 as [|e rest He _ IH]; simpl; [reflexivity|].
  rewrite (valid_engine_trimmed e He), He, IH. reflexivity.
Qed.

Lemma or_default_nonempty (s d : string) :
  d <> "" -> configfile.or_default s d <> "".
Proof.
  intros Hd. unfold configfile.or_default.
  destruct (String.eqb_spec s ""); assumption.
Qed.

Lemma or_default_fixed (s d : string) :
  s <> "" -> configfile.or_default s d = s.
Proof.
  intros Hs. unfold configfile.or_default.
  destruct (String.eqb_spec s ""); [contradiction | reflexivity].
Qed.

Lemma validate_valid (c : configfile.FileConfig) :
  configfile.valid (configfile.validate c).
Proof.
  unfold configfile.valid, configfile.validate.
  cbn -[configfile.validAllowed config.isValidEngine contains].
  set (allowed := configfile.validAllowed _).
  set (d1 := if negb (config.isValidEngine
                        (config.DefaultEngine (configfile.Search c)))
             then "duckduckgo"
             else config.DefaultEngine (configfile.Search c)).
  assert (Hd1 : config.isValidEngine d1 = true).
  { unfold d1. destruct (config.isValidEngine _) eqn:E; [exact E | reflexivity]. }
  assert (Hall : Forall (fun e => config.isValidEngine e = true) allowed)
    by apply validAllowed_valid.
  clearbody allowed d1.
  repeat split.
  - destruct (_ || _) eqn:E; [lia|].
    apply orb_false_elim in E as [E _]. lia.
  - destruct (_ || _) eqn:E; [lia|].
    apply orb_false_elim in E as [_ E]. lia.
  - by apply or_default_nonempty.
  - by apply or_default_nonempty.
  - destruct allowed as [|a l]; [exact Hd1|].
    change (Z.of_nat (length (a :: l)) >? 0) with true. cbn [andb].
    destruct (contains (a :: l) d1); cbn [negb nth]; [exact Hd1|].
    by inversion Hall.
  - exact Hall.
  - unfold config.IsEngineAllowed. cbn [config.AllowedEngines config.DefaultEngine].
    destruct allowed as [|a l]; [exact Hd1|].
    change (Nat.eqb (length (a :: l)) 0) with false.
    change (Z.of_nat (length (a :: l)) >? 0) with true. cbv iota. cbn [andb].
    destruct (contains (a :: l) d1) eqn:E; cbn [negb nth]; [exact E|].
    cbn [contains]. by rewrite String.eqb_refl.
  - intros Hen. rewrite Hen. cbn [andb].
    destruct (String.eqb_spec (configfile.ProxyURL (configfile.Proxy c)) "");
      [discriminate | assumption].
  - by apply or_default_nonempty.
  - by apply or_default_nonempty.
  - by apply or_default_nonempty.
  - by apply or_default_nonempty.
Qed.

(** X1. Whatever configuration [validate] is given, the one it leaves is
    valid: the port is between 1 and 65535, host, CORS origin and MCP names
    are not empty, the default engine and every allowed engine are among
    the valid engine names, the default engine passes [IsEngineAllowed], and
    an enabled proxy has a URL. *)
Theorem X1_validate_valid (c : configfile.FileConfig) :
  configfile.valid (configfile.validate c).
Proof. apply validate_valid. Qed.

(** X2. [validate] repairs once and for all: validating a validated
    configuration changes nothing. *)
Theorem X2_validate_idempotent (c : configfile.FileConfig) :
  configfile.validate (configfile.validate c) = configfile.validate c.
Proof.
  destruct (validate_valid c)
    as ([Hp1 Hp2] & Hh & Ho & Hd & Ha & Hal & Hpx & Hn & Hv & Hs & Hsd).
  set (v := configfile.validate c) in *. clearbody v.
  unfold configfile.validate at 1.
  assert (Eport : (configfile.Port (configfile.Server v) <=? 0)
                  || (configfile.Port (configfile.Server v) >? 65535) = false).
  { apply orb_false_intro; [apply Z.leb_gt; lia|].
    destruct (Z.gtb_spec (configfile.Port (configfile.Server v)) 65535);
      [lia | reflexivity]. }
  rewrite Eport, Hd, (validAllowed_fixed _ Ha), !or_default_fixed by assumption.
  cbn [negb].
  assert (Edef : (Z.of_nat (length (config.AllowedEngines (configfile.Search v))) >? 0)
                 && negb (contains (config.AllowedEngines (configfile.Search v))
                            (config.DefaultEngine (configfile.Search v))) = false).
  { unfold config.IsEngineAllowed in Hal.
    destruct (config.AllowedEngines (configfile.Search v)) as [|a l];
      [reflexivity|].
    change (Nat.eqb (length (a :: l)) 0) with false in Hal. cbv iota in Hal.
    rewrite Hal. apply andb_false_r. }
  rewrite Edef.
  assert (Eproxy : configfile.ProxyEnabled (configfile.Proxy v)
                   && String.eqb (configfile.ProxyURL (configfile.Proxy v)) ""
                   = false).
  { destruct (configfile.ProxyEnabled (configfile.Proxy v)); [|reflexivity].
    cbn [andb]. apply String.eqb_neq. by apply Hpx. }
  rewrite Eproxy.
  destruct v as [[port host [cen origin]] [de al] [pen purl] [sn sv [tn td]] br].
  reflexivity.
Qed.

Lemma first_existing_stat (fs : configfile.Files) (paths : list string) :
  configfile.first_existing fs paths <> "" ->
  configfile.stat fs (configfile.first_existing fs paths) = true.
Proof.
  induction paths as [|p rest IH]; simpl; [congruence|].
  destruct (configfile.stat fs p) eqn:E; [intros _; exact E | exact IH].
Qed.

(** X3. What [Load] returns is always valid, and it is: [DefaultConfig]
    (which validation leaves as it is) when no configuration file is
    found or the file found cannot be read; otherwise the validation of
    what the YAML decoder made of the file's bytes, starting from the
    defaults, also when the decoder reports an error.  The file found is
    the one [CONFIG_FILE] names when that exists, and in every case a
    file that exists.  [LoadFromFile] fails exactly when the file cannot
    be read or the decoder reports an error, and otherwise returns the
    validation of the decoded configuration, which is valid. *)
Theorem X3_Load_valid (fs : configfile.Files) :
  configfile.valid (configfile.Load fs) /\
  (configfile.findConfigFile fs = "" ->
   configfile.Load fs = configfile.DefaultConfig) /\
  (forall err,
     configfile.readFile fs (configfile.findConfigFile fs) = inr err ->
     configfile.Load fs = configfile.DefaultConfig) /\
  (forall data,
     configfile.findConfigFile fs <> "" ->
     configfile.readFile fs (configfile.findConfigFile fs) = inl data ->
     configfile.Load fs
       = configfile.validate
           (fst (configfile.unmarshal fs data configfile.DefaultConfig))) /\
  (configfile.CONFIG_FILE fs <> "" ->
   configfile.stat fs (configfile.CONFIG_FILE fs) = true ->
   configfile.findConfigFile fs = configfile.CONFIG_FILE fs) /\
  (configfile.findConfigFile fs <> "" ->
   configfile.stat fs (configfile.findConfigFile fs) = true) /\
  (forall path c,
     configfile.LoadFromFile fs path = inl c <->
     exists data cfg,
       configfile.readFile fs path = inl data /\
       configfile.unmarshal fs data configfile.DefaultConfig = (cfg, None) /\
       c = configfile.validate cfg) /\
  (forall path c,
     configfile.LoadFromFile fs path = inl c -> configfile.valid c).
Proof.
  assert (Hfile : forall path c,
     configfile.LoadFromFile fs path = inl c <->
     exists data cfg,
       configfile.readFile fs path = inl data /\
       configfile.unmarshal fs data configfile.DefaultConfig = (cfg, None) /\
       c = configfile.validate cfg).
  { intros path c. unfold configfile.LoadFromFile.
    destruct (configfile.readFile fs path) as [data|err].
    - destruct (configfile.unmarshal fs data _) as [cfg [err|]] eqn:E.
      + split; [discriminate|]. intros (d & cfg' & [= <-] & Hu & _).
        rewrite E in Hu. discriminate.
      + split.
        * intros [= <-]. by exists data, cfg.
        * intros (d & cfg' & [= <-] & Hu & ->). rewrite E in Hu.
          by injection Hu as <-.
    - split; [discriminate|]. by intros (d & cfg' & Hr & _). }
  split; [|split; [|split; [|split; [|split; [|split; [|split]]]]]].
  - unfold configfile.Load.
    destruct (String.eqb _ ""); [apply validate_valid|].
    destruct (configfile.readFile fs _); apply validate_valid.
  - intros E. unfold configfile.Load. rewrite E. reflexivity.
  - intros err E. unfold configfile.Load. rewrite E.
    by destruct (String.eqb _ "").
  - intros data Hne E. unfold configfile.Load. rewrite E.
    apply String.eqb_neq in Hne. by rewrite Hne.
  - intros Hne Hstat. unfold configfile.findConfigFile.
    apply String.eqb_neq in Hne. by rewrite Hne, Hstat.
  - unfold configfile.findConfigFile.
    destruct (negb _ && configfile.stat fs (configfile.CONFIG_FILE fs)) eqn:E.
    + intros _. by apply andb_true_iff in E as [_ E].
    + apply first_existing_stat.
  - exact Hfile.
  - intros path c H. apply Hfile in H as (data & cfg & _ & _ & ->).
    apply validate_valid.
Qed.

(** ** The registry *)

Lemma registry_lookup (run : EngineImpl -> string -> Z -> Results)
    (c : configfile.FileConfig) (name : string) :
  Manager.GetEngine (ManagerInit.NewManager run c) name =
  match List.find (fun impl => String.eqb (engine_Name impl) name)
          (rev ([BingEngine; DuckDuckGoEngine; BaiduEngine; SogouEngine]
                ++ if configfile.BrowserEnabled (configfile.Browser c)
                   then
                     let proxyURL :=
                       if configfile.ProxyEnabled (configfile.Proxy c)
                       then configfile.ProxyURL (configfile.Proxy c) else "" in
                     let headless :=
                       configfile.BrowserHeadless (configfile.Browser c) in
                     [ManagerInit.browser_engine Browser.bing_variant proxyURL headless;
                      ManagerInit.browser_engine Browser.google_variant proxyURL headless;
                      ManagerInit.browser_engine Browser.baidu_variant proxyURL headless]
                   else [])) with
  | Some impl => Some (ManagerInit.as_engine run impl)
  | None => None
  end.
Proof.
  unfold ManagerInit.NewManager, ManagerInit.initEngines, Manager.GetEngine,
    Manager.RegisterEngine.
  destruct (configfile.BrowserEnabled (configfile.Browser c));
    cbn [Manager.engines Name ManagerInit.as_engine engine_Name
         ManagerInit.browser_engine Browser.name Browser.variant
         rev app List.find];
    rewrite ?lookup_insert;
    repeat (case_decide as Hd;
            [subst name; reflexivity
            |apply String.eqb_neq in Hd; rewrite Hd; clear Hd]);
    rewrite ?lookup_empty; reflexivity.
Qed.

Ltac split_names name :=
  repeat match goal with
         | |- context [String.eqb ?a name] =>
             destruct (String.eqb_spec a name) as [<-|?]
         end.

(** X4. The registry [NewManager] builds holds every engine under the
    engine's own name; the registered names are bing, duckduckgo, baidu and
    sogou, and the three browser engines exactly when the configuration
    enables them, which is also what [GetEngineNames] lists; the name
    google, which the configuration accepts as valid, is never
    registered. *)
Theorem X4_registry_names (run : EngineImpl -> string -> Z -> Results)
    (c : configfile.FileConfig) (name : string) :
  (forall eng, Manager.GetEngine (ManagerInit.NewManager run c) name = Some eng ->
               Name eng = name) /\
  (is_Some (Manager.GetEngine (ManagerInit.NewManager run c) name) <->
   name ∈ ManagerInit.registered_names c) /\
  (forall names, ManagerInit.GetEngineNames (ManagerInit.NewManager run c) names ->
                 names ≡ₚ ManagerInit.registered_names c) /\
  config.isValidEngine "google" = true /\
  Manager.GetEngine (ManagerInit.NewManager run c) "google" = None.
Proof.
  split; [|split; [|split; [|split]]].
  - intros eng. rewrite registry_lookup.
    destruct (configfile.BrowserEnabled (configfile.Browser c));
      cbn [rev app List.find engine_Name ManagerInit.browser_engine
           Browser.name Browser.variant];
      split_names name; try discriminate; by intros [= <-].
  - rewrite registry_lookup. unfold ManagerInit.registered_names.
    destruct (configfile.BrowserEnabled (configfile.Browser c));
      cbn [rev app List.find engine_Name ManagerInit.browser_engine
           Browser.name Browser.variant];
      split_names name;
      try (split; [intros _; apply list_elem_of_In; simpl; tauto
                  | intros _; by eexists]).
    + split; [by intros [? ?]|]. intros H.
      repeat (apply elem_of_cons in H as [->|H]; [contradiction|]).
      inversion H.
    + split; [by intros [? ?]|]. intros H.
      repeat (apply elem_of_cons in H as [->|H]; [contradiction|]).
      inversion H.
  - intros names. unfold ManagerInit.GetEngineNames, ManagerInit.NewManager,
      ManagerInit.initEngines, Manager.RegisterEngine,
      ManagerInit.registered_names.
    intros ->.
    destruct (configfile.BrowserEnabled (configfile.Browser c));
      cbn [Manager.engines Name ManagerInit.as_engine engine_Name
           ManagerInit.browser_engine Browser.name Browser.variant app];
      repeat (rewrite map_to_list_insert
                by (rewrite ?lookup_insert_ne by done; apply lookup_empty));
      rewrite map_to_list_empty; cbn [fmap list_fmap fst].
    + symmetry; apply (Permutation_rev
               ["bing"; "duckduckgo"; "baidu"; "sogou"; "browser_bing";
                "browser_google"; "browser_baidu"]).
    + symmetry; apply (Permutation_rev ["bing"; "duckduckgo"; "baidu"; "sogou"]).
  - reflexivity.
  - rewrite registry_lookup.
    destruct (configfile.BrowserEnabled (configfile.Browser c)); reflexivity.
Qed.
(** ** Requests against the registry [NewManager] builds *)

Lemma NewManager_cfg (run : EngineImpl -> string -> Z -> Results)
    (c : configfile.FileConfig) :
  Manager.cfg (ManagerInit.NewManager run c) = configfile.Search c.
Proof.
  unfold ManagerInit.NewManager, ManagerInit.initEngines.
  destruct (configfile.BrowserEnabled (configfile.Browser c)); reflexivity.
Qed.

Lemma registry_cases (run : EngineImpl -> string -> Z -> Results)
    (c : configfile.FileConfig) (name : string) :
  (exists impl,
     engine_Name impl = name /\ name ∈ ManagerInit.registered_names c /\
     Manager.GetEngine (ManagerInit.NewManager run c) name
       = Some (ManagerInit.as_engine run impl))
  \/ ((name ∉ ManagerInit.registered_names c) /\
      Manager.GetEngine (ManagerInit.NewManager run c) name = None).
Proof.
  rewrite registry_lookup. unfold ManagerInit.registered_names.
  destruct (configfile.BrowserEnabled (configfile.Browser c));
    cbn [rev app List.find engine_Name ManagerInit.browser_engine
         Browser.name Browser.variant];
    split_names name;
    try (left; eexists; split; [|split]; [| |reflexivity];
         [reflexivity | apply list_elem_of_In; simpl; tauto]);
    right; split; try reflexivity; intros H;
    repeat (apply elem_of_cons in H as [->|H]; [contradiction|]);
    inversion H.
Qed.

(** X5. A request that names no engine goes to the configured default
    engine alone.  With a validated configuration the default engine is
    always allowed; when the registry holds it, the answer is that engine's
    answer (its error wrapped), and when it does not (the valid name google,
    or a browser engine while the browser is disabled) the request comes
    back empty and without an error. *)
Theorem X5_default_engine_request
    (run : EngineImpl -> string -> Z -> Results)
    (c : configfile.FileConfig) (req : SearchRequest) (out : Results) :
  configfile.valid c ->
  Engines req = [] ->
  Manager.Search (ManagerInit.NewManager run c) req out ->
  (config.DefaultEngine (configfile.Search c) ∈ ManagerInit.registered_names c ->
   exists impl,
     engine_Name impl = config.DefaultEngine (configfile.Search c) /\
     out = match run impl (Query req) (Manager.effective_limit req) with
           | (results, None) => (results, None)
           | (_, Some err) =>
               ([], Some ("all searches failed, last error: " +:+ err))
           end) /\
  (config.DefaultEngine (configfile.Search c) ∉ ManagerInit.registered_names c ->
   out = ([], None)).
Proof.
  intros Hv Hreq H.
  destruct Hv as (_ & _ & _ & _ & _ & Hallowed & _).
  unfold Manager.Search, Manager.effective_engines in H. rewrite Hreq in H.
  unfold config.GetDefaultSearchEngine in H. rewrite NewManager_cfg in H.
  destruct H as [done Hperm].
  cbn [Manager.launch] in Hperm. rewrite NewManager_cfg, Hallowed in Hperm.
  cbn [negb] in Hperm.
  destruct (registry_cases run c (config.DefaultEngine (configfile.Search c)))
    as [(impl & Hname & Hin & Hget)|[Hnot Hget]];
    rewrite Hget in Hperm.
  - apply Permutation_singleton_l in Hperm. subst done.
    split; [|intros Hn; contradiction].
    intros _. exists impl. split; [exact Hname|].
    unfold Manager.run_tasks, Manager.finish, Manager.task. simpl.
    destruct (run impl (Query req) (Manager.effective_limit req))
      as [results [err|]]; simpl; [reflexivity|].
    by destruct results.
  - apply Permutation_nil_l in Hperm. subst done.
    split; [intros Hin; contradiction|]. intros _. reflexivity.
Qed.

Lemma DefaultConfig_valid : configfile.valid configfile.DefaultConfig.
Proof.
  unfold configfile.valid. cbn.
  repeat split; try lia; try discriminate; try reflexivity;
    try constructor.
Qed.

Lemma X5_default_engine_request_witness :
  let run := fun impl (_ : string) (_ : Z) =>
               ([Samples.result (engine_Name impl) "https://go.dev/"],
                @None error) in
  let c := configfile.DefaultConfig in
  let req := Samples.request 3 [] in
  let out := Manager.Search_in_launch_order (ManagerInit.NewManager run c) req in
  Manager.Search (ManagerInit.NewManager run c) req out /\
  exists impl,
    engine_Name impl = "duckduckgo" /\
    out = run impl (Query req) (Manager.effective_limit req).
Proof.
  intros run c req out.
  assert (H : Manager.Search (ManagerInit.NewManager run c) req out).
  { unfold Manager.Search, out, Manager.Search_in_launch_order.
    constructor. reflexivity. }
  split; [exact H|].
  apply (X5_default_engine_request run c req out DefaultConfig_valid eq_refl H).
  apply list_elem_of_In. simpl. tauto.
Defined.

(** ** The order in which the goroutines finish *)

Lemma succeeded_perm (query : string) (limit : Z) (l k : list SearchEngine) :
  l ≡ₚ k ->
  Manager.succeeded query limit l ≡ₚ Manager.succeeded query limit k.
Proof. intros H. unfold Manager.succeeded. by apply Permutation_flat_map. Qed.

Lemma failures_perm (query : string) (limit : Z) (l k : list SearchEngine) :
  l ≡ₚ k ->
  Manager.failures query limit l ≡ₚ Manager.failures query limit k.
Proof. intros H. unfold Manager.failures. by apply Permutation_flat_map. Qed.

Lemma run_tasks_results (query : string) (limit : Z) (done : list SearchEngine) :
  fst (Manager.run_tasks query limit done) = Manager.succeeded query limit done.
Proof.
  rewrite run_tasks_eq.
  destruct (Manager.succeeded query limit done);
    by destruct (last (Manager.failures query limit done)).
Qed.

Lemma run_tasks_error (query : string) (limit : Z) (done : list SearchEngine) :
  is_Some (snd (Manager.run_tasks query limit done)) <->
  Manager.succeeded query limit done = [] /\
  Manager.failures query limit done <> [].
Proof.
  rewrite run_tasks_eq.
  destruct (Manager.succeeded query limit done) as [|r rs];
    destruct (last (Manager.failures query limit done)) as [err|] eqn:L; simpl.
  - split; [|by eexists]. intros _. split; [reflexivity|].
    intros E. by rewrite E in L.
  - apply last_None in L. rewrite L.
    split; [by intros [? ?] | by intros [_ ?]].
  - split; [by intros [? ?] | by intros [? _]].
  - split; [by intros [? ?] | by intros [? _]].
Qed.

(** X6. The goroutines' completion order only decides the order of the
    combined results and which engine's error is reported: the results
    are, up to order, those of the launched engines that succeeded, no
    result is lost or duplicated, and an error is returned exactly when no
    engine delivered a result and one of them failed; any two runs of one
    request agree on both. *)
Theorem X6_search_schedule_independent (m : Manager.Manager)
    (req : SearchRequest) (out out' : Results) :
  Manager.Search m req out ->
  Manager.Search m req out' ->
  let launched := Manager.launch m (Manager.effective_engines m req) in
  let query := Query req in
  let limit := Manager.effective_limit req in
  fst out ≡ₚ Manager.succeeded query limit launched /\
  (is_Some (snd out) <->
   Manager.succeeded query limit launched = [] /\
   Manager.failures query limit launched <> []) /\
  fst out ≡ₚ fst out' /\
  (is_Some (snd out) <-> is_Some (snd out')).
Proof.
  intros [done Hperm] [done' Hperm']. cbv zeta.
  rewrite !run_tasks_results, !run_tasks_error.
  pose proof (succeeded_perm (Query req) (Manager.effective_limit req) _ _ Hperm)
    as Hs.
  pose proof (succeeded_perm (Query req) (Manager.effective_limit req) _ _ Hperm')
    as Hs'.
  pose proof (failures_perm (Query req) (Manager.effective_limit req) _ _ Hperm)
    as Hf.
  pose proof (failures_perm (Query req) (Manager.effective_limit req) _ _ Hperm')
    as Hf'.
  assert (Hnil : forall A (l k : list A), l ≡ₚ k -> l = [] <-> k = []).
  { intros A l k H. split; intros ->;
      [by apply Permutation_nil_l in H
      |by apply Permutation_nil_r in H]. }
  split; [by symmetry|]. split; [|split].
  - rewrite (Hnil _ _ _ Hs), (Hnil _ _ _ Hf). reflexivity.
  - by rewrite <- Hs, <- Hs'.
  - rewrite <- (Hnil _ _ _ Hs), <- (Hnil _ _ _ Hf),
      <- (Hnil _ _ _ Hs'), <- (Hnil _ _ _ Hf'). reflexivity.
Qed.

Lemma X6_search_schedule_independent_witness :
  let m := Samples.registry Samples.open_config in
  let req := Samples.request 2 ["bing"; "sogou"] in
  let out := Manager.Search_in_launch_order m req in
  let out' := Manager.run_tasks "golang" 2 [Samples.sogou_two; Samples.bing_two] in
  Manager.Search m req out /\ Manager.Search m req out' /\
  fst out ≡ₚ fst out' /\ fst out <> fst out'.
Proof.
  intros m req out out'.
  assert (H : Manager.Search m req out).
  { unfold Manager.Search, out, Manager.Search_in_launch_order.
    constructor. reflexivity. }
  assert (H' : Manager.Search m req out').
  { unfold Manager.Search, out'. constructor. apply perm_swap. }
  split; [exact H|]. split; [exact H'|].
  split; [exact (proj1 (proj2 (proj2
                   (X6_search_schedule_independent m req out out' H H'))))|].
  vm_compute. discriminate.
Defined.
(** ** What a paging loop leaves in the log and in its results *)

Lemma truncate_Ret (limit : Z) (acc : list SearchResult) (st : State)
    (out : Results) (st' : State) :
  truncate limit acc st = Ret out st' ->
  st' = st /\ snd out = None /\ exists n, fst out = firstn n acc.
Proof.
  unfold truncate, ret, stop.
  destruct (count acc >? limit); [destruct (limit <? 0)|]; intros [= <- <-];
    (split; [reflexivity|]); (split; [reflexivity|]).
  - by eexists.
  - exists (length acc). simpl. by rewrite firstn_all.
Qed.

Section PagedTrace.

Variables (page : nat -> M Results) (wrap : error -> error) (cap : nat).
Variables (limit : Z) (is_fetch : Event -> bool) (request : nat -> Event).
Variable Q : SearchResult -> Prop.

Hypothesis Hpage : forall k st r st', page k st = Ret r st' ->
  exists evs, log st' = log st ++ evs /\
              List.filter is_fetch evs = [request k] /\
              (snd r = None -> Forall Q (fst r)).

(** Leaving the loop through the code after it. *)
Lemma paged_loop_leave (acc acc0 : list SearchResult) (k n : nat)
    (st0 st : State) (out : Results) (st' : State) (evs : list Event) :
  Forall Q acc ->
  log st = log st0 ++ evs ->
  List.filter is_fetch evs = map request (seq k n) ->
  (n <= 1)%nat ->
  truncate limit acc st = Ret out st' ->
  exists n evs,
    log st' = log st0 ++ evs /\
    List.filter is_fetch evs = map request (seq k n) /\
    ((k < cap)%nat -> (k + n <= cap)%nat) /\
    Forall Q (fst out) /\
    (is_Some (snd out) -> fst out = [] /\ acc0 = [] /\ n = 1%nat).
Proof.
  intros HQ Hlog Hf Hn Ht.
  apply truncate_Ret in Ht as (-> & Hnone & m & Hout).
  exists n, evs.
  split; [exact Hlog|]. split; [exact Hf|]. split; [lia|].
  split; [rewrite Hout; by apply Forall_take|].
  rewrite Hnone. by intros [? ?].
Qed.

Lemma paged_loop_trace (fuel : nat) :
  forall acc k st out st',
    Forall Q acc ->
    paged_loop fuel page wrap cap limit acc k st = Ret out st' ->
    exists n evs,
      log st' = log st ++ evs /\
      List.filter is_fetch evs = map request (seq k n) /\
      ((k < cap)%nat -> (k + n <= cap)%nat) /\
      Forall Q (fst out) /\
      (is_Some (snd out) -> fst out = [] /\ acc = [] /\ n = 1%nat).
Proof.
  induction fuel as [|fuel IH]; intros acc k st out st' HQ; simpl.
  - destruct (negb (count acc <? limit)); [|discriminate].
    apply (paged_loop_leave acc acc k 0 st st out st' []);
      [exact HQ | by rewrite app_nil_r | reflexivity | lia].
  - destruct (negb (count acc <? limit)).
    { apply (paged_loop_leave acc acc k 0 st st out st' []);
        [exact HQ | by rewrite app_nil_r | reflexivity | lia]. }
    unfold bind. destruct (page k st) as [[results [err|]] st1|why st1] eqn:E;
      [| |discriminate];
      destruct (Hpage _ _ _ _ E) as (evs1 & Hlog1 & Hf1 & HQ1).
    + destruct (count acc >? 0) eqn:Hacc.
      * apply (paged_loop_leave acc acc k 1 st st1 out st' evs1);
          [exact HQ | exact Hlog1 | exact Hf1 | lia].
      * intros [= <- <-]. exists 1%nat, evs1.
        split; [exact Hlog1|]. split; [exact Hf1|]. split; [lia|].
        split; [constructor|]. intros _.
        split; [reflexivity|]. split; [|reflexivity].
        destruct acc; [reflexivity|].
        unfold count in Hacc. simpl in Hacc. discriminate.
    + destruct (count results =? 0) eqn:Hempty.
      * apply (paged_loop_leave acc acc k 1 st st1 out st' evs1);
          [exact HQ | exact Hlog1 | exact Hf1 | lia].
      * assert (HQ' : Forall Q (acc ++ results)).
        { apply Forall_app. split; [exact HQ | by apply HQ1]. }
        assert (Hne : acc ++ results <> []).
        { intros Happ. apply app_eq_nil in Happ as [_ ->].
          unfold count in Hempty. simpl in Hempty. discriminate. }
        destruct (Nat.leb_spec cap (S k)) as [Hlast|Hmore].
        -- intros Ht.
           destruct (paged_loop_leave (acc ++ results) (acc ++ results) k 1
                       st st1 out st' evs1 HQ' Hlog1 Hf1 ltac:(lia) Ht)
             as (n & evs & Hl & Hf & Hc & Hq & He).
           exists n, evs.
           split; [exact Hl|]. split; [exact Hf|]. split; [exact Hc|].
           split; [exact Hq|]. intros Hs.
           destruct (He Hs) as (_ & Happ & _). contradiction.
        -- intros Hrec.
           destruct (IH _ _ _ _ _ HQ' Hrec)
             as (n & evs2 & Hl & Hf & Hc & Hq & He).
           exists (S n), (evs1 ++ evs2).
           split; [rewrite Hl, Hlog1; by rewrite app_assoc|].
           split; [rewrite List.filter_app, Hf1, Hf; reflexivity|].
           split; [intros _; specialize (Hc Hmore); lia|].
           split; [exact Hq|]. intros Hs.
           destruct (He Hs) as (_ & Happ & _). contradiction.
Qed.

End PagedTrace.
(** ** What the extractors emit *)

Lemma emitted_intro (e : EngineImpl) (r : SearchResult) :
  Engine r = engine_Name e -> http_prefixed r -> emitted_by e r.
Proof.
  intros He [Hne Hp]. split; [exact He|]. split; [exact Hne|]. by intros _.
Qed.

Lemma Bing_parseItem_emitted (n : Node) (r : SearchResult) :
  Bing.parseItem n = Some r -> emitted_by BingEngine r.
Proof.
  intros H. apply emitted_intro; [|by apply (Bing_parseItem_url n)].
  revert H. unfold Bing.parseItem. head_split. by intros [= <-].
Qed.

Lemma Bing_parse_selectors_Forall (P : SearchResult -> Prop) (doc : Selection)
    (selectors : list string) :
  (forall n r, Bing.parseItem n = Some r -> P r) ->
  forall results,
    Forall P results -> Forall P (Bing.parse_selectors doc selectors results).
Proof.
  intros HP. induction selectors as [|sel rest IH]; intros results H; simpl;
    [exact H|].
  assert (H' : Forall P (results ++ omap Bing.parseItem (Find doc sel))).
  { apply Forall_app. split; [exact H | by apply omap_Forall]. }
  destruct (count _ >? 0); [exact H' | by apply IH].
Qed.

Section BingRegex.

Variable P : SearchResult -> Prop.

Hypothesis Hkeep : forall href title,
  Contains href "bing.com" = false -> Contains href "microsoft.com" = false ->
  title <> "" -> HasPrefix href "http" = true ->
  P {| Title := title; URL := href; Description := ""; Source := "";
       Engine := "bing" |}.

Lemma Bing_regex_loop_Forall (found : list (list string)) :
  forall seen results,
    Forall P results -> Forall P (Bing.regex_loop found seen results).
Proof.
  induction found as [|m rest IH]; intros seen results H; simpl; [exact H|].
  destruct (Z.of_nat (length m) <? 3); [by apply IH|].
  destruct (Contains (nth 1 m "") "bing.com") eqn:E1; [by apply IH|].
  destruct (Contains (nth 1 m "") "microsoft.com") eqn:E2; [by apply IH|].
  destruct (String.eqb_spec (TrimSpace (nth 2 m "")) "") as [E3|E3];
    [by apply IH|].
  cbn [orb]. destruct (bool_decide _); [by apply IH|].
  destruct (HasPrefix (nth 1 m "") "http") eqn:E4; cbn [negb];
    [|by apply IH].
  assert (H' : Forall P
                 (results ++ [{| Title := TrimSpace (nth 2 m "");
                                 URL := nth 1 m ""; Description := "";
                                 Source := ""; Engine := "bing" |}])).
  { apply Forall_app. split; [exact H|]. constructor; [|constructor].
    by apply Hkeep. }
  destruct (count _ >=? 10); [exact H' | by apply IH].
Qed.

End BingRegex.

Lemma Bing_regex_loop_NoDup (found : list (list string)) :
  forall seen results,
    NoDup (map URL results) ->
    (forall r, r ∈ results -> URL r ∈ seen) ->
    count results < 10 ->
    NoDup (map URL (Bing.regex_loop found seen results)) /\
    count (Bing.regex_loop found seen results) <= 10.
Proof.
  induction found as [|m rest IH]; intros seen results Hnd Hseen Hc; simpl;
    [split; [exact Hnd | lia]|].
  destruct (Z.of_nat (length m) <? 3); [by apply IH|].
  destruct (Contains (nth 1 m "") "bing.com"); [by apply IH|].
  destruct (Contains (nth 1 m "") "microsoft.com"); [by apply IH|].
  destruct (String.eqb (TrimSpace (nth 2 m "")) ""); [by apply IH|].
  cbn [orb]. case_bool_decide as Hin; [by apply IH|].
  destruct (negb (HasPrefix (nth 1 m "") "http")); [by apply IH|].
  set (r := {| Title := TrimSpace (nth 2 m ""); URL := nth 1 m "";
               Description := ""; Source := ""; Engine := "bing" |}).
  assert (Hnd' : NoDup (map URL (results ++ [r]))).
  { rewrite map_app. apply NoDup_app. split; [exact Hnd|]. split.
    - intros u Hu Hu'. apply list_elem_of_fmap in Hu as (r' & -> & Hr').
      simpl in Hu'. apply list_elem_of_singleton in Hu'.
      apply Hin. rewrite <- Hu'. by apply Hseen.
    - simpl. apply NoDup_singleton. }
  assert (Hcount : count (results ++ [r]) = count results + 1).
  { unfold count. rewrite length_app. simpl. lia. }
  destruct (Z.geb_spec (count (results ++ [r])) 10) as [Hfull|Hmore].
  - split; [exact Hnd' | lia].
  - apply IH; [exact Hnd' | | lia].
    intros r' Hr'. apply elem_of_app in Hr' as [Hr'|Hr'].
    + apply elem_of_union_r. by apply Hseen.
    + apply list_elem_of_singleton in Hr' as ->. apply elem_of_union_l.
      by apply elem_of_singleton.
Qed.

(** X7. Bing's pattern-based fallback returns at most ten results, no two
    of them with the same link; every one has a link that begins with
    [http] and mentions neither bing.com nor microsoft.com, a non-empty
    title, and neither description nor source. *)
Theorem X7_bing_regex_fallback (w : World) (html : string) :
  let results := Bing.extractResultsWithRegex w html in
  count results <= 10 /\
  NoDup (map URL results) /\
  Forall (fun r =>
            HasPrefix (URL r) "http" = true /\
            Contains (URL r) "bing.com" = false /\
            Contains (URL r) "microsoft.com" = false /\
            Title r <> "" /\ Description r = "" /\ Source r = "" /\
            Engine r = "bing") results.
Proof.
  cbv zeta. unfold Bing.extractResultsWithRegex.
  destruct (Bing_regex_loop_NoDup (regex_links w html) ∅ [])
    as [Hnd Hc];
    [constructor | intros r Hr; inversion Hr | reflexivity |].
  split; [exact Hc|]. split; [exact Hnd|].
  apply Bing_regex_loop_Forall; [|constructor].
  intros href title H1 H2 H3 H4. simpl. by repeat split.
Qed.

Lemma Bing_regex_emitted (w : World) (html : string) :
  Forall (emitted_by BingEngine) (Bing.extractResultsWithRegex w html).
Proof.
  unfold Bing.extractResultsWithRegex.
  apply Bing_regex_loop_Forall; [|constructor].
  intros href title _ _ _ H. apply emitted_intro; [reflexivity|].
  split; [by apply http_prefix_nonempty | exact H].
Qed.

(** *** DuckDuckGo *)

Lemma DuckDuckGo_each_firstn (w : World) (limit : Z) (items : list Node) :
  forall results,
    DuckDuckGo.each w limit items results =
    results ++ firstn (Z.to_nat (limit - count results))
                      (omap (DuckDuckGo.parseItem w) items).
Proof.
  induction items as [|n rest IH]; intros results; simpl.
  - by rewrite firstn_nil, app_nil_r.
  - destruct (Z.geb_spec (count results) limit) as [Hfull|Hmore].
    + rewrite IH. replace (Z.to_nat (limit - count results)) with 0%nat by lia.
      reflexivity.
    + destruct (DuckDuckGo.parseItem w n) as [r|]; [|apply IH].
      rewrite IH. unfold count. rewrite length_app. simpl.
      replace (Z.to_nat (limit - Z.of_nat (length results)))
        with (S (Z.to_nat (limit - Z.of_nat (length results + 1))))
        by (unfold count in Hmore; lia).
      simpl. by rewrite <- app_assoc.
Qed.

(** X8. DuckDuckGo's extraction returns the first [limit] result blocks
    that pass its checks, in document order; with a limit that is not
    positive it returns nothing. *)
Theorem X8_duckduckgo_first_limit (w : World) (doc : Selection) (limit : Z) :
  DuckDuckGo.parseResults w doc limit =
  firstn (Z.to_nat limit)
         (omap (DuckDuckGo.parseItem w) (Find doc ".result")).
Proof.
  unfold DuckDuckGo.parseResults. rewrite DuckDuckGo_each_firstn.
  unfold count. simpl. by rewrite Z.sub_0_r.
Qed.

Lemma DuckDuckGo_parseItem_emitted (w : World) (n : Node) (r : SearchResult) :
  DuckDuckGo.parseItem w n = Some r -> emitted_by DuckDuckGoEngine r.
Proof.
  intros H. apply emitted_intro; [|by apply (DuckDuckGo_parseItem_url w n)].
  revert H. unfold DuckDuckGo.parseItem. head_split; by intros [= <-].
Qed.

Lemma DuckDuckGo_parseResults_emitted (w : World) (doc : Selection) (limit : Z) :
  Forall (emitted_by DuckDuckGoEngine) (DuckDuckGo.parseResults w doc limit).
Proof.
  unfold DuckDuckGo.parseResults. rewrite DuckDuckGo_each_firstn. simpl.
  apply Forall_take, omap_Forall, DuckDuckGo_parseItem_emitted.
Qed.
(** *** Baidu *)

Lemma Baidu_parseResultItem_kept (w : World) (n : Node) (r : SearchResult) :
  Baidu.parseResultItem w n = Some r ->
  Engine r = "baidu" /\ Title r <> "" /\
  Baidu.isInternalLink (URL r) (Title r) = false.
Proof.
  unfold Baidu.parseResultItem. head_split; intros [= <-]; cbn [Engine Title URL];
    (split; [reflexivity|]); (split; [by apply String.eqb_neq | assumption]).
Qed.

Lemma Baidu_parseMobileItem_kept (w : World) (n : Node) (r : SearchResult) :
  Baidu.parseMobileItem w n = Some r ->
  Engine r = "baidu" /\ Title r <> "" /\
  Baidu.isInternalLink (URL r) (Title r) = false.
Proof.
  unfold Baidu.parseMobileItem. head_split; intros [= <-]; cbn [Engine Title URL];
    (split; [reflexivity|]); (split; [by apply String.eqb_neq | assumption]).
Qed.

Lemma existsb_false {A} (f : A -> bool) (l : list A) (a : A) :
  existsb f l = false -> a ∈ l -> f a = false.
Proof.
  intros H Ha. apply list_elem_of_In in Ha.
  destruct (f a) eqn:E; [|reflexivity].
  assert (existsb f l = true) by (apply existsb_exists; eauto). congruence.
Qed.

(** X9. Every result of Baidu's extraction, desktop or mobile, has a
    non-empty title that carries none of the advertising marks, and a link
    that is neither a Baidu result-page link nor a Baidu redirect through
    baidu.php. *)
Theorem X9_baidu_results_filtered (w : World) (doc : Selection)
    (r : SearchResult) :
  r ∈ Baidu.parseResults w doc \/ r ∈ Baidu.parseMobileResults w doc ->
  Engine r = "baidu" /\ Title r <> "" /\
  Contains (URL r) "baidu.com/s?" = false /\
  Contains (URL r) "baidu.com/baidu.php" = false /\
  (forall keyword, keyword ∈ ["广告"; "推广"; "想在此推广"] ->
                   Contains (Title r) keyword = false).
Proof.
  intros H.
  assert (Hk : Engine r = "baidu" /\ Title r <> "" /\
               Baidu.isInternalLink (URL r) (Title r) = false).
  { destruct H as [H|H];
      apply list_elem_of_omap in H as (n & _ & Hn);
      [by apply (Baidu_parseResultItem_kept w n)
      |by apply (Baidu_parseMobileItem_kept w n)]. }
  destruct Hk as (He & Ht & Hi).
  unfold Baidu.isInternalLink in Hi. apply orb_false_elim in Hi as [Hd Ha].
  split; [exact He|]. split; [exact Ht|].
  split; [|split].
  - apply (existsb_false _ _ "baidu.com/s?" Hd). cbn. left.
  - apply (existsb_false _ _ "baidu.com/baidu.php" Hd). cbn. right. left.
  - intros keyword Hkw. by apply (existsb_false _ _ keyword Ha).
Qed.

Lemma X9_baidu_results_filtered_witness :
  let w := Samples.world [] in
  let doc := [mkNode "" [] [("#content_left",
               [mkNode "" [] [("> *",
                 [Samples.baidu_item "https://go.dev/" "Go";
                  Samples.baidu_item "https://www.baidu.com/s?wd=go" "Go"])]])]] in
  Baidu.parseResults w doc
    = [{| Title := "Go"; URL := "https://go.dev/"; Description := "Go";
          Source := "go.dev"; Engine := "baidu" |}] /\
  Contains "https://go.dev/" "baidu.com/s?" = false.
Proof.
  intros w doc.
  assert (E : Baidu.parseResults w doc
              = [{| Title := "Go"; URL := "https://go.dev/"; Description := "Go";
                    Source := "go.dev"; Engine := "baidu" |}])
    by (vm_compute; reflexivity).
  split; [exact E|].
  refine (proj1 (proj2 (proj2 (X9_baidu_results_filtered w doc
            {| Title := "Go"; URL := "https://go.dev/"; Description := "Go";
               Source := "go.dev"; Engine := "baidu" |} _)))).
  left. rewrite E. left.
Defined.

Lemma Baidu_parseResults_emitted (w : World) (doc : Selection) :
  Forall (emitted_by BaiduEngine) (Baidu.parseResults w doc).
Proof.
  apply omap_Forall. intros n r H. apply emitted_intro.
  - by apply (Baidu_parseResultItem_kept w n).
  - by apply (Baidu_parseResultItem_url w n).
Qed.

Lemma Baidu_parseMobileResults_emitted (w : World) (doc : Selection) :
  Forall (emitted_by BaiduEngine) (Baidu.parseMobileResults w doc).
Proof.
  apply omap_Forall. intros n r H. apply emitted_intro.
  - by apply (Baidu_parseMobileItem_kept w n).
  - by apply (Baidu_parseMobileItem_url w n).
Qed.
(** *** Sogou *)

Lemma http_not_relative (s : string) :
  HasPrefix s "http" = true ->
  HasPrefix s "/" = false /\ HasPrefix s "./" = false.
Proof.
  unfold HasPrefix. destruct s as [|c s']; [discriminate|].
  cbn -[ascii_dec].
  destruct (ascii_dec "h" c) as [<-|]; [|discriminate].
  intros _. split; reflexivity.
Qed.

Lemma Sogou_link_completed (href : string) :
  href <> "" ->
  let completed :=
    if negb (HasPrefix href "http")
    then if HasPrefix href "/" then "https://wap.sogou.com" +:+ href
         else if HasPrefix href "./"
              then "https://wap.sogou.com/web/" +:+ TrimPrefix href "./"
              else href
    else href in
  completed <> "" /\ HasPrefix completed "/" = false /\
  HasPrefix completed "./" = false.
Proof.
  intros Hne. cbv zeta.
  destruct (HasPrefix href "http") eqn:E; cbn [negb].
  - split; [exact Hne|]. by apply http_not_relative.
  - destruct (HasPrefix href "/") eqn:E1.
    + split; [discriminate|]. split; reflexivity.
    + destruct (HasPrefix href "./") eqn:E2.
      * split; [discriminate|]. split; reflexivity.
      * by repeat split.
Qed.

Lemma Sogou_parseResultItem_kept (w : World) (n : Node) (r : SearchResult) :
  Sogou.parseResultItem w n = Some r ->
  Engine r = "sogou" /\ URL r <> "" /\
  HasPrefix (URL r) "/" = false /\ HasPrefix (URL r) "./" = false /\
  existsb (fun pattern => Contains (URL r) pattern)
          ["sogou.com/web/searchList"; "sogou.com/link?"; "sogou.com/tx?";
           "sogou.com/v?"; "antispider"] = false.
Proof.
  unfold Sogou.parseResultItem. head_split; intros [= <-]; cbn [Engine URL];
    (split; [reflexivity|]);
    match goal with
    | H : String.eqb _ "" || String.eqb ?h "" = false |- _ =>
        apply orb_false_elim in H as [_ H]; apply String.eqb_neq in H;
        destruct (Sogou_link_completed h H) as (H1 & H2 & H3)
    end;
    (split; [exact H1|]); (split; [exact H2|]); (split; [exact H3|]);
    match goal with
    | H : Sogou.isInternalLink _ _ = false |- _ =>
        unfold Sogou.isInternalLink in H;
        apply orb_false_elim in H as [H _]; exact H
    end.
Qed.

(** X10. Every result of Sogou's extraction has a link that is present and
    does not begin with [/] or [./] (such links are completed to links
    into wap.sogou.com), and that shows none of the marks of a Sogou
    internal link. *)
Theorem X10_sogou_links_completed (w : World) (doc : Selection)
    (r : SearchResult) :
  r ∈ Sogou.parseResults w doc ->
  Engine r = "sogou" /\ URL r <> "" /\
  HasPrefix (URL r) "/" = false /\ HasPrefix (URL r) "./" = false /\
  (forall pattern,
     pattern ∈ ["sogou.com/web/searchList"; "sogou.com/link?"; "sogou.com/tx?";
                "sogou.com/v?"; "antispider"] ->
     Contains (URL r) pattern = false).
Proof.
  intros H. apply list_elem_of_omap in H as (n & _ & Hn).
  destruct (Sogou_parseResultItem_kept w n r Hn) as (He & Hu & H1 & H2 & Hp).
  repeat (split; [assumption|]).
  intros pattern Hin.
  by apply (existsb_false (fun pattern => Contains (URL r) pattern) _ pattern Hp).
Qed.

Lemma X10_sogou_links_completed_witness :
  let w := Samples.world [] in
  let doc := [mkNode "" [] [(".vrResult", [Samples.sogou_item "/link/go"])]] in
  Sogou.parseResults w doc
    = [{| Title := "Go"; URL := "https://wap.sogou.com/link/go";
          Description := ""; Source := "go.dev"; Engine := "sogou" |}] /\
  HasPrefix "https://wap.sogou.com/link/go" "/" = false.
Proof.
  intros w doc.
  assert (E : Sogou.parseResults w doc
              = [{| Title := "Go"; URL := "https://wap.sogou.com/link/go";
                    Description := ""; Source := "go.dev"; Engine := "sogou" |}])
    by (vm_compute; reflexivity).
  split; [exact E|].
  refine (proj1 (proj2 (proj2 (X10_sogou_links_completed w doc
            {| Title := "Go"; URL := "https://wap.sogou.com/link/go";
               Description := ""; Source := "go.dev"; Engine := "sogou" |} _)))).
  rewrite E. left.
Defined.

Lemma Sogou_parseResults_emitted (w : World) (doc : Selection) :
  Forall (emitted_by SogouEngine) (Sogou.parseResults w doc).
Proof.
  apply omap_Forall. intros n r H.
  destruct (Sogou_parseResultItem_kept w n r H) as (He & Hu & _).
  split; [exact He|]. split; [exact Hu|]. by intros [].
Qed.
(** *** The browser engines *)

Lemma parseBingItem_kept (decode : BrowserParse.Base64) (w : World) (n : Node)
    (r : SearchResult) :
  BrowserParse.parseBingItem decode w n = Some r ->
  Engine r = "browser_bing" /\ http_prefixed r /\
  Contains (URL r) "bing.com" = false /\
  Contains (URL r) "microsoft.com" = false.
Proof.
  unfold BrowserParse.parseBingItem. head_split. intros [= <-].
  cbn [Engine URL]. link_checked.
  match goal with
  | H : _ || _ = false |- _ => apply orb_false_elim in H as [H1 H2]
  end.
  split; [reflexivity|].
  split; [split; [by apply http_prefix_nonempty | assumption]|].
  by split.
Qed.

Lemma parseGoogleItem_kept (selector : string) (n : Node) (r : SearchResult) :
  BrowserParse.parseGoogleItem selector n = Some r ->
  Engine r = "browser_google" /\ http_prefixed r /\
  Contains (URL r) "google.com" = false /\
  Contains (URL r) "webcache.googleusercontent.com" = false /\
  Title r <> "".
Proof.
  unfold BrowserParse.parseGoogleItem. head_split; intros [= <-];
    cbn [Engine URL Title];
    match goal with
    | H : negb (HasPrefix _ "http") || _ || _ = false |- _ =>
        apply orb_false_elim in H as [H H3];
        apply orb_false_elim in H as [H1 H2];
        apply negb_false_iff in H1
    end;
    (split; [reflexivity|]);
    (split; [split; [by apply http_prefix_nonempty | assumption]|]);
    (split; [assumption|]); (split; [assumption|]);
    by apply String.eqb_neq.
Qed.

Lemma parseBaiduItem_kept (n : Node) (r : SearchResult) :
  BrowserParse.parseBaiduItem n = Some r ->
  Engine r = "browser_baidu" /\ http_prefixed r /\
  Title r <> "" /\ Contains (Title r) "广告" = false.
Proof.
  unfold BrowserParse.parseBaiduItem. head_split; intros [= <-];
    cbn [Engine URL Title]; link_checked;
    (split; [reflexivity|]);
    (split; [split; [by apply http_prefix_nonempty | assumption]|]);
    (split; [by apply String.eqb_neq | assumption]).
Qed.

Lemma google_selectors_Forall (P : SearchResult -> Prop) (doc : Selection)
    (selectors : list string) :
  (forall selector n r, BrowserParse.parseGoogleItem selector n = Some r -> P r) ->
  forall results,
    Forall P results ->
    Forall P (BrowserParse.google_selectors doc selectors results).
Proof.
  intros HP. induction selectors as [|sel rest IH]; intros results H; simpl;
    [exact H|].
  assert (H' : Forall P (results
                 ++ omap (BrowserParse.parseGoogleItem sel) (Find doc sel))).
  { apply Forall_app. split; [exact H|]. apply omap_Forall. apply HP. }
  destruct (count _ >? 0); [exact H' | by apply IH].
Qed.

(** The loop that removes repeated links keeps the first result of every
    link and nothing else. *)
Lemma unique_spec (results : list SearchResult) :
  forall seen kept,
    NoDup (map URL kept) ->
    (forall u, u ∈ seen <-> u ∈ map URL kept) ->
    let out := BrowserParse.unique results seen kept in
    NoDup (map URL out) /\
    (forall r, r ∈ out -> r ∈ kept \/ r ∈ results) /\
    (forall u, u ∈ map URL kept \/ u ∈ map URL results -> u ∈ map URL out) /\
    exists rest, out = kept ++ rest.
Proof.
  induction results as [|r results IH]; intros seen kept Hnd Hseen; simpl.
  - split; [exact Hnd|]. split; [intros r Hr; by left|].
    split; [|exists []; by rewrite app_nil_r].
    intros u [Hu|Hu]; [exact Hu | inversion Hu].
  - case_bool_decide as Hin; cbn [negb].
    + destruct (IH seen kept Hnd Hseen) as (H1 & H2 & H3 & H4).
      split; [exact H1|]. split; [|split; [|exact H4]].
      * intros r' Hr'. destruct (H2 r' Hr') as [?|?]; [by left|].
        right. by right.
      * intros u [Hu|Hu]; [apply H3; by left|].
        apply elem_of_cons in Hu as [->|Hu]; [|apply H3; by right].
        apply H3. left. by apply Hseen.
    + assert (Hnd' : NoDup (map URL (kept ++ [r]))).
      { rewrite map_app. apply NoDup_app. split; [exact Hnd|]. split.
        - intros u Hu Hu'. simpl in Hu'. apply list_elem_of_singleton in Hu'.
          subst u. apply Hin. by apply Hseen.
        - simpl. apply NoDup_singleton. }
      assert (Hseen' : forall u, u ∈ {[URL r]} ∪ seen <-> u ∈ map URL (kept ++ [r])).
      { intros u. rewrite map_app, elem_of_app, elem_of_union, elem_of_singleton.
        simpl. rewrite list_elem_of_singleton, Hseen. tauto. }
      destruct (IH _ _ Hnd' Hseen') as (H1 & H2 & H3 & rest & H4).
      split; [exact H1|]. split; [|split].
      * intros r' Hr'. destruct (H2 r' Hr') as [Hk|?]; [|right; by right].
        apply elem_of_app in Hk as [?|Hk]; [by left|].
        apply list_elem_of_singleton in Hk as ->. right. by left.
      * intros u Hu. apply H3. rewrite map_app, elem_of_app. simpl.
        rewrite list_elem_of_singleton.
        destruct Hu as [Hu|Hu]; [by left; left|].
        apply elem_of_cons in Hu as [->|Hu]; [left; by right | by right].
      * exists (r :: rest). rewrite H4. by rewrite <- app_assoc.
Qed.

Lemma browser_extract_kept (decode : BrowserParse.Base64)
    (w : World) (v : Browser.Variant) (doc : Selection) (r : SearchResult) :
  r ∈ BrowserParse.extract decode w v doc ->
  Engine r = Browser.name v /\ URL r <> "" /\
  HasPrefix (URL r) "http" = true /\
  match v with
  | Browser.bing_variant =>
      Contains (URL r) "bing.com" = false /\
      Contains (URL r) "microsoft.com" = false
  | Browser.google_variant =>
      Contains (URL r) "google.com" = false /\
      Contains (URL r) "webcache.googleusercontent.com" = false /\
      Title r <> ""
  | Browser.baidu_variant =>
      Title r <> "" /\ Contains (Title r) "广告" = false
  end.
Proof.
  destruct v; cbn [BrowserParse.extract Browser.name]; intros H.
  - apply list_elem_of_omap in H as (n & _ & Hn).
    destruct (parseBingItem_kept decode w n r Hn) as (He & [Hu Hp] & H1 & H2).
    by repeat split.
  - destruct (unique_spec
                (BrowserParse.google_selectors doc
                   ["div.g"; "div[data-ved]"; "div.Gx5Zad"] []) ∅ [])
      as (_ & Hsub & _);
      [constructor | intros u; split; intros Hu; inversion Hu |].
    destruct (Hsub r H) as [Hr|Hr]; [inversion Hr|].
    pose proof (google_selectors_Forall
                  (fun r => Engine r = "browser_google" /\ http_prefixed r /\
                            Contains (URL r) "google.com" = false /\
                            Contains (URL r) "webcache.googleusercontent.com" = false /\
                            Title r <> "")
                  doc ["div.g"; "div[data-ved]"; "div.Gx5Zad"]
                  parseGoogleItem_kept [] (List.Forall_nil _)) as HF.
    rewrite Forall_forall in HF.
    destruct (HF r Hr) as (He & [Hu Hp] & H1 & H2 & H3).
    by repeat split.
  - apply list_elem_of_omap in H as (n & _ & Hn).
    destruct (parseBaiduItem_kept n r Hn) as (He & [Hu Hp] & H1 & H2).
    by repeat split.
Qed.

(** X11. Every result a browser engine extracts from a page carries the
    engine's name and a link that begins with [http].  Browser Bing's
    links mention neither bing.com nor microsoft.com; browser Google's
    mention neither google.com nor the web cache, and its titles are not
    empty; browser Baidu's titles are not empty and do not carry the
    advertising mark. *)
Theorem X11_browser_results_filtered (decode : BrowserParse.Base64)
    (w : World) (v : Browser.Variant) (doc : Selection) (r : SearchResult) :
  r ∈ BrowserParse.extract decode w v doc ->
  Engine r = Browser.name v /\ URL r <> "" /\
  HasPrefix (URL r) "http" = true /\
  match v with
  | Browser.bing_variant =>
      Contains (URL r) "bing.com" = false /\
      Contains (URL r) "microsoft.com" = false
  | Browser.google_variant =>
      Contains (URL r) "google.com" = false /\
      Contains (URL r) "webcache.googleusercontent.com" = false /\
      Title r <> ""
  | Browser.baidu_variant =>
      Title r <> "" /\ Contains (Title r) "广告" = false
  end.
Proof. apply browser_extract_kept. Qed.

Lemma X11_browser_results_filtered_witness :
  let decode : BrowserParse.Base64 := fun _ => None in
  let w := Samples.world [] in
  let doc := Samples.bing_doc [Samples.bing_item "https://go.dev/" "Go";
                               Samples.bing_item "https://www.bing.com/maps" "Maps"] in
  BrowserParse.extract decode w Browser.bing_variant doc
    = [{| Title := "Go"; URL := "https://go.dev/"; Description := "";
          Source := ""; Engine := "browser_bing" |}] /\
  Contains "https://go.dev/" "bing.com" = false.
Proof.
  intros decode w doc.
  assert (E : BrowserParse.extract decode w Browser.bing_variant doc
              = [{| Title := "Go"; URL := "https://go.dev/"; Description := "";
                    Source := ""; Engine := "browser_bing" |}])
    by (vm_compute; reflexivity).
  split; [exact E|].
  refine (proj1 (proj2 (proj2 (proj2
            (X11_browser_results_filtered decode w Browser.bing_variant doc
               {| Title := "Go"; URL := "https://go.dev/"; Description := "";
                  Source := ""; Engine := "browser_bing" |} _))))).
  rewrite E. left.
Defined.

(** X12. Browser Google returns no link twice: of the results its
    selectors collect it keeps, in order, the first one of every link, so
    every collected link is still present once. *)
Theorem X12_browser_google_unique (decode : BrowserParse.Base64) (w : World)
    (doc : Selection) :
  let collected :=
    BrowserParse.google_selectors doc ["div.g"; "div[data-ved]"; "div.Gx5Zad"] [] in
  let results := BrowserParse.extract decode w Browser.google_variant doc in
  NoDup (map URL results) /\
  (forall r, r ∈ results -> r ∈ collected) /\
  (forall r, r ∈ collected -> URL r ∈ map URL results) /\
  (NoDup (map URL collected) -> results = collected).
Proof.
  cbv zeta. cbn [BrowserParse.extract].
  set (collected := BrowserParse.google_selectors _ _ _).
  destruct (unique_spec collected ∅ []) as (Hnd & Hsub & Hall & _);
    [constructor | intros u; split; intros Hu; inversion Hu |].
  split; [exact Hnd|]. split; [|split].
  - intros r Hr. destruct (Hsub r Hr) as [H|H]; [inversion H | exact H].
  - intros r Hr. apply Hall. right. apply list_elem_of_fmap. by exists r.
  - clear Hnd Hsub Hall. intros Hnd.
    assert (Hgen : forall results seen kept,
      (forall u, u ∈ seen <-> u ∈ map URL kept) ->
      NoDup (map URL (kept ++ results)) ->
      BrowserParse.unique results seen kept = kept ++ results).
    { induction results as [|r results IH]; intros seen kept Hseen Hn; simpl;
        [by rewrite app_nil_r|].
      rewrite map_app in Hn. apply NoDup_app in Hn as (Hk & Hdis & Hr).
      case_bool_decide as Hin; cbn [negb].
      - exfalso. apply (Hdis (URL r)); [by apply Hseen | simpl; left].
      - rewrite (IH ({[URL r]} ∪ seen) (kept ++ [r]));
          [by rewrite <- app_assoc | |].
        + intros u. rewrite map_app, elem_of_app, elem_of_union,
            elem_of_singleton. simpl. rewrite list_elem_of_singleton, Hseen.
          tauto.
        + rewrite <- app_assoc. simpl. rewrite map_app.
          apply NoDup_app. by repeat split. }
    apply (Hgen collected ∅ []); [|exact Hnd].
    intros u; split; intros Hu; inversion Hu.
Qed.
(** ** One page fetch, and the whole search *)

Ltac page_logged :=
  intros [= <- <-]; eexists;
  (split; [cbn [log]; rewrite <- ?app_assoc; reflexivity|]);
  reflexivity.

(** A page fetch that comes back has sent exactly the request for its
    page. *)
Lemma engine_page_log (w : World) (e : EngineImpl) (query : string)
    (limit : Z) (k : nat) (st : State) (r : Results) (st' : State) :
  engine_page w e query limit k st = Ret r st' ->
  exists evs, log st' = log st ++ evs /\
              List.filter (is_page_fetch e) evs = [page_request e query k].
Proof.
  unfold engine_page, engine_searchPage. destruct e as [| | | |b].
  - unfold Bing.searchPage, bind. rewrite http_run. unfold ret.
    case_split; page_logged.
  - unfold DuckDuckGo.Search, bind. rewrite http_run. unfold ret.
    case_split; page_logged.
  - unfold Baidu.searchPage, bind. rewrite http_run. unfold ret.
    unfold Baidu.searchPageMobile, bind, ret.
    case_split; page_logged.
  - unfold Sogou.searchPage, bind. rewrite http_run. unfold ret.
    case_split; page_logged.
  - destruct st as [lg [m i p h c]].
    unfold Browser.searchPage, BrowserManager.NewTabContext,
      BrowserManager.Initialize, BrowserManager.Lock, BrowserManager.Unlock,
      BrowserManager.run_tab, bind, get_bm, set_bm, emit, ret, stop.
    destruct m, i; cbn; try discriminate.
    case_split; page_logged.
Qed.

Ltac page_checked :=
  intros [= <- <-]; cbn [fst snd]; intros Hnone; try discriminate Hnone.

(** The results of a page fetch carry the engine's stamp. *)
Lemma engine_page_emitted (decode : BrowserParse.Base64) (w : World)
    (e : EngineImpl) (query : string) (limit : Z) (k : nat) (st : State)
    (r : Results) (st' : State) :
  (forall b, e = BrowserEngineOf b -> BrowserParse.faithful decode w) ->
  engine_page w e query limit k st = Ret r st' ->
  snd r = None -> Forall (emitted_by e) (fst r).
Proof.
  intros Hfaith. unfold engine_page, engine_searchPage.
  destruct e as [| | | |b].
  - unfold Bing.searchPage, bind. rewrite http_run. unfold ret.
    case_split; page_checked.
    + apply Bing_regex_emitted.
    + apply Bing_parse_selectors_Forall;
        [apply Bing_parseItem_emitted | constructor].
  - unfold DuckDuckGo.Search, bind. rewrite http_run. unfold ret.
    case_split; page_checked. apply DuckDuckGo_parseResults_emitted.
  - unfold Baidu.searchPage, bind. rewrite http_run. unfold ret.
    unfold Baidu.searchPageMobile, bind, ret.
    case_split; page_checked;
      first [apply Baidu_parseMobileResults_emitted
            |apply Baidu_parseResults_emitted].
  - unfold Sogou.searchPage, bind. rewrite http_run. unfold ret.
    case_split; page_checked. apply Sogou_parseResults_emitted.
  - specialize (Hfaith b eq_refl).
    destruct st as [lg [m i p h c]].
    unfold Browser.searchPage, BrowserManager.NewTabContext,
      BrowserManager.Initialize, BrowserManager.Lock, BrowserManager.Unlock,
      BrowserManager.run_tab, bind, get_bm, set_bm, emit, ret, stop.
    destruct m, i; cbn; try discriminate.
    destruct (chrome_run w (length lg) _) as [html|err]; [|page_checked].
    rewrite Hfaith. unfold BrowserParse.parseHTML.
    destruct (html_parse w html) as [doc|err]; page_checked.
    apply Forall_forall. intros r Hr.
    destruct (browser_extract_kept decode w (Browser.variant b) doc r Hr)
      as (He & Hu & Hp & _).
    split; [exact He|]. split; [exact Hu|]. by intros _.
Qed.

Lemma filter_none {A} (f : A -> bool) (l : list A) :
  length (List.filter f l) = 0%nat -> List.filter f l = [].
Proof. by destruct (List.filter f l). Qed.

(** What a whole [Search] call leaves behind: the requests for the pages
    [0 .. n-1], in order and within the engine's cap; results that all
    satisfy what every page's results satisfy; and an error only with no
    result and after at most one page. *)
Lemma engine_Search_trace (Q : SearchResult -> Prop) (fuel : nat) (w : World)
    (e : EngineImpl) (query : string) (limit : Z) (st : State)
    (out : Results) (st' : State) :
  (forall k s r s', engine_page w e query limit k s = Ret r s' ->
                    snd r = None -> Forall Q (fst r)) ->
  engine_Search fuel w e query limit st = Ret out st' ->
  exists n evs,
    log st' = log st ++ evs /\
    List.filter (is_page_fetch e) evs = map (page_request e query) (seq 0 n) /\
    (n <= page_cap e)%nat /\
    Forall Q (fst out) /\
    (is_Some (snd out) -> fst out = [] /\ (n <= 1)%nat).
Proof.
  intros HQ.
  assert (Hpage : forall k s r s',
    engine_page w e query limit k s = Ret r s' ->
    exists evs, log s' = log s ++ evs /\
                List.filter (is_page_fetch e) evs = [page_request e query k] /\
                (snd r = None -> Forall Q (fst r))).
  { intros k s r s' E. destruct (engine_page_log _ _ _ _ _ _ _ _ E)
      as (evs & Hl & Hf).
    exists evs. split; [exact Hl|]. split; [exact Hf|]. by apply (HQ k s r s'). }
  assert (Hloop : forall s,
    paged_loop fuel (engine_page w e query limit) (engine_wrap e) (page_cap e)
               limit [] 0 s = Ret out st' ->
    (0 < page_cap e)%nat ->
    exists n evs,
      log st' = log s ++ evs /\
      List.filter (is_page_fetch e) evs = map (page_request e query) (seq 0 n) /\
      (n <= page_cap e)%nat /\
      Forall Q (fst out) /\
      (is_Some (snd out) -> fst out = [] /\ (n <= 1)%nat)).
  { intros s E Hcap.
    destruct (paged_loop_trace _ _ _ _ _ _ Q Hpage fuel [] 0 s out st'
                (List.Forall_nil _) E)
      as (n & evs & Hl & Hf & Hc & Hq & He).
    exists n, evs. split; [exact Hl|]. split; [exact Hf|].
    split; [specialize (Hc Hcap); lia|]. split; [exact Hq|].
    intros Hs. destruct (He Hs) as (H1 & _ & H3). split; [exact H1 | lia]. }
  destruct e as [| | | |b]; cbn [engine_Search].
  - unfold Bing.Search. intros E. apply (Hloop st); [|cbn; lia].
    rewrite <- E. symmetry. apply (Bing_loop_paged w query limit fuel [] 0%nat).
  - intros E.
    destruct (Hpage 0%nat st out st' E) as (evs & Hl & Hf & Hq).
    exists 1%nat, evs. split; [exact Hl|]. split; [exact Hf|].
    split; [cbn; lia|].
    assert (Hcase : snd out = None \/ (is_Some (snd out) /\ fst out = [])).
    { revert E. unfold DuckDuckGo.Search, bind. rewrite http_run. unfold ret.
      case_split; intros [= <- _]; cbn [fst snd];
        first [by left | right; split; [by eexists | reflexivity]]. }
    destruct Hcase as [Hn|[Hs Hnil]].
    + split; [by apply Hq|]. rewrite Hn. by intros [? ?].
    + split; [rewrite Hnil; constructor|]. intros _. split; [exact Hnil | lia].
  - unfold Baidu.Search, Baidu.warmup, bind. rewrite http_run. unfold ret.
    set (s1 := {| log := log st ++ [EvHttp BaiduHomeGet]; bm := bm st |}).
    intros E.
    assert (E' : paged_loop fuel (engine_page w BaiduEngine query limit)
                   (engine_wrap BaiduEngine) (page_cap BaiduEngine)
                   limit [] 0 s1 = Ret out st').
    { rewrite <- (Baidu_loop_paged w query limit fuel [] 0%nat s1).
      destruct (http_do w (length (log st)) BaiduHomeGet); exact E. }
    destruct (Hloop s1 E') as (n & evs & Hl & Hf & Hrest); [cbn; lia|].
    exists n, (EvHttp BaiduHomeGet :: evs).
    split; [rewrite Hl; unfold s1; cbn [log]; by rewrite <- app_assoc|].
    split; [exact Hf | exact Hrest].
  - unfold Sogou.Search. intros E. apply (Hloop st); [|cbn; lia].
    rewrite <- E. symmetry. apply (Sogou_loop_paged w query limit fuel [] 0%nat).
  - unfold Browser.Search, bind.
    destruct (mu (bm st)) eqn:Hmu.
    { unfold BrowserManager.Initialize, BrowserManager.Lock, bind, get_bm, stop.
      rewrite Hmu. discriminate. }
    destruct (Initialize_runs w (Browser.engineProxyURL b)
                (Browser.engineHeadless b) st Hmu)
      as (r & evs0 & s1 & E0 & Hl0 & Hf0 & _).
    rewrite E0. specialize (Hf0 (BrowserEngineOf b)).
    apply filter_none in Hf0.
    destruct r as [err|].
    + unfold ret. intros [= <- <-]. exists 0%nat, evs0.
      split; [exact Hl0|]. split; [exact Hf0|]. split; [lia|].
      split; [constructor|]. intros _. split; [reflexivity | lia].
    + intros E.
      assert (E' : paged_loop fuel (engine_page w (BrowserEngineOf b) query limit)
                     (engine_wrap (BrowserEngineOf b))
                     (page_cap (BrowserEngineOf b)) limit [] 0 s1 = Ret out st').
      { rewrite <- (Browser_loop_paged w b query limit fuel [] 0%nat s1);
          [exact E | lia]. }
      destruct (Hloop s1 E') as (n & evs & Hl & Hf & Hrest); [cbn; lia|].
      exists n, (evs0 ++ evs).
      split; [rewrite Hl, Hl0; by rewrite app_assoc|].
      split; [|exact Hrest].
      rewrite List.filter_app, Hf0. exact Hf.
Qed.
(** With a limit that is not negative, fuel for the engine's page cap and
    the browser manager's mutex free, [Search] comes back. *)
Lemma engine_Search_returns (fuel : nat) (w : World) (e : EngineImpl)
    (query : string) (limit : Z) (st : State) :
  0 <= limit -> (page_cap e <= fuel)%nat -> mu (bm st) = false ->
  exists out st', engine_Search fuel w e query limit st = Ret out st'.
Proof.
  intros Hl Hfuel Hmu.
  assert (Hloop : forall s, engine_ready e s -> e <> DuckDuckGoEngine ->
    exists out st',
      paged_loop fuel (engine_page w e query limit) (engine_wrap e)
                 (page_cap e) limit [] 0 s = Ret out st').
  { intros s Hready Hne.
    destruct (paged_loop_bounded (engine_page w e query limit) (engine_wrap e)
                (page_cap e) limit (is_page_fetch e) (engine_ready e) Hl
                (fun k s0 => engine_page_runs w e query limit k s0)
                fuel [] 0%nat s)
      as (out & evs & st' & E & _);
      [destruct e; cbn; try lia; congruence | lia | exact Hready |].
    by exists out, st'. }
  destruct e as [| | | |b]; cbn [engine_Search].
  - unfold Bing.Search. change 0 with (page_cursor BingEngine 0).
    rewrite Bing_loop_paged. by apply Hloop.
  - destruct (engine_page_runs w DuckDuckGoEngine query limit 0 st I)
      as (out & evs & st' & E & _).
    by exists out, st'.
  - unfold Baidu.Search, Baidu.warmup, bind. rewrite http_run. unfold ret.
    set (st1 := {| log := log st ++ [EvHttp BaiduHomeGet]; bm := bm st |}).
    change 0 with (page_cursor BaiduEngine 0).
    destruct (http_do w _ _); rewrite Baidu_loop_paged; by apply Hloop.
  - unfold Sogou.Search. change 1 with (page_cursor SogouEngine 0).
    rewrite Sogou_loop_paged. by apply Hloop.
  - unfold Browser.Search, bind.
    destruct (Initialize_runs w (Browser.engineProxyURL b)
                (Browser.engineHeadless b) st Hmu)
      as (r & evs0 & st1 & E0 & _ & _ & _ & Hmu1 & Hinit).
    rewrite E0. destruct r as [err|]; [by eexists _, _|].
    change 0 with (page_cursor (BrowserEngineOf b) 0).
    rewrite Browser_loop_paged by lia.
    apply Hloop; [exact (conj Hmu1 (Hinit eq_refl)) | discriminate].
Qed.

(** X13. With a limit that is not negative, fuel for the engine's page cap
    and the browser manager's mutex free, an engine's [Search] comes back;
    and whenever it comes back, the page requests it has sent are the
    requests for the pages 0, 1, ..., n-1 of the query, in this order and
    without repetition, with n at most the engine's cap: Bing asks for
    [first] = 1, 11, 21, ..., Baidu for [pn] = 0, 10, 20, ..., Sogou
    leaves the page parameter out of the first request and sends 2, 3, ...
    afterwards, a browser engine navigates to its offsets in turn. *)
Theorem X13_search_request_sequence (fuel : nat) (w : World) (e : EngineImpl)
    (query : string) (limit : Z) (st : State) :
  (0 <= limit -> (page_cap e <= fuel)%nat -> mu (bm st) = false ->
   exists out st', engine_Search fuel w e query limit st = Ret out st') /\
  (forall out st',
     engine_Search fuel w e query limit st = Ret out st' ->
     exists n evs,
       log st' = log st ++ evs /\
       (n <= page_cap e)%nat /\
       List.filter (is_page_fetch e) evs
         = map (page_request e query) (seq 0 n)).
Proof.
  split; [apply engine_Search_returns|].
  intros out st' E.
  destruct (engine_Search_trace (fun _ => True) fuel w e query limit st out st')
    as (n & evs & Hl & Hf & Hn & _); [|exact E|].
  - intros k s r s' _ _. apply Forall_forall. by intros.
  - by exists n, evs.
Qed.

Lemma X13_search_request_sequence_witness :
  exists out st' evs,
    engine_Search 6 Samples.one_per_page BingEngine "golang" 2 Samples.idle
      = Ret out st' /\
    log st' = log Samples.idle ++ evs /\
    List.filter (is_page_fetch BingEngine) evs
      = [EvHttp (BingGet "golang" 1); EvHttp (BingGet "golang" 11)].
Proof.
  destruct (proj1 (X13_search_request_sequence 6 Samples.one_per_page
                     BingEngine "golang" 2 Samples.idle)
              ltac:(lia) ltac:(apply Nat.le_refl) eq_refl)
    as (out & st' & E).
  destruct (proj2 (X13_search_request_sequence 6 Samples.one_per_page
                     BingEngine "golang" 2 Samples.idle) out st' E)
    as (n & evs & Hl & Hn & Hf).
  exists out, st', evs. split; [exact E|]. split; [exact Hl|].
  assert (E' : engine_Search 6 Samples.one_per_page BingEngine "golang" 2
                 Samples.idle
               = Ret ([{| Title := "Go"; URL := "https://go.dev/";
                          Description := "The Go programming language";
                          Source := ""; Engine := "bing" |};
                       {| Title := "Go"; URL := "https://go.dev/";
                          Description := "The Go programming language";
                          Source := ""; Engine := "bing" |}], None)
                     {| log := [EvHttp (BingGet "golang" 1);
                                EvHttp (BingGet "golang" 11)];
                        bm := BrowserManager.fresh |})
    by (vm_compute; reflexivity).
  rewrite E' in E. injection E as <- <-.
  cbn [log Samples.idle app] in Hl. subst evs. reflexivity.
Defined.

(** X14. An engine's [Search] reports an error only when it has nothing to
    return and at most one result page was asked for.  And in the paging
    loop of Bing, Baidu, Sogou and the browser engines, when the fetch of
    a page fails after results have been collected (fewer than the limit),
    the loop ends with exactly the results collected so far and no
    error. *)
Theorem X14_search_error_only_first_page (fuel : nat) (w : World)
    (e : EngineImpl) (query : string) (limit : Z) (st : State) :
  (forall rs err st',
     engine_Search fuel w e query limit st = Ret (rs, Some err) st' ->
     rs = [] /\
     exists evs, log st' = log st ++ evs /\ (page_fetches e evs <= 1)%nat) /\
  (forall loop acc cursor s rs err s1,
     engine_Search_loop (S fuel) w e query limit acc cursor = Some loop ->
     0 < count acc < limit ->
     (forall b, e = BrowserEngineOf b -> cursor < 3) ->
     engine_searchPage w e query limit cursor s = Ret (rs, Some err) s1 ->
     loop s = Ret (acc, None) s1).
Proof.
  split.
  - intros rs err st' E.
    destruct (engine_Search_trace (fun _ => True) fuel w e query limit st
                (rs, Some err) st')
      as (n & evs & Hl & Hf & _ & _ & He); [|exact E|].
    + intros k s r s' _ _. apply Forall_forall. by intros.
    + cbn [fst snd] in He. destruct He as [Hnil Hn]; [by eexists|].
      split; [exact Hnil|]. exists evs. split; [exact Hl|].
      unfold page_fetches. rewrite Hf, length_map, length_seq. exact Hn.
  - intros loop acc cursor s rs err s1 Hloop [Hpos Hlt] Hcur Hpage.
    assert (Hc : (count acc <? limit) = true) by (apply Z.ltb_lt; lia).
    assert (Hg : (count acc >? 0) = true) by (apply Z.gtb_lt; lia).
    destruct e as [| | | |b]; cbn [engine_Search_loop engine_searchPage] in *;
      try discriminate; injection Hloop as <-.
    + cbn [Bing.Search_loop]. rewrite Hc. cbn [negb]. unfold bind.
      rewrite Hpage, Hg. by apply truncate_below.
    + cbn [Baidu.Search_loop]. rewrite Hc. cbn [negb]. unfold bind.
      rewrite Hpage, Hg. destruct (_ || _); by apply truncate_below.
    + cbn [Sogou.Search_loop]. rewrite Hc. cbn [negb]. unfold bind.
      rewrite Hpage, Hg. by apply truncate_below.
    + assert (Hp : (cursor <? 3) = true)
        by (apply Z.ltb_lt; by apply (Hcur b)).
      cbn [Browser.Search_loop]. rewrite Hc, Hp. cbn [negb andb]. unfold bind.
      rewrite Hpage, Hg. by apply truncate_below.
Qed.

Lemma X14_search_error_only_first_page_witness :
  let first := EvHttp (BingGet "golang" 1) in
  let second := EvHttp (BingGet "golang" 11) in
  Bing.Search 6 FlakySamples.world "golang" 5 Samples.idle
    = Ret (FlakySamples.first_page, None) (FlakySamples.after [first; second]) /\
  Bing.Search_loop 6 FlakySamples.world "golang" 5 FlakySamples.first_page 1
                   (FlakySamples.after [first])
    = Ret (FlakySamples.first_page, None) (FlakySamples.after [first; second]).
Proof.
  intros first second.
  split; [vm_compute; reflexivity|].
  apply (proj2 (X14_search_error_only_first_page 5 FlakySamples.world
                  BingEngine "golang" 5 Samples.idle)
           _ FlakySamples.first_page 1 (FlakySamples.after [first])
           [] "request failed: connection reset by peer"
           (FlakySamples.after [first; second]) eq_refl).
  - split; reflexivity.
  - intros b Hb. discriminate Hb.
  - vm_compute. reflexivity.
Defined.

(** X15. Every result an engine's [Search] returns carries the engine's
    own name and a link that is not empty and, Sogou apart, begins with
    [http]; for a browser engine this supposes that the page was parsed by
    the engine's parseHTML. *)
Theorem X15_search_results_stamped (decode : BrowserParse.Base64) (fuel : nat)
    (w : World) (e : EngineImpl) (query : string) (limit : Z) (st : State)
    (out : Results) (st' : State) :
  (forall b, e = BrowserEngineOf b -> BrowserParse.faithful decode w) ->
  engine_Search fuel w e query limit st = Ret out st' ->
  Forall (fun r => Engine r = engine_Name e /\ URL r <> "" /\
                   (e <> SogouEngine -> HasPrefix (URL r) "http" = true))
         (fst out).
Proof.
  intros Hfaith E.
  destruct (engine_Search_trace (emitted_by e) fuel w e query limit st out st')
    as (n & evs & _ & _ & _ & Hq & _); [|exact E|exact Hq].
  intros k s r s'. by apply (engine_page_emitted decode).
Qed.

Lemma BrowserSamples_faithful :
  BrowserParse.faithful BrowserSamples.no_redirects BrowserSamples.world.
Proof. intros v html. destruct v; reflexivity. Qed.

Lemma X15_search_results_stamped_witness :
  exists out st',
    engine_Search 3 BrowserSamples.world BrowserSamples.google "golang" 1
                  Samples.idle = Ret out st' /\
    length (fst out) = 1%nat /\
    Forall (fun r => Engine r = "browser_google" /\ URL r <> "" /\
                     (BrowserSamples.google <> SogouEngine ->
                      HasPrefix (URL r) "http" = true))
           (fst out).
Proof.
  assert (E : engine_Search 3 BrowserSamples.world BrowserSamples.google
                "golang" 1 Samples.idle
              = Ret ([{| Title := "Go"; URL := "https://go.dev/";
                         Description := ""; Source := "";
                         Engine := "browser_google" |}], None)
                    {| log := [EvStat; EvLaunch "" true;
                               EvTab (Navigate "browser_google" "golang" 0)];
                       bm := mkBM false true "" true true |})
    by (vm_compute; reflexivity).
  eexists _, _. split; [exact E|]. split; [reflexivity|].
  refine (X15_search_results_stamped BrowserSamples.no_redirects
            _ _ _ _ _ _ _ _ _ E).
  intros b _. exact BrowserSamples_faithful.
Defined.
(** ** Limits that are not positive *)

Lemma truncate_nothing (limit : Z) (st : State) :
  limit <= 0 ->
  (count [] <? limit) = false /\
  truncate limit [] st
    = if limit <? 0 then Stop Panicked st else Ret ([], None) st.
Proof.
  intros H. unfold truncate, count, stop, ret. cbn [length].
  change (Z.of_nat 0) with 0.
  split; [apply Z.ltb_ge; lia|].
  destruct (Z.gtb_spec 0 limit), (Z.ltb_spec limit 0); try lia; reflexivity.
Qed.

(** X16. Called with limit 0, Bing and Sogou return the empty sequence
    without asking for a page, and so does Baidu after its warm-up
    request; called with a negative limit they panic, because the code
    after the loop slices the empty sequence at a negative bound.  A
    browser engine first initializes the browser: when that fails it
    returns the initialization error whatever the limit, and otherwise it
    behaves like the others, asking for no page.  DuckDuckGo sends its
    request and returns nothing.  The coordinator never passes such a
    limit: it replaces it by 10. *)
Theorem X16_nonpositive_limit (fuel : nat) (w : World) (query : string)
    (limit : Z) (st : State) :
  limit <= 0 ->
  let leave := fun s : State =>
    if limit <? 0 then Stop Panicked s else Ret (@nil SearchResult, @None error) s in
  Bing.Search fuel w query limit st = leave st /\
  Sogou.Search fuel w query limit st = leave st /\
  Baidu.Search fuel w query limit st
    = leave {| log := log st ++ [EvHttp BaiduHomeGet]; bm := bm st |} /\
  (forall b, mu (bm st) = false ->
     exists r st1,
       BrowserManager.Initialize w (Browser.engineProxyURL b)
                                 (Browser.engineHeadless b) st = Ret r st1 /\
       page_fetches (BrowserEngineOf b) (log st1)
         = page_fetches (BrowserEngineOf b) (log st) /\
       Browser.Search fuel w b query limit st
         = match r with
           | Some err =>
               Ret ([], Some ("failed to initialize browser: " +:+ err)) st1
           | None => leave st1
           end) /\
  (forall b, mu (bm st) = false -> initialized (bm st) = true ->
             Browser.Search fuel w b query limit st = leave st) /\
  (forall rs oerr st',
     DuckDuckGo.Search w query limit st = Ret (rs, oerr) st' -> rs = []) /\
  (forall req, 0 < Manager.effective_limit req).
Proof.
  intros H leave.
  assert (Hleave : forall s,
            (count [] <? limit) = false /\ truncate limit [] s = leave s)
    by (intros s; by apply truncate_nothing).
  split; [|split; [|split; [|split; [|split; [|split]]]]].
  - unfold Bing.Search. destruct (Hleave st) as [Hc Ht].
    destruct fuel; cbn [Bing.Search_loop]; rewrite Hc; exact Ht.
  - unfold Sogou.Search. destruct (Hleave st) as [Hc Ht].
    destruct fuel; cbn [Sogou.Search_loop]; rewrite Hc; exact Ht.
  - unfold Baidu.Search, Baidu.warmup, bind. rewrite http_run. unfold ret.
    set (s1 := {| log := log st ++ [EvHttp BaiduHomeGet]; bm := bm st |}).
    destruct (Hleave s1) as [Hc Ht].
    destruct (http_do w (length (log st)) BaiduHomeGet);
      destruct fuel; cbn [Baidu.Search_loop]; rewrite Hc; exact Ht.
  - intros b Hmu.
    destruct (Initialize_runs w (Browser.engineProxyURL b)
                (Browser.engineHeadless b) st Hmu)
      as (r & evs & st1 & E0 & Hlog & Hev & _).
    exists r, st1. split; [exact E0|]. split.
    + unfold page_fetches. rewrite Hlog, List.filter_app, length_app, Hev. lia.
    + unfold Browser.Search, bind. rewrite E0.
      destruct r as [err|]; [reflexivity|].
      destruct (Hleave st1) as [Hc Ht].
      destruct fuel; cbn [Browser.Search_loop]; rewrite Hc; exact Ht.
  - intros b Hmu Hinit. unfold Browser.Search, bind.
    rewrite (Initialize_ready_noop w _ _ st Hinit Hmu).
    destruct (Hleave st) as [Hc Ht].
    destruct fuel; cbn [Browser.Search_loop]; rewrite Hc; exact Ht.
  - intros rs oerr st'. unfold DuckDuckGo.Search, bind. rewrite http_run.
    unfold ret. case_split; intros [= <- _ _]; try reflexivity.
    unfold DuckDuckGo.parseResults. rewrite DuckDuckGo_each_firstn.
    replace (Z.to_nat (limit - count [])) with 0%nat
      by (unfold count; simpl; lia).
    reflexivity.
  - intros req. unfold Manager.effective_limit.
    destruct (Z.leb_spec (Limit req) 0); lia.
Qed.

Lemma X16_nonpositive_limit_witness :
  let google := {| Browser.variant := Browser.google_variant;
                   Browser.engineProxyURL := "";
                   Browser.engineHeadless := true |} in
  Bing.Search 6 Samples.one_per_page "golang" 0 Samples.idle
    = Ret ([], None) Samples.idle /\
  Bing.Search 6 Samples.one_per_page "golang" (-1) Samples.idle
    = Stop Panicked Samples.idle /\
  Browser.Search 3 Samples.no_chrome google "golang" (-1) Samples.idle
    = Ret ([], Some "failed to initialize browser: Chrome/Chromium not found. Please install Chrome browser")
          {| log := [EvStat]; bm := BrowserManager.fresh |} /\
  Browser.Search 3 (Samples.world []) google "golang" (-1) Samples.idle
    = Stop Panicked {| log := [EvStat; EvLaunch "" true];
                       bm := mkBM false true "" true true |}.
Proof.
  intros google.
  split; [|split; [|split]].
  - exact (proj1 (X16_nonpositive_limit 6 Samples.one_per_page "golang" 0
                    Samples.idle ltac:(lia))).
  - exact (proj1 (X16_nonpositive_limit 6 Samples.one_per_page "golang" (-1)
                    Samples.idle ltac:(lia))).
  - destruct (proj1 (proj2 (proj2 (proj2
                (X16_nonpositive_limit 3 Samples.no_chrome "golang" (-1)
                   Samples.idle ltac:(lia))))) google eq_refl)
      as (r & st1 & E0 & _ & Es).
    rewrite Es. vm_compute in E0. injection E0 as <- <-. reflexivity.
  - destruct (proj1 (proj2 (proj2 (proj2
                (X16_nonpositive_limit 3 (Samples.world []) "golang" (-1)
                   Samples.idle ltac:(lia))))) google eq_refl)
      as (r & st1 & E0 & _ & Es).
    rewrite Es. vm_compute in E0. injection E0 as <- <-. reflexivity.
Defined.
(** ** ExecuteWithRetry *)

Lemma wrap64_small (z : Z) :
  0 <= z <= 9223372036000000000 -> Retry.wrap64 z = z.
Proof.
  intros H. unfold Retry.wrap64.
  change (2 ^ 63) with 9223372036854775808.
  change (2 ^ 64) with 18446744073709551616.
  rewrite Z.mod_small; lia.
Qed.

Lemma retry_failed_attempt (i d : Z) (trace : list Retry.Action) :
  Retry.attempts (Retry.Attempt i :: Retry.Sleep d :: trace)
    = i :: Retry.attempts trace /\
  Retry.slept (Retry.Attempt i :: Retry.Sleep d :: trace)
    = d + Retry.slept trace.
Proof. split; reflexivity. Qed.

Lemma retry_loop_spec (run : Z -> option error) (maxRetries : Z) (fuel : nat) :
  maxRetries <= 9223372036 ->
  forall i lastErr,
    0 <= i -> (Z.to_nat (maxRetries - i) <= fuel)%nat ->
    exists r trace,
      Retry.loop fuel run maxRetries i lastErr = Some (r, trace) /\
      (maxRetries <= i -> r = lastErr /\ trace = []) /\
      (forall k, i <= k < maxRetries -> run k = None ->
         (forall j, i <= j < k -> run j <> None) ->
         r = None /\ Retry.attempts trace = seqZ i (k + 1 - i) /\
         2 * Retry.slept trace = Retry.Second * (k * (k + 1) - i * (i + 1))) /\
      (i < maxRetries -> (forall j, i <= j < maxRetries -> run j <> None) ->
         r = run (maxRetries - 1) /\
         Retry.attempts trace = seqZ i (maxRetries - i) /\
         2 * Retry.slept trace
           = Retry.Second * (maxRetries * (maxRetries + 1) - i * (i + 1))).
Proof.
  intros Hmax. unfold Retry.Second.
  induction fuel as [|fuel IH]; intros i lastErr Hi Hfuel; simpl;
    destruct (Z.ltb_spec i maxRetries) as [Hlt|Hge];
    try lia;
    try (exists lastErr, []; split; [reflexivity|];
         split; [by intros _|]; split; [intros k Hk; lia | intros Hk; lia]).
  destruct (run i) as [err|] eqn:R.
  - destruct (IH (i + 1) (Some err) ltac:(lia) ltac:(lia))
      as (r & trace & E & H1 & H2 & H3).
    rewrite E. eexists r, _. split; [reflexivity|].
    assert (Hw : Retry.wrap64 (Retry.Second * (i + 1)) = 1000000000 * (i + 1))
      by (unfold Retry.Second; apply wrap64_small; lia).
    split; [intros Hc; lia|]. split.
    + intros k Hk Hrun Hfail.
      assert (Hki : k <> i) by (intros ->; congruence).
      destruct (H2 k ltac:(lia) Hrun) as (Hr & Ha & Hs);
        [intros j Hj; apply Hfail; lia|].
      split; [exact Hr|]. split.
      * rewrite (proj1 (retry_failed_attempt _ _ _)), Ha.
        rewrite (seqZ_cons i (k + 1 - i)) by lia.
        f_equal. f_equal; lia.
      * rewrite (proj2 (retry_failed_attempt _ _ _)), Hw. lia.
    + intros _ Hfail.
      destruct (Z.eq_dec (i + 1) maxRetries) as [Hlast|Hmore].
      * destruct (H1 ltac:(lia)) as [-> ->].
        split; [rewrite <- R; f_equal; lia|].
        split.
        -- replace (maxRetries - i) with 1 by lia. reflexivity.
        -- rewrite (proj2 (retry_failed_attempt _ _ _)), Hw.
           subst maxRetries. cbn [Retry.slept fold_right]. lia.
      * destruct (H3 ltac:(lia)) as (Hr & Ha & Hs);
          [intros j Hj; apply Hfail; lia|].
        split; [exact Hr|]. split.
        -- rewrite (proj1 (retry_failed_attempt _ _ _)), Ha.
           rewrite (seqZ_cons i (maxRetries - i)) by lia.
           f_equal. f_equal; lia.
        -- rewrite (proj2 (retry_failed_attempt _ _ _)), Hw. lia.
  - exists None, [Retry.Attempt i]. split; [reflexivity|].
    split; [intros Hc; lia|]. split.
    + intros k Hk Hrun Hfail.
      destruct (Z.eq_dec k i) as [->|Hki].
      * split; [reflexivity|]. split.
        -- replace (i + 1 - i) with 1 by lia. reflexivity.
        -- cbn. lia.
      * exfalso. apply (Hfail i); [lia | exact R].
    + intros _ Hfail. exfalso. apply (Hfail i); [lia | exact R].
Qed.

(** X17. [ExecuteWithRetry] runs the actions until they succeed, at most
    [maxRetries] times.  With [maxRetries] not positive it reports success
    without running them once.  When attempt [k] is the first to succeed
    it returns no error after [k + 1] runs and pauses of 1, 2, ..., [k]
    seconds.  When every attempt fails it returns the error of the last
    one, having paused after each failure, the last one included:
    [maxRetries * (maxRetries + 1) / 2] seconds in all.  (For [maxRetries]
    up to 9223372036, where no pause overflows [time.Duration].) *)
Theorem X17_retry_schedule (fuel : nat) (run : Z -> option error)
    (maxRetries : Z) :
  (Z.to_nat maxRetries <= fuel)%nat ->
  maxRetries <= 9223372036 ->
  exists r trace,
    Retry.ExecuteWithRetry fuel run maxRetries = Some (r, trace) /\
    (maxRetries <= 0 -> r = None /\ trace = []) /\
    (forall k, 0 <= k < maxRetries -> run k = None ->
       (forall j, 0 <= j < k -> run j <> None) ->
       r = None /\ Retry.attempts trace = seqZ 0 (k + 1) /\
       2 * Retry.slept trace = Retry.Second * (k * (k + 1))) /\
    (0 < maxRetries -> (forall j, 0 <= j < maxRetries -> run j <> None) ->
       r = run (maxRetries - 1) /\
       Retry.attempts trace = seqZ 0 maxRetries /\
       2 * Retry.slept trace = Retry.Second * (maxRetries * (maxRetries + 1))).
Proof.
  intros Hfuel Hmax. unfold Retry.ExecuteWithRetry.
  destruct (retry_loop_spec run maxRetries fuel Hmax 0 None ltac:(lia))
    as (r & trace & E & H1 & H2 & H3);
    [by rewrite Z.sub_0_r|].
  exists r, trace. split; [exact E|]. split; [exact H1|]. split.
  - intros k Hk Hrun Hfail. destruct (H2 k Hk Hrun Hfail) as (Hr & Ha & Hs).
    split; [exact Hr|]. split.
    + by rewrite Z.sub_0_r in Ha.
    + rewrite Hs. lia.
  - intros Hpos Hfail. destruct (H3 Hpos Hfail) as (Hr & Ha & Hs).
    split; [exact Hr|]. split.
    + by rewrite Z.sub_0_r in Ha.
    + rewrite Hs. lia.
Qed.

Lemma X17_retry_schedule_witness :
  let run := fun i : Z => if i <? 2 then Some "timeout" else @None error in
  exists r trace,
    Retry.ExecuteWithRetry 3 run 3 = Some (r, trace) /\
    r = None /\ Retry.attempts trace = [0; 1; 2] /\
    2 * Retry.slept trace = Retry.Second * (2 * (2 + 1)).
Proof.
  intros run.
  destruct (X17_retry_schedule 3 run 3 ltac:(apply Nat.le_refl) ltac:(lia))
    as (r & trace & E & _ & H2 & _).
  exists r, trace. split; [exact E|].
  apply (H2 2); [lia | reflexivity |].
  intros j Hj. unfold run.
  destruct (Z.ltb_spec j 2); [discriminate | lia].
Defined.
(** ** Closing the browser *)

(** X18. [Close], called while nobody holds the mutex, comes back with the
    manager uninitialized and everything else as it was, whatever the
    state before.  The next [Initialize] then runs a whole initialization
    sequence again, with the settings it is given, whereas on an
    initialized manager it would have ignored them. *)
Theorem X18_close_reinitialize (w : World) (proxy : string) (hl : bool)
    (st : State) :
  mu (bm st) = false ->
  exists st1,
    BrowserManager.Close st = Ret tt st1 /\
    st1 = {| log := log st;
             bm := {| mu := false; initialized := false;
                      proxyURL := proxyURL (bm st); headless := headless (bm st);
                      hasContexts := hasContexts (bm st) |} |} /\
    BrowserManager.IsInitialized st1 = Ret false st1 /\
    (BrowserManager.launches w ->
     BrowserManager.Initialize w proxy hl st1
       = Ret None {| log := log st ++ [EvStat; EvLaunch proxy hl];
                     bm := {| mu := false; initialized := true;
                              proxyURL := proxy; headless := hl;
                              hasContexts := true |} |}) /\
    (initialized (bm st) = true ->
     BrowserManager.Initialize w proxy hl st = Ret None st).
Proof.
  destruct st as [lg [m i p h c]]. cbn [bm mu log]. intros ->.
  eexists. split; [reflexivity|]. cbn.
  split; [reflexivity|]. split; [reflexivity|]. split.
  - intros Hw.
    unfold BrowserManager.Initialize, BrowserManager.Initialize_locked,
      BrowserManager.Lock, BrowserManager.Unlock, BrowserManager.findChromePath,
      bind, get_bm, set_bm, emit, ret. cbn.
    destruct (Hw (length lg)) as [Hpath _].
    apply String.eqb_neq in Hpath. rewrite Hpath. cbn.
    match goal with
    | |- context [chrome_start w ?i] =>
        destruct (Hw i) as [_ Hstart]; rewrite Hstart
    end.
    cbn. by rewrite <- app_assoc.
  - intros ->. reflexivity.
Qed.

Lemma X18_close_reinitialize_witness :
  let st := BrowserManager.shared Samples.two_succeeded in
  exists st1,
    BrowserManager.Close st = Ret tt st1 /\
    initialized (bm st1) = false /\
    BrowserManager.Initialize (Samples.world []) "http://127.0.0.1:7890" false st1
      = Ret None {| log := [EvStat; EvLaunch "" true; EvStat;
                            EvLaunch "http://127.0.0.1:7890" false];
                    bm := mkBM false true "http://127.0.0.1:7890" false true |}.
Proof.
  intros st.
  destruct (X18_close_reinitialize (Samples.world []) "http://127.0.0.1:7890"
              false st eq_refl) as (st1 & E & Hst & _ & Hinit & _).
  exists st1. split; [exact E|]. split; [by rewrite Hst|].
  apply Hinit. intros i. split; [discriminate | reflexivity].
Defined.
(** ** The MCP handler *)

Lemma handleSearch_answers (env : mcp.Env) (args : gmap string mcp.JSON) :
  exists r, mcp.handleSearch env args = (Some r, None).
Proof.
  unfold mcp.handleSearch.
  destruct (String.eqb _ ""); [by eexists|].
  destruct (mcp.search env _) as [results [err|]]; [by eexists|].
  destruct (mcp.marshalResults env results); by eexists.
Qed.

(** X19. [handleSearch] never returns a Go error.  Without a non-empty
    string under [query] it answers [query is required] as a tool error,
    whatever the engines would say.  Otherwise it asks the coordinator
    with that query; the limit the coordinator then works with is the
    number under [limit] cut off towards zero when that is positive, and
    10 when [limit] is missing, not a number, zero or negative; the engine
    names are the strings of the array under [engines], other entries
    being dropped, and the default engine when there is none. *)
Theorem X19_handleSearch_request (env : mcp.Env) (m : Manager.Manager)
    (args : gmap string mcp.JSON) :
  let req := mcp.searchRequest args in
  (exists r, mcp.handleSearch env args = (Some r, None)) /\
  (Query req = "" ->
   mcp.handleSearch env args
     = (Some (mcp.textResult true "query is required"), None)) /\
  (Query req <> "" ->
   mcp.handleSearch env args
     = match mcp.search env req with
       | (_, Some err) =>
           (Some (mcp.textResult true ("Search failed: " +:+ err)), None)
       | (results, None) =>
           match mcp.marshalResults env results with
           | inr err =>
               (Some (mcp.textResult true ("Failed to format results: " +:+ err)),
                None)
           | inl text => (Some (mcp.textResult false text), None)
           end
       end) /\
  (forall s, args !! "query" = Some (mcp.JString s) -> Query req = s) /\
  (forall v, args !! "query" = Some v -> (forall s, v <> mcp.JString s) ->
             Query req = "") /\
  (args !! "query" = None -> Query req = "") /\
  Manager.effective_limit req
    = match args !! "limit" with
      | Some (mcp.JNumber l) => if 0 <? mcp.int l then mcp.int l else 10
      | _ => 10
      end /\
  Manager.effective_engines m req
    = match args !! "engines" with
      | Some (mcp.JArray e) =>
          if decide (mcp.strings_of e = [])
          then [config.DefaultEngine (Manager.cfg m)]
          else mcp.strings_of e
      | _ => [config.DefaultEngine (Manager.cfg m)]
      end.
Proof.
  cbv zeta. unfold mcp.handleSearch, mcp.searchRequest. cbn [Query Limit Engines].
  set (query := match args !! "query" with
                | Some (mcp.JString s) => s
                | _ => ""
                end).
  split; [|split; [|split; [|split; [|split; [|split; [|split]]]]]].
  - apply handleSearch_answers.
  - intros ->. reflexivity.
  - intros Hq. apply String.eqb_neq in Hq. rewrite Hq. reflexivity.
  - intros s Hs. unfold query. by rewrite Hs.
  - intros v Hv Hns. unfold query. rewrite Hv.
    destruct v; try reflexivity. by destruct (Hns s).
  - intros Hn. unfold query. by rewrite Hn.
  - unfold Manager.effective_limit. cbn [Limit].
    destruct (args !! "limit") as [[| |l| | |]|]; try reflexivity.
    destruct (Z.leb_spec (mcp.int l) 0), (Z.ltb_spec 0 (mcp.int l));
      try lia; reflexivity.
  - unfold Manager.effective_engines, config.GetDefaultSearchEngine.
    cbn [Engines].
    destruct (args !! "engines") as [[| | | |e|]|]; try reflexivity.
    destruct (mcp.strings_of e); reflexivity.
Qed.
Ltac split_method req :=
  repeat match goal with
         | |- context [String.eqb (mcp.Method req) ?a] =>
             destruct (String.eqb_spec (mcp.Method req) a)
         end.

(** X20. Except for the notification [notifications/initialized], which
    gets the empty response, every answer of [HandleRequest] is a JSON-RPC
    2.0 response that repeats the request's id and carries either a result
    or an error, never both and never neither; every error has the code
    -32603, and a method that is not known is answered with such an error
    naming the method. *)
Theorem X20_HandleRequest_envelope (cfg : configfile.FileConfig)
    (env : mcp.Env) (req : mcp.JSONRPCRequest) :
  let resp := mcp.HandleRequest cfg env req in
  (mcp.Method req = "notifications/initialized" ->
   resp = {| mcp.ResponseJSONRPC := ""; mcp.ResponseID := mcp.JNull;
             mcp.Result := None; mcp.Error := None |}) /\
  (mcp.Method req <> "notifications/initialized" ->
   mcp.ResponseJSONRPC resp = "2.0" /\
   mcp.ResponseID resp = mcp.ID req /\
   (mcp.Error resp = None <-> is_Some (mcp.Result resp)) /\
   (forall e, mcp.Error resp = Some e -> mcp.Code e = -32603)) /\
  (mcp.Method req ∉ ["initialize"; "notifications/initialized"; "tools/list";
                     "tools/call"; "resources/list"; "prompts/list"] ->
   mcp.Error resp
     = Some {| mcp.Code := -32603;
               mcp.Message := "unknown method: " +:+ mcp.Method req |}).
Proof.
  cbv zeta. unfold mcp.HandleRequest.
  split; [|split].
  - intros E. rewrite E. reflexivity.
  - intros Hn. split_method req; try contradiction;
      try destruct (mcp.handleToolsCall cfg env (mcp.Params req))
        as [result [err|]];
      cbn; (split; [reflexivity|]); (split; [reflexivity|]);
      first [ split; [split; [intros _; by eexists | reflexivity]
                     |intros ? ?; discriminate]
            | split; [split; [discriminate | by intros [? ?]]
                     |intros ? [= <-]; reflexivity] ].
  - intros Hn. split_method req; try reflexivity;
      exfalso; apply Hn;
      match goal with E : mcp.Method req = _ |- _ => rewrite E end;
      apply list_elem_of_In; simpl; tauto.
Qed.

(** X21. [tools/list] advertises one tool, under the configured name, with
    [query] as its only required argument, 10 as the default of [limit]
    and the valid engine names as the values of [engines]; [tools/call]
    hands exactly a call of that name to [handleSearch] and answers any
    other name [Unknown tool] as a tool error.  Once the parameters
    decode, a [tools/call] request is never answered with a JSON-RPC
    error: failures come back inside the result. *)
Theorem X21_advertised_tool_callable (cfg : configfile.FileConfig)
    (env : mcp.Env) (req : mcp.JSONRPCRequest) (paramsBytes : string)
    (callParams : mcp.CallToolParams) :
  mcp.Method req = "tools/call" ->
  mcp.marshalParams env (mcp.Params req) = inl paramsBytes ->
  mcp.unmarshalParams env paramsBytes = inl callParams ->
  (exists tool,
     mcp.GetTools cfg = [tool] /\
     mcp.Required (mcp.Schema tool) = ["query"] /\
     (exists d, ("limit", d) ∈ mcp.Properties (mcp.Schema tool) /\
                mcp.Default d = Some 10) /\
     (exists d, ("engines", d) ∈ mcp.Properties (mcp.Schema tool) /\
                mcp.Enum d = config.ValidEngines)) /\
  (mcp.Name callParams ∈ map mcp.ToolName (mcp.GetTools cfg) ->
   mcp.handleToolsCall cfg env (mcp.Params req)
     = mcp.handleSearch env (mcp.Arguments callParams)) /\
  (mcp.Name callParams ∉ map mcp.ToolName (mcp.GetTools cfg) ->
   mcp.handleToolsCall cfg env (mcp.Params req)
     = (Some (mcp.textResult true ("Unknown tool: " +:+ mcp.Name callParams)),
        None)) /\
  exists r,
    mcp.HandleRequest cfg env req
      = {| mcp.ResponseJSONRPC := "2.0"; mcp.ResponseID := mcp.ID req;
           mcp.Result := Some (mcp.ToolResult (Some r)); mcp.Error := None |}.
Proof.
  intros Hm Hp Hu.
  assert (Hcall : mcp.handleToolsCall cfg env (mcp.Params req)
                  = if String.eqb (mcp.Name callParams)
                         (configfile.SearchName
                            (configfile.Tools (configfile.MCP cfg)))
                    then mcp.handleSearch env (mcp.Arguments callParams)
                    else (Some (mcp.textResult true
                                  ("Unknown tool: " +:+ mcp.Name callParams)),
                          None)).
  { unfold mcp.handleToolsCall. by rewrite Hp, Hu. }
  split; [|split; [|split]].
  - eexists. split; [reflexivity|]. cbn. split; [reflexivity|].
    split; eexists.
    + split; [apply list_elem_of_In; simpl; right; left; reflexivity|].
      reflexivity.
    + split; [apply list_elem_of_In; simpl; right; right; left; reflexivity|].
      reflexivity.
  - cbn. intros Hin. apply list_elem_of_singleton in Hin.
    rewrite Hcall, Hin, String.eqb_refl. reflexivity.
  - cbn. intros Hnot. rewrite Hcall.
    destruct (String.eqb_spec (mcp.Name callParams)
                (configfile.SearchName (configfile.Tools (configfile.MCP cfg))))
      as [E|E]; [|reflexivity].
    exfalso. apply Hnot. rewrite E. by apply list_elem_of_singleton.
  - unfold mcp.HandleRequest. rewrite Hm. cbn. rewrite Hcall.
    destruct (String.eqb _ _); [|by eexists].
    destruct (handleSearch_answers env (mcp.Arguments callParams)) as [r ->].
    by eexists.
Qed.

Lemma X21_advertised_tool_callable_witness :
  let callParams :=
    {| mcp.Name := "search";
       mcp.Arguments := ({["query" := mcp.JString "golang"]} : gmap string mcp.JSON) |} in
  let env := {| mcp.marshalParams := fun _ => inl "{}";
                mcp.unmarshalParams := fun _ => inl callParams;
                mcp.marshalResults := fun _ => inl "[]";
                mcp.search := fun _ => ([], None) |} in
  let req := {| mcp.JSONRPC := "2.0"; mcp.ID := mcp.JString "1";
                mcp.Method := "tools/call"; mcp.Params := mcp.JNull |} in
  mcp.handleToolsCall configfile.DefaultConfig env (mcp.Params req)
    = mcp.handleSearch env (mcp.Arguments callParams).
Proof.
  intros callParams env req.
  apply (X21_advertised_tool_callable configfile.DefaultConfig env req "{}"
           callParams eq_refl eq_refl eq_refl).
  left.
Defined.
(** ** The HTTP server's sessions *)

(** X22. The life of a session: an [initialize] request posted without a
    session header enters a new session under a fresh identifier and
    returns the identifier in the response header; a GET with that
    identifier is then given the event stream; a DELETE with it removes
    the session, after which the same GET is refused as
    [Invalid session ID]. *)
Theorem X22_session_lifecycle (cfg : configfile.FileConfig) (env : mcp.Env)
    (s : server.Server) (post get del : server.HttpRequest)
    (req : mcp.JSONRPCRequest) :
  server.HttpMethod post = "POST" ->
  server.Body post = inl req ->
  mcp.Method req = "initialize" ->
  server.SessionHeader post = "" ->
  server.uuid post <> "" ->
  server.HttpMethod get = "GET" ->
  server.SessionHeader get = server.uuid post ->
  server.canFlush get = true ->
  server.HttpMethod del = "DELETE" ->
  server.SessionHeader del = server.uuid post ->
  let '(s1, r1) := server.handleMCP cfg env s post in
  let '(s2, r2) := server.handleMCP cfg env s1 get in
  let '(s3, r3) := server.handleMCP cfg env s2 del in
  let '(s4, r4) := server.handleMCP cfg env s3 get in
  r1 = server.Json (Some (server.uuid post)) (mcp.HandleRequest cfg env req) /\
  server.sessions s1 !! server.uuid post
    = Some {| server.SessionID := server.uuid post;
              server.CreatedAt := server.now post |} /\
  r2 = server.EventStream /\ s2 = s1 /\
  r3 = server.Status 200 /\
  server.sessions s3 = delete (server.uuid post) (server.sessions s) /\
  r4 = server.HttpError 400 "Invalid session ID" /\ s4 = s3.
Proof.
  intros Hpost Hbody Hinit Hnone Hid Hget Hgs Hflush Hdel Hds.
  unfold server.handleMCP, server.handleMCPPost, server.handleMCPGet,
    server.handleMCPDelete.
  rewrite Hpost, Hget, Hdel, Hbody, Hinit, Hnone, Hgs, Hds. cbn.
  apply String.eqb_neq in Hid. rewrite Hid.
  rewrite lookup_insert_eq, Hflush. cbn.
  rewrite lookup_delete_eq, delete_insert_eq.
  by repeat split.
Qed.

Lemma X22_session_lifecycle_witness :
  let env := {| mcp.marshalParams := fun _ => inl "{}";
                mcp.unmarshalParams := fun _ => inr "unexpected end of JSON input";
                mcp.marshalResults := fun _ => inl "[]";
                mcp.search := fun _ => ([], None) |} in
  let req := {| mcp.JSONRPC := "2.0"; mcp.ID := mcp.JString "1";
                mcp.Method := "initialize"; mcp.Params := mcp.JNull |} in
  let request := fun method header =>
    {| server.HttpMethod := method; server.SessionHeader := header;
       server.Body := inl req; server.uuid := "6ba7b810-9dad-11d1-80b4-00c04fd430c8";
       server.now := 0; server.canFlush := true |} in
  let id := "6ba7b810-9dad-11d1-80b4-00c04fd430c8" in
  let '(s1, r1) := server.handleMCP configfile.DefaultConfig env server.New
                     (request "POST" "") in
  let '(s2, r2) := server.handleMCP configfile.DefaultConfig env s1
                     (request "GET" id) in
  let '(s3, r3) := server.handleMCP configfile.DefaultConfig env s2
                     (request "DELETE" id) in
  let '(s4, r4) := server.handleMCP configfile.DefaultConfig env s3
                     (request "GET" id) in
  r2 = server.EventStream /\ r3 = server.Status 200 /\
  r4 = server.HttpError 400 "Invalid session ID".
Proof.
  intros env req request id.
  pose proof (X22_session_lifecycle configfile.DefaultConfig env server.New
                (request "POST" "") (request "GET" id) (request "DELETE" id) req
                eq_refl eq_refl eq_refl eq_refl ltac:(discriminate)
                eq_refl eq_refl eq_refl eq_refl eq_refl) as H.
  destruct (server.handleMCP configfile.DefaultConfig env server.New
              (request "POST" "")) as [s1 r1].
  destruct (server.handleMCP configfile.DefaultConfig env s1
              (request "GET" id)) as [s2 r2].
  destruct (server.handleMCP configfile.DefaultConfig env s2
              (request "DELETE" id)) as [s3 r3].
  destruct (server.handleMCP configfile.DefaultConfig env s3
              (request "GET" id)) as [s4 r4].
  destruct H as (_ & _ & H2 & _ & H3 & _ & H4 & _).
  by repeat split.
Defined.

(** X23. A POST is answered without asking whether the session header
    names a session: the reply carries [HandleRequest]'s answer to the
    request, and the session table stays as it is unless the request is an
    [initialize] without a session header, which adds one session. *)
Theorem X23_post_ignores_sessions (cfg : configfile.FileConfig) (env : mcp.Env)
    (s : server.Server) (r : server.HttpRequest) (req : mcp.JSONRPCRequest) :
  server.HttpMethod r = "POST" ->
  server.Body r = inl req ->
  mcp.Method req <> "notifications/initialized" ->
  exists header,
    snd (server.handleMCP cfg env s r)
      = server.Json header (mcp.HandleRequest cfg env req) /\
    ((header = None /\ fst (server.handleMCP cfg env s r) = s) \/
     (header = Some (server.uuid r) /\
      mcp.Method req = "initialize" /\ server.SessionHeader r = "" /\
      server.sessions (fst (server.handleMCP cfg env s r))
        = <[server.uuid r := {| server.SessionID := server.uuid r;
                                server.CreatedAt := server.now r |}]>
            (server.sessions s))).
Proof.
  intros Hpost Hbody Hn.
  unfold server.handleMCP, server.handleMCPPost. rewrite Hpost, Hbody. cbn.
  apply String.eqb_neq in Hn.
  destruct (String.eqb_spec (mcp.Method req) "initialize") as [Hi|Hi];
    [destruct (String.eqb_spec (server.SessionHeader r) "") as [Hs|Hs]|];
    cbn; rewrite Hn; cbn; eexists; (split; [reflexivity|]);
    first [by left | right; by repeat split].
Qed.

Lemma X23_post_ignores_sessions_witness :
  let env := {| mcp.marshalParams := fun _ => inl "{}";
                mcp.unmarshalParams := fun _ => inr "unexpected end of JSON input";
                mcp.marshalResults := fun _ => inl "[]";
                mcp.search := fun _ => ([], None) |} in
  let req := {| mcp.JSONRPC := "2.0"; mcp.ID := mcp.JString "2";
                mcp.Method := "tools/list"; mcp.Params := mcp.JNull |} in
  let r := {| server.HttpMethod := "POST"; server.SessionHeader := "no-such-session";
              server.Body := inl req; server.uuid := "6ba7b810-9dad-11d1-80b4-00c04fd430c8";
              server.now := 0; server.canFlush := true |} in
  exists header,
    snd (server.handleMCP configfile.DefaultConfig env server.New r)
      = server.Json header (mcp.HandleRequest configfile.DefaultConfig env req).
Proof.
  intros env req r.
  destruct (X23_post_ignores_sessions configfile.DefaultConfig env server.New r
              req eq_refl eq_refl ltac:(discriminate)) as (header & H & _).
  by exists header.
Defined.
(** X24. What the [/mcp] endpoint never does.  A body that does not decode
    is answered with the JSON-RPC error -32700 and a null id, and no
    session is created for it; a GET, an OPTIONS or a request with any
    other method leaves the session table as it is, the other methods
    being refused with 405; and whatever the request, the table afterwards
    is the table before, or that with one session added under the fresh
    identifier, or that with the session of the header removed. *)
Theorem X24_session_table_frame (cfg : configfile.FileConfig) (env : mcp.Env)
    (s : server.Server) (r : server.HttpRequest) :
  let after := fst (server.handleMCP cfg env s r) in
  let reply := snd (server.handleMCP cfg env s r) in
  (forall err, server.HttpMethod r = "POST" -> server.Body r = inr err ->
     after = s /\
     reply = server.Json None
               {| mcp.ResponseJSONRPC := "2.0"; mcp.ResponseID := mcp.JNull;
                  mcp.Result := None;
                  mcp.Error := Some {| mcp.Code := -32700;
                                       mcp.Message := "Parse error: " +:+ err |} |}) /\
  (server.HttpMethod r <> "POST" -> server.HttpMethod r <> "DELETE" ->
   after = s) /\
  (server.HttpMethod r ∉ ["POST"; "GET"; "DELETE"; "OPTIONS"] ->
   reply = server.HttpError 405 "Method not allowed") /\
  (server.sessions after = server.sessions s \/
   server.sessions after
     = <[server.uuid r := {| server.SessionID := server.uuid r;
                             server.CreatedAt := server.now r |}]>
         (server.sessions s) \/
   server.sessions after
     = delete (server.SessionHeader r) (server.sessions s)).
Proof.
  cbv zeta. unfold server.handleMCP.
  split; [|split; [|split]].
  - intros err Hpost Hbody. rewrite Hpost. cbn.
    unfold server.handleMCPPost. rewrite Hbody. by split.
  - intros Hp Hd.
    apply String.eqb_neq in Hp, Hd. rewrite Hp, Hd.
    unfold server.handleMCPGet.
    destruct (String.eqb (server.HttpMethod r) "GET");
      [|destruct (String.eqb (server.HttpMethod r) "OPTIONS"); reflexivity].
    destruct (String.eqb (server.SessionHeader r) ""); [reflexivity|].
    destruct (server.sessions s !! server.SessionHeader r); [|reflexivity].
    by destruct (negb (server.canFlush r)).
  - intros Hn.
    destruct (String.eqb_spec (server.HttpMethod r) "POST") as [E|_];
      [exfalso; apply Hn; rewrite E; apply list_elem_of_In; simpl; tauto|].
    destruct (String.eqb_spec (server.HttpMethod r) "GET") as [E|_];
      [exfalso; apply Hn; rewrite E; apply list_elem_of_In; simpl; tauto|].
    destruct (String.eqb_spec (server.HttpMethod r) "DELETE") as [E|_];
      [exfalso; apply Hn; rewrite E; apply list_elem_of_In; simpl; tauto|].
    destruct (String.eqb_spec (server.HttpMethod r) "OPTIONS") as [E|_];
      [exfalso; apply Hn; rewrite E; apply list_elem_of_In; simpl; tauto|].
    reflexivity.
  - destruct (String.eqb (server.HttpMethod r) "POST").
    { unfold server.handleMCPPost.
      destruct (server.Body r) as [req|err]; [|by left].
      destruct (String.eqb (mcp.Method req) "initialize"
                && String.eqb (server.SessionHeader r) "");
        destruct (String.eqb (mcp.Method req) "notifications/initialized");
        cbn; first [by left | right; by left]. }
    destruct (String.eqb (server.HttpMethod r) "GET").
    { unfold server.handleMCPGet.
      destruct (String.eqb (server.SessionHeader r) ""); [by left|].
      destruct (server.sessions s !! server.SessionHeader r); [|by left].
      destruct (negb (server.canFlush r)); by left. }
    destruct (String.eqb (server.HttpMethod r) "DELETE").
    { unfold server.handleMCPDelete.
      destruct (String.eqb (server.SessionHeader r) ""); [by left|].
      right. by right. }
    destruct (String.eqb (server.HttpMethod r) "OPTIONS"); by left.
Qed.

(** ** The allow-list after validation *)

Lemma validAllowed_elem (names : list string) (a : string) :
  a ∈ configfile.validAllowed names <->
  exists n, n ∈ names /\ a = TrimSpace n /\ config.isValidEngine a = true.
Proof.
  induction names as [|n rest IH]; simpl.
  - split; [intros H; inversion H | intros (? & H & _); inversion H].
  - destruct (config.isValidEngine (TrimSpace n)) eqn:E.
    + rewrite elem_of_cons, IH. split.
      * intros [->|(m & Hm & Ha & Hv)]; [exists n | exists m];
          (split; [|by split]); [by left | by right].
      * intros (m & Hm & Ha & Hv).
        apply elem_of_cons in Hm as [->|Hm]; [by left|].
        right. by exists m.
    + rewrite IH. split.
      * intros (m & Hm & Ha & Hv). exists m. split; [by right | by split].
      * intros (m & Hm & Ha & Hv).
        apply elem_of_cons in Hm as [->|Hm]; [congruence|]. by exists m.
Qed.

(** White space that is not ASCII is trimmed as well: a name followed by
    an ideographic space (U+3000) stays in the allow-list. *)
Example validAllowed_ideographic_space :
  configfile.validAllowed ["bing" +:+ bytes [227; 128; 128]%nat; " baidu" +:+ bytes [194; 160]%nat]
  = ["bing"; "baidu"].
Proof. reflexivity. Qed.

(** X25. [validate] never adds to the allow-list: the engines allowed
    afterwards are the listed names, trimmed, that are valid engine names.
    So as long as one listed name is valid, an engine is allowed only if
    it was listed; but when no listed name is valid (a misspelt list, for
    instance) the list ends up empty, and an empty list allows every valid
    engine. *)
Theorem X25_allow_list_after_validate (c : configfile.FileConfig) (e : string) :
  let before := config.AllowedEngines (configfile.Search c) in
  let validated := configfile.Search (configfile.validate c) in
  (forall a, a ∈ config.AllowedEngines validated <->
             exists n, n ∈ before /\ a = TrimSpace n /\
                       config.isValidEngine a = true) /\
  (config.AllowedEngines validated <> [] ->
   config.IsEngineAllowed validated e = true ->
   exists n, n ∈ before /\ e = TrimSpace n) /\
  (Forall (fun n => config.isValidEngine (TrimSpace n) = false) before ->
   config.AllowedEngines validated = [] /\
   config.IsEngineAllowed validated e = config.isValidEngine e).
Proof.
  cbv zeta.
  assert (Hafter : config.AllowedEngines
                     (configfile.Search (configfile.validate c))
                   = configfile.validAllowed
                       (config.AllowedEngines (configfile.Search c)))
    by reflexivity.
  rewrite Hafter. unfold config.IsEngineAllowed. rewrite Hafter.
  set (before := config.AllowedEngines (configfile.Search c)).
  split; [|split].
  - intros a. apply validAllowed_elem.
  - destruct (configfile.validAllowed before) as [|a l] eqn:E; [done|].
    intros _ H. change (Nat.eqb (length (a :: l)) 0) with false in H.
    cbv iota in H. apply contains_elem_of in H. rewrite <- E in H.
    apply validAllowed_elem in H as (n & Hn & He & _). by exists n.
  - intros Hall.
    assert (Hnil : configfile.validAllowed before = []).
    { induction Hall as [|n rest Hn _ IH]; simpl; [reflexivity|].
      by rewrite Hn. }
    rewrite Hnil. by split.
Qed.
